(** * Traskribe: a Telegram -> Transkriptor relay (src/main.py)

    A shallow embedding of the relay's seven functions
    ([send_telegram_request], [send_message], [send_document],
    [create_transcription], [export_transcription], [poll_and_send],
    [telegram_webhook]) together with the Python and [requests] primitives
    they rely on, followed by the properties of the specification.

    Conventions.
    - A Python [str] is the list of its Unicode code points ([pystr]);
      [len], slicing, [strip], [split] and [startswith] act on code points.
    - A parsed JSON document is a [pyval].
    - Every effect of the program (a call of [requests.post], a sleep, a
      printed log line, a started thread) is appended to a chronological
      [trace]; the answers of the two remote services are read from a
      [world].
    - A Python exception is the [Raise] outcome of a computation; the
      library calls raise what CPython 3.11 and [requests] raise. *)

From Stdlib Require Import Strings.String Strings.Ascii Strings.Byte.
From Stdlib Require Import Numbers.DecimalString.
From Stdlib Require Import ZArith NArith Arith Lia Bool List.
Import ListNotations.

Set Implicit Arguments.
Set Warnings "-register-all".

(* ====================================================================== *)
(** * Python strings *)
(* ====================================================================== *)

Module Py.

(** A [str]: the sequence of its code points. *)
Definition pystr := list N.

(** An ASCII literal of the source, as a [pystr]. *)
Definition lit (s : string) : pystr :=
  map N_of_ascii (list_ascii_of_string s).

(** [str(n)] for an [int]: optional sign and decimal digits. *)
Definition str_of_int (z : Z) : pystr :=
  lit (NilZero.string_of_int (Z.to_int z)).

(** [ch.isspace()]: the white space of CPython's [_PyUnicode_IsWhitespace],
    which is also what [str.strip()] and [str.split()] remove. *)
Definition isspace (c : N) : bool :=
  ((9 <=? c) && (c <=? 13)
   || (28 <=? c) && (c <=? 32)
   || (c =? 133) || (c =? 160) || (c =? 5760)
   || (8192 <=? c) && (c <=? 8202)
   || (c =? 8232) || (c =? 8233) || (c =? 8239) || (c =? 8287)
   || (c =? 12288))%N.

Fixpoint dropwhile (p : N -> bool) (s : pystr) : pystr :=
  match s with
  | [] => []
  | c :: s' => if p c then dropwhile p s' else s
  end.

Fixpoint takewhile (p : N -> bool) (s : pystr) : pystr :=
  match s with
  | [] => []
  | c :: s' => if p c then c :: takewhile p s' else []
  end.

Definition lstrip (s : pystr) : pystr := dropwhile isspace s.
Definition rstrip (s : pystr) : pystr := rev (dropwhile isspace (rev s)).

(** [s.strip()] *)
Definition strip (s : pystr) : pystr := rstrip (lstrip s).

(** [s.startswith(prefix)] *)
Fixpoint startswith (s prefix : pystr) : bool :=
  match prefix, s with
  | [], _ => true
  | _ :: _, [] => false
  | p :: prefix', c :: s' => (c =? p)%N && startswith s' prefix'
  end.

(** [s.split(maxsplit=1)]: white-space separated; leading white space is
    skipped, the first word is cut at the next white space, and what
    follows the white-space run after it (if anything) is kept whole. *)
Definition split_maxsplit1 (s : pystr) : list pystr :=
  match lstrip s with
  | [] => []
  | c :: s' =>
      let word := takewhile (fun x => negb (isspace x)) (c :: s') in
      match lstrip (dropwhile (fun x => negb (isspace x)) (c :: s')) with
      | [] => [word]
      | r :: rest => [word; r :: rest]
      end
  end.

(** [range(start, stop, step)] for a positive step: the values
    [start, start+step, ...] below [stop].  [fuel] bounds the number of
    values; [range] supplies [stop - start], which suffices. *)
Fixpoint range_from (fuel i stop step : nat) : list nat :=
  match fuel with
  | O => []
  | S fuel' => if i <? stop then i :: range_from fuel' (i + step) stop step
               else []
  end.

Definition range (start stop step : nat) : list nat :=
  range_from (stop - start) start stop step.

(** [s[i:j]] for [0 <= i <= j]; a bound beyond the end is clipped. *)
Definition slice (A : Type) (s : list A) (i j : nat) : list A :=
  firstn (j - i) (skipn i s).

(** A byte of value [n mod 256]. *)
Definition byte_of_N (n : N) : byte :=
  match Byte.of_N (n mod 256) with
  | Some b => b
  | None => x00
  end.

(** UTF-8 encoding of one code point; [None] stands for the
    [UnicodeEncodeError] raised on a surrogate (U+D800..U+DFFF), which a
    [str] obtained from JSON may contain.  A [str] holds no code point
    above U+10FFFF. *)
Definition utf8_char (c : N) : option (list byte) :=
  (if c <? 128 then Some [byte_of_N c]
   else if c <? 2048 then
     Some [byte_of_N (192 + c / 64); byte_of_N (128 + c mod 64)]
   else if (55296 <=? c) && (c <=? 57343) then None
   else if c <? 65536 then
     Some [byte_of_N (224 + c / 4096); byte_of_N (128 + (c / 64) mod 64);
           byte_of_N (128 + c mod 64)]
   else if c <? 1114112 then
     Some [byte_of_N (240 + c / 262144); byte_of_N (128 + (c / 4096) mod 64);
           byte_of_N (128 + (c / 64) mod 64); byte_of_N (128 + c mod 64)]
   else None)%N.

(** [s.encode("utf-8")] *)
Fixpoint encode_utf8 (s : pystr) : option (list byte) :=
  match s with
  | [] => Some []
  | c :: s' =>
      match utf8_char c, encode_utf8 s' with
      | Some b, Some bs => Some (b ++ bs)
      | _, _ => None
      end
  end.

End Py.

Import Py.

Fixpoint str_eqb (a b : pystr) : bool :=
  match a, b with
  | [], [] => true
  | x :: a', y :: b' => (x =? y)%N && str_eqb a' b'
  | _, _ => false
  end.

(* ====================================================================== *)
(** * Python values (parsed JSON) *)
(* ====================================================================== *)

(** What [json.loads] produces: [None], [bool], [int], [str], [list] and
    [dict] with [str] keys (a number with a fraction or an exponent, a
    Python [float], is not represented; the program handles it like an
    [int]).  A [dict] keeps its items in insertion order; [lookup] finds
    the item of a key. *)
Inductive pyval : Type :=
| PNone
| PBool (b : bool)
| PInt (z : Z)
| PStr (s : pystr)
| PList (items : list pyval)
| PDict (items : list (pystr * pyval)).

Fixpoint lookup (k : pystr) (d : list (pystr * pyval)) : option pyval :=
  match d with
  | [] => None
  | (k', v) :: d' => if str_eqb k k' then Some v else lookup k d'
  end.

(** Truth value of a value, as tested by [if v:], [not v] and [or]. *)
Definition truthy (v : pyval) : bool :=
  match v with
  | PNone => false
  | PBool b => b
  | PInt z => negb (z =? 0)%Z
  | PStr s => match s with [] => false | _ => true end
  | PList l => match l with [] => false | _ => true end
  | PDict d => match d with [] => false | _ => true end
  end.

(* ====================================================================== *)
(** * The outside world: HTTP, clock, log, threads *)
(* ====================================================================== *)

(** How [resp.json()] fails on a body: the body is not JSON (requests'
    [JSONDecodeError]); it is JSON but holds an integer of more than 4300
    digits, which [int] refuses with a plain [ValueError]; or it is JSON
    nested deeper than the interpreter's recursion limit
    ([RecursionError]). *)
Inductive json_failure : Type :=
| NotJSON
| IntegerTooLong
| NestedTooDeep.

(** What [resp.json()] does on a body: it returns the parsed document or
    fails. *)
Inductive parsed : Type :=
| Parsed (v : pyval)
| Unparsed (f : json_failure).

(** A [requests.Response], by the attributes the program reads:
    [resp.status_code], [resp.content] (raw body), the decoded body
    behind [resp.text], and what [resp.json()] does. *)
Record response : Type := {
  resp_status_code : Z;
  resp_content : list byte;
  resp_decoded : pystr;
  resp_parsed : parsed
}.

(** A code point that UTF-8 can encode, or U+FFFD in its place. *)
Definition scalar (c : N) : N :=
  match utf8_char c with
  | Some _ => c
  | None => 65533%N
  end.

(** [resp.text]: the body decoded with [errors="replace"].  The decoders
    of the Unicode and the 8-bit charsets put U+FFFD where the bytes do
    not decode, and yield no lone surrogate. *)
Definition resp_text (r : response) : pystr := map scalar (resp_decoded r).

(** The document [resp.json()] returns, [None] when it raises. *)
Definition resp_json (r : response) : option pyval :=
  match resp_parsed r with
  | Parsed v => Some v
  | Unparsed _ => None
  end.

(** [resp.ok]: false exactly on the statuses for which
    [resp.raise_for_status()] raises, the 4xx and 5xx. *)
Definition is_error_status (code : Z) : bool :=
  ((400 <=? code) && (code <? 600))%Z.

Definition ok (r : response) : bool := negb (is_error_status (resp_status_code r)).

(** What [requests.post] does: it returns a response, of any status, or
    raises because none arrived (connection error, timeout). *)
Inductive outcome : Type :=
| Responded (r : response)
| NoResponse.

Inductive service : Type := Telegram | Transkriptor.

(** The [n]-th POST of a run to each service is answered by the world.
    The world also holds the standard output the process was started
    with, a UTF-8 text stream: it takes every line that UTF-8 can
    encode, and its error handler decides, line by line, whether it
    takes one that holds a lone surrogate ([stdout_takes]). *)
Record world : Type := {
  telegram : nat -> outcome;
  transkriptor : nat -> outcome;
  stdout_takes : pystr -> bool
}.

Inductive exn : Type :=
| HTTPError (r : response)
| RequestException
| JSONDecodeError
| KeyError (k : pystr)
| TypeError
| AttributeError
| UnicodeEncodeError
| ValueError
| OverflowError
| RecursionError
| BadRequest.

(** Body of a POST: [json=...], or [data=...] with [files=...], by the
    Python values handed to [requests.post]. *)
Inductive payload : Type :=
| Json (params : list (pystr * pyval))
| Multipart (data : list (pystr * pyval))
            (files : list (pystr * (pystr * list byte))).

Inductive event : Type :=
| Post (svc : service) (url : pystr) (headers : list (pystr * pystr))
       (body : payload) (timeout : Z)
| Sleep (seconds : Z)
| Print (line : pystr)
| ThreadStart (order_id chat_id : pyval).

Record state : Type := {
  tg_calls : nat;
  tr_calls : nat;
  trace : list event
}.

Definition initial : state := {| tg_calls := 0; tr_calls := 0; trace := [] |}.

Inductive result (A : Type) : Type :=
| Ok (a : A)
| Raise (e : exn).

Arguments Raise {A} e.

(** A computation: reads and extends the state, returns or raises. *)
Definition M (A : Type) : Type := state -> result A * state.

Definition ret (A : Type) (a : A) : M A := fun st => (Ok a, st).

Definition raise (A : Type) (e : exn) : M A := fun st => (Raise e, st).

Arguments raise {A} e.

Definition bind (A B : Type) (m : M A) (k : A -> M B) : M B :=
  fun st =>
    match m st with
    | (Ok a, st') => k a st'
    | (Raise e, st') => (Raise e, st')
    end.

Declare Scope py_scope.
Delimit Scope py_scope with py.

Notation "x <- m ;; k" := (bind m (fun x => k))
  (at level 100, m at next level, right associativity) : py_scope.
Notation "m ;; k" := (bind m (fun _ => k))
  (at level 100, right associativity) : py_scope.

Local Open Scope py_scope.

Definition emit (e : event) : M unit :=
  fun st => (Ok tt, {| tg_calls := tg_calls st; tr_calls := tr_calls st;
                       trace := trace st ++ [e] |}).

(** [s.encode("utf-8")] succeeds. *)
Definition encodable (s : pystr) : bool :=
  match encode_utf8 s with
  | Some _ => true
  | None => false
  end.

(** [print(line)]: the line is written to the standard output, or the
    stream refuses it with a [UnicodeEncodeError]. *)
Definition print (w : world) (line : pystr) : M unit :=
  if encodable line || stdout_takes w line then emit (Print line)
  else raise UnicodeEncodeError.

(** The largest number of seconds [time.sleep] takes: it converts its
    argument to a signed 64-bit count of nanoseconds, and
    [(2^63 - 1) // 10^9 = 9223372036]. *)
Definition sleep_max : Z := 9223372036.

(** [time.sleep(seconds)] for an [int]: the conversion to nanoseconds
    comes first and is an [OverflowError] beyond [sleep_max] on either
    side of zero; a negative length that converts is a [ValueError]. *)
Definition sleep (seconds : Z) : M unit :=
  if ((seconds <? - sleep_max) || (sleep_max <? seconds))%Z
  then raise OverflowError
  else if (seconds <? 0)%Z then raise ValueError
  else emit (Sleep seconds).

(** [threading.Thread(target=poll_and_send, args=(order_id, chat_id),
    daemon=True).start()] *)
Definition thread_start (order_id chat_id : pyval) : M unit :=
  emit (ThreadStart order_id chat_id).

Definition answer (w : world) (svc : service) (st : state) : outcome :=
  match svc with
  | Telegram => telegram w (tg_calls st)
  | Transkriptor => transkriptor w (tr_calls st)
  end.

Definition count_call (svc : service) (e : event) (st : state) : state :=
  match svc with
  | Telegram => {| tg_calls := S (tg_calls st); tr_calls := tr_calls st;
                   trace := trace st ++ [e] |}
  | Transkriptor => {| tg_calls := tg_calls st; tr_calls := S (tr_calls st);
                       trace := trace st ++ [e] |}
  end.

(** The strings [requests] encodes as UTF-8 for one [data=] field of a
    multipart body.  A [str] is one value, encoded as it is; a value
    without [__iter__] ([None], [bool], [int]) is one value, skipped when
    [None] and else the ASCII text [str(v)]; a [list] is iterated, and
    each element but [None] gives [str(element)], which is the element
    itself for a [str] and escapes every surrogate for a nested [list] or
    [dict]; a [dict] is iterated too, which yields its keys. *)
Definition form_strings (v : pyval) : list pystr :=
  match v with
  | PStr s => [s]
  | PList items =>
      flat_map (fun x => match x with PStr s => [s] | _ => [] end) items
  | PDict items => map fst items
  | PNone | PBool _ | PInt _ => []
  end.

(** [requests] can build the body of the request.  A [json=] body is
    written by [json.dumps], which escapes what UTF-8 cannot hold.  A
    multipart body is encoded as UTF-8, field values and file names
    included, and a lone surrogate in one of them is a
    [UnicodeEncodeError]. *)
Definition buildable (body : payload) : bool :=
  match body with
  | Json _ => true
  | Multipart data files =>
      forallb (fun kv => forallb encodable (form_strings (snd kv))) data
      && forallb (fun f => encodable (fst (snd f))) files
  end.

(** The call was made, but nothing was sent. *)
Definition record_call (e : event) (st : state) : state :=
  {| tg_calls := tg_calls st; tr_calls := tr_calls st;
     trace := trace st ++ [e] |}.

(** [requests.post(url, headers=..., json=.../data=...,files=...,
    timeout=...)].  The [Post] event records the call.  A body that
    cannot be built makes the call raise before anything is sent, and the
    service is not consulted; otherwise the request goes out and the
    world answers it, or does not. *)
Definition requests_post (w : world) (svc : service) (url : pystr)
    (headers : list (pystr * pystr)) (body : payload) (timeout : Z)
  : M response :=
  fun st =>
    let call := Post svc url headers body timeout in
    if buildable body then
      match answer w svc st with
      | Responded r => (Ok r, count_call svc call st)
      | NoResponse => (Raise RequestException, count_call svc call st)
      end
    else (Raise UnicodeEncodeError, record_call call st).

(** [resp.raise_for_status()] *)
Definition raise_for_status (r : response) : M unit :=
  if is_error_status (resp_status_code r) then raise (HTTPError r) else ret tt.

(** The exception of each failure of [resp.json()]. *)
Definition json_exn (f : json_failure) : exn :=
  match f with
  | NotJSON => JSONDecodeError
  | IntegerTooLong => ValueError
  | NestedTooDeep => RecursionError
  end.

(** [resp.json()] *)
Definition json (r : response) : M pyval :=
  match resp_parsed r with
  | Parsed v => ret v
  | Unparsed f => raise (json_exn f)
  end.

(** [try: body  except requests.HTTPError as e: handler(e.response)] *)
Definition try_except_HTTPError (A : Type) (body : M A)
    (handler : response -> M A) : M A :=
  fun st =>
    match body st with
    | (Raise (HTTPError r), st') => handler r st'
    | other => other
    end.

(** [for x in xs: body(x)] *)
Fixpoint for_each (A : Type) (xs : list A) (body : A -> M unit) : M unit :=
  match xs with
  | [] => ret tt
  | x :: xs' => body x ;; for_each xs' body
  end.

(** [v.get(key)] and [v.get(key, default)]: only a [dict] has [get]. *)
Definition py_get (v : pyval) (key : pystr) (default : pyval) : M pyval :=
  match v with
  | PDict d => ret (match lookup key d with Some x => x | None => default end)
  | _ => raise AttributeError
  end.

(** [v[key]] for a [str] key: the item of a [dict], a [KeyError] when it
    has none, a [TypeError] on any other value. *)
Definition py_index (v : pyval) (key : pystr) : M pyval :=
  match v with
  | PDict d => match lookup key d with
               | Some x => ret x
               | None => raise (KeyError key)
               end
  | _ => raise TypeError
  end.

(** [v.strip()]: only a [str] has it. *)
Definition py_strip (v : pyval) : M pystr :=
  match v with
  | PStr s => ret (strip s)
  | _ => raise AttributeError
  end.

(** [v.encode("utf-8")]: only a [str] has it. *)
Definition py_encode (v : pyval) : M (list byte) :=
  match v with
  | PStr s => match encode_utf8 s with
              | Some b => ret b
              | None => raise UnicodeEncodeError
              end
  | _ => raise AttributeError
  end.

(* ====================================================================== *)
(** * The program (src/main.py) *)
(* ====================================================================== *)

(** Configuration read from the environment at start-up (lines 13-15).
    The two credentials are text that a URL and an HTTP header can
    carry, as the tokens the two services issue are. *)
Record config : Type := {
  TELEGRAM_BOT_TOKEN : pystr;
  TRANSKRIPTOR_API_KEY : pystr;
  POLL_INTERVAL : Z
}.

(** Lines 17-20: the module refuses to load without both credentials. *)
Definition startup_ok (cfg : config) : bool :=
  match TELEGRAM_BOT_TOKEN cfg, TRANSKRIPTOR_API_KEY cfg with
  | _ :: _, _ :: _ => true
  | _, _ => false
  end.

(** An inbound Flask request: its method, and what
    [request.get_json(force=True)] yields, [None] when the body is not
    JSON and the call aborts with [BadRequest]. *)
Record request : Type := {
  method : pystr;
  body_json : option pyval
}.

Inductive loop_ctl : Type := Continue | Break.

(** Where a run of a loop stands after a bounded number of iterations. *)
Inductive run (A : Type) : Type :=
| Done (r : result A) (st : state)
| Running (st : state).

Arguments Running {A} st.

Section Relay.

Variable cfg : config.

(** [repr()] of a [list] or a [dict], which is what an f-string prints
    for them; its quoting rules are left open. *)
Variable repr : pyval -> pystr.

Variable w : world.

Definition TELEGRAM_API : pystr :=
  lit "https://api.telegram.org/bot" ++ TELEGRAM_BOT_TOKEN cfg.

Definition TRANSKRIPTOR_BASE : pystr := lit "https://api.tor.app".

(** [f"{v}"] *)
Definition format (v : pyval) : pystr :=
  match v with
  | PNone => lit "None"
  | PBool true => lit "True"
  | PBool false => lit "False"
  | PInt z => str_of_int z
  | PStr s => s
  | PList _ | PDict _ => repr v
  end.

(** Lines 28-34. *)
Definition send_telegram_request (method : pystr)
    (params : list (pystr * pyval)) : M pyval :=
  let url := TELEGRAM_API ++ lit "/" ++ method in
  resp <- requests_post w Telegram url [] (Json params) 30 ;;
  (if negb (ok resp)
   then print w (lit "[Telegram] " ++ method ++ lit " failed: "
               ++ str_of_int (resp_status_code resp) ++ [32; 8211; 32]%N
               ++ resp_text resp)
   else ret tt) ;;
  json resp.

Definition max_len : nat := 4096.

(** Lines 37-44. *)
Definition send_message (chat_id : pyval) (text : pystr) (reply_to : pyval)
  : M unit :=
  for_each (range 0 (length text) max_len)
    (fun i =>
       let part := slice text i (i + max_len) in
       _ <- send_telegram_request (lit "sendMessage")
              [(lit "chat_id", chat_id); (lit "text", PStr part);
               (lit "reply_to_message_id", reply_to)] ;;
       ret tt).

(** Lines 47-54. *)
Definition send_document (chat_id : pyval) (file_name : pystr)
    (file_bytes : list byte) (caption : pystr) : M unit :=
  let files := [(lit "document", (file_name, file_bytes))] in
  let data := [(lit "chat_id", chat_id); (lit "caption", PStr caption)] in
  let url := TELEGRAM_API ++ lit "/sendDocument" in
  resp <- requests_post w Telegram url [] (Multipart data files) 60 ;;
  if negb (ok resp)
  then print w (lit "[Telegram] sendDocument failed: "
              ++ str_of_int (resp_status_code resp) ++ [32; 8211; 32]%N
              ++ resp_text resp)
  else ret tt.

(** Lines 60-64. *)
Definition TRANS_HEADERS : list (pystr * pystr) :=
  [(lit "Content-Type", lit "application/json");
   (lit "Authorization", lit "Bearer " ++ TRANSKRIPTOR_API_KEY cfg);
   (lit "Accept", lit "application/json")].

(** Lines 66-77. *)
Definition create_transcription (youtube_url language service : pystr)
  : M pyval :=
  let endpoint := TRANSKRIPTOR_BASE ++ lit "/developer/transcription/url" in
  let payload := [(lit "url", PStr youtube_url);
                  (lit "service", PStr service);
                  (lit "language", PStr language)] in
  resp <- requests_post w Transkriptor endpoint TRANS_HEADERS
            (Json payload) 30 ;;
  raise_for_status resp ;;
  data <- json resp ;;
  py_index data (lit "order_id").

(** Lines 80-92. *)
Definition export_transcription (order_id : pyval) : M (Z * pyval) :=
  let endpoint := TRANSKRIPTOR_BASE ++ lit "/developer/files/"
                  ++ format order_id ++ lit "/content/export" in
  let payload := [(lit "export_type", PStr (lit "txt"));
                  (lit "include_speaker_names", PBool true);
                  (lit "include_timestamps", PBool true);
                  (lit "merge_same_speaker_segments", PBool false);
                  (lit "is_single_paragraph", PBool false);
                  (lit "paragraph_size", PInt 4)] in
  resp <- requests_post w Transkriptor endpoint TRANS_HEADERS
            (Json payload) 30 ;;
  data <- match resp_content resp with
          | _ :: _ => json resp
          | [] => ret (PDict [])
          end ;;
  ret (resp_status_code resp, data).

(** Lines 101-119: one turn of the [while True] loop of [poll_and_send]. *)
Definition poll_iteration (order_id chat_id : pyval) : M loop_ctl :=
  sd <- export_transcription order_id ;;
  let status_code := fst sd in
  let data := snd sd in
  if (status_code =? 200)%Z then
    content <- py_get data (lit "content") PNone ;;
    presigned_url <- py_get data (lit "presigned_url") PNone ;;
    (if truthy content then
       file_bytes <- py_encode content ;;
       send_document chat_id (format order_id ++ lit ".txt") file_bytes
         (lit "Here is your transcript!")
     else if truthy presigned_url then
       send_message chat_id
         (lit "Transcription is ready: " ++ format presigned_url) PNone
     else
       send_message chat_id
         (lit "Transcription completed but no content was returned.")
         PNone) ;;
    ret Break
  else if (status_code =? 202)%Z then
    print w (lit "[Poll] Order " ++ format order_id
           ++ lit " still processing...") ;;
    sleep (POLL_INTERVAL cfg) ;;
    ret Continue
  else
    send_message chat_id
      (lit "Failed to retrieve transcript (status: "
       ++ str_of_int status_code ++ lit ").") PNone ;;
    ret Break.

(** Lines 98-119.  The loop has no bound of its own: [fuel] is the number
    of turns observed, and [Running] the state reached when they are
    used up with the loop still going. *)
Fixpoint poll_and_send (fuel : nat) (order_id chat_id : pyval) (st : state)
  : run unit :=
  match fuel with
  | O => Running st
  | S fuel' =>
      match poll_iteration order_id chat_id st with
      | (Ok Continue, st') => poll_and_send fuel' order_id chat_id st'
      | (Ok Break, st') => Done (Ok tt) st'
      | (Raise e, st') => Done (Raise e) st'
      end
  end.

(** [jsonify({}), 200] *)
Definition empty_200 : pyval * Z := (PDict [], 200%Z).

(** [request.get_json(force=True)] *)
Definition get_json (req : request) : M pyval :=
  match body_json req with
  | Some v => ret v
  | None => raise BadRequest
  end.

(** Lines 141-157 of [telegram_webhook]: the command dispatch on the
    trimmed text, up to the [return] that follows it. *)
Definition telegram_webhook_command (chat_id : pyval) (text : pystr)
  : M (pyval * Z) :=
  if startswith text (lit "/transcribe") then
    let parts := split_maxsplit1 text in
    if negb (length parts =? 2) then
      send_message chat_id (lit "Usage: /transcribe <YouTube URL>") PNone ;;
      ret empty_200
    else
      let youtube_url := nth 1 parts [] in
      try_except_HTTPError
        (order_id <- create_transcription youtube_url (lit "en-US")
                       (lit "Standard") ;;
         send_message chat_id
           ([9989]%N ++ lit " Transcription started! Order ID: "
            ++ format order_id ++ [10]%N
            ++ lit "I'll notify you when it's ready.") PNone ;;
         thread_start order_id chat_id)
        (fun e_response =>
           send_message chat_id
             ([10060]%N ++ lit " Failed to create transcription: "
              ++ resp_text e_response) PNone) ;;
      ret empty_200
  else
    send_message chat_id
      (lit "Send /transcribe <YouTube URL> to start a transcription.")
      PNone ;;
    ret empty_200.

(** Lines 127-159. *)
Definition telegram_webhook (req : request) : M (pyval * Z) :=
  if str_eqb (method req) (lit "POST") then
    update <- get_json req ;;
    if negb (truthy update) then ret empty_200 else
    m <- py_get update (lit "message") PNone ;;
    message <- (if truthy m then ret m
                else py_get update (lit "edited_message") PNone) ;;
    if negb (truthy message) then ret empty_200 else
    chat <- py_index message (lit "chat") ;;
    chat_id <- py_index chat (lit "id") ;;
    t <- py_get message (lit "text") (PStr []) ;;
    text <- py_strip t ;;
    telegram_webhook_command chat_id text
  else ret empty_200.

End Relay.

(* ====================================================================== *)
(** * Observing a run *)
(* ====================================================================== *)

Definition is_print (e : event) : bool :=
  match e with Print _ => true | _ => false end.

(** What a run did to the outside, in order: every event but the log
    lines. *)
Definition effects (evs : list event) : list event :=
  filter (fun e => negb (is_print e)) evs.

(** The log lines of a run. *)
Definition logged (evs : list event) : list event := filter is_print evs.

(** The lengths of the sleeps of a run, in order. *)
Definition sleeps (evs : list event) : list Z :=
  flat_map (fun e => match e with Sleep s => [s] | _ => [] end) evs.

(** The POST that [send_message] issues for one part of a text. *)
Definition sendMessage (cfg : config) (chat_id reply_to : pyval)
    (part : pystr) : event :=
  Post Telegram (TELEGRAM_API cfg ++ lit "/" ++ lit "sendMessage") []
    (Json [(lit "chat_id", chat_id); (lit "text", PStr part);
           (lit "reply_to_message_id", reply_to)]) 30.

(** The POST that [send_document] issues. *)
Definition sendDocument (cfg : config) (chat_id : pyval) (file_name : pystr)
    (file_bytes : list byte) (caption : pystr) : event :=
  Post Telegram (TELEGRAM_API cfg ++ lit "/sendDocument") []
    (Multipart [(lit "chat_id", chat_id); (lit "caption", PStr caption)]
               [(lit "document", (file_name, file_bytes))]) 60.

(** The POST that [create_transcription] issues. *)
Definition create_request (cfg : config)
    (youtube_url language service : pystr) : event :=
  Post Transkriptor
    (TRANSKRIPTOR_BASE ++ lit "/developer/transcription/url")
    (TRANS_HEADERS cfg)
    (Json [(lit "url", PStr youtube_url);
           (lit "service", PStr service);
           (lit "language", PStr language)]) 30.

(** The POST that [export_transcription] issues. *)
Definition export_request (cfg : config) (repr : pyval -> pystr)
    (order_id : pyval) : event :=
  Post Transkriptor
    (TRANSKRIPTOR_BASE ++ lit "/developer/files/" ++ format repr order_id
     ++ lit "/content/export")
    (TRANS_HEADERS cfg)
    (Json [(lit "export_type", PStr (lit "txt"));
           (lit "include_speaker_names", PBool true);
           (lit "include_timestamps", PBool true);
           (lit "merge_same_speaker_segments", PBool false);
           (lit "is_single_paragraph", PBool false);
           (lit "paragraph_size", PInt 4)]) 30.

(** The log line of a failed Telegram call. *)
Definition telegram_failure_line (what : pystr) (r : response) : event :=
  Print (lit "[Telegram] " ++ what ++ lit " failed: "
         ++ str_of_int (resp_status_code r) ++ [32; 8211; 32]%N
         ++ resp_text r).

(** The successive values of [part] in the loop of [send_message]. *)
Definition message_parts (text : pystr) : list pystr :=
  map (fun i => slice text i (i + max_len)) (range 0 (length text) max_len).

(** [ceil(a / b)] on naturals. *)
Definition ceil_div (a b : nat) : nat := (a + (b - 1)) / b.

(** The exception of [resp.json()] on a response it fails on. *)
Definition json_error (r : response) : exn :=
  match resp_parsed r with
  | Unparsed f => json_exn f
  | Parsed _ => JSONDecodeError
  end.

(** [time.sleep] accepts the length. *)
Definition sleepable (seconds : Z) : bool :=
  ((0 <=? seconds) && (seconds <=? sleep_max))%Z.

(** What [time.sleep] raises on a length it does not accept. *)
Definition sleep_error (seconds : Z) : exn :=
  if ((seconds <? - sleep_max) || (sleep_max <? seconds))%Z
  then OverflowError else ValueError.

(** [requests] can build the multipart body of [send_document]: the chat
    id, the caption and the file name can be encoded. *)
Definition uploadable (chat_id : pyval) (file_name caption : pystr) : bool :=
  forallb encodable (form_strings chat_id)
  && encodable caption && encodable file_name.

(** The service answered and [resp.json()] succeeds on the answer. *)
Definition answers_json (o : outcome) : bool :=
  match o with
  | Responded r => match resp_json r with Some _ => true | None => false end
  | NoResponse => false
  end.

(** What [export_transcription] returns on an answer of the service:
    the pair [(status_code, json)], or nothing when the call raises. *)
Definition export_result (o : outcome) : option (Z * pyval) :=
  match o with
  | Responded r =>
      match resp_content r with
      | [] => Some (resp_status_code r, PDict [])
      | _ :: _ => match resp_json r with
                  | Some v => Some (resp_status_code r, v)
                  | None => None
                  end
      end
  | NoResponse => None
  end.

(** [d.get(key)] on the items of a [dict]. *)
Definition get_or_none (key : pystr) (d : list (pystr * pyval)) : pyval :=
  match lookup key d with Some v => v | None => PNone end.

(** A well-formed inbound update: a POST whose JSON body is an object
    carrying a [message] (or else an [edited_message]) object with a
    [chat] object that has an [id], and a [text] that is a [str] or is
    absent.  Yields the chat id and the text field, [None] when the
    message has none. *)
Definition incoming_raw (req : request) : option (pyval * option pystr) :=
  if str_eqb (method req) (lit "POST") then
    match body_json req with
    | Some (PDict u) =>
        let m := get_or_none (lit "message") u in
        let message :=
          if truthy m then m else get_or_none (lit "edited_message") u in
        match message with
        | PDict items =>
            match lookup (lit "chat") items with
            | Some (PDict c) =>
                match lookup (lit "id") c, lookup (lit "text") items with
                | Some chat_id, None => Some (chat_id, None)
                | Some chat_id, Some (PStr s) => Some (chat_id, Some s)
                | _, _ => None
                end
            | _ => None
            end
        | _ => None
        end
    | _ => None
    end
  else None.

(** [message.get("text", "").strip()] for such a text field. *)
Definition trimmed (raw : option pystr) : pystr :=
  strip (match raw with Some s => s | None => [] end).

(** The chat id and the trimmed text of lines 138-139. *)
Definition incoming (req : request) : option (pyval * pystr) :=
  match incoming_raw req with
  | Some (chat_id, raw) => Some (chat_id, trimmed raw)
  | None => None
  end.

(** The text field is absent, empty, or made of white space only. *)
Definition blank (raw : option pystr) : bool :=
  match raw with
  | None => true
  | Some s => forallb isspace s
  end.

(** The two usage hints of the handler. *)
Definition usage_hint : pystr := lit "Usage: /transcribe <YouTube URL>".

Definition reminder_hint : pystr :=
  lit "Send /transcribe <YouTube URL> to start a transcription.".


(** What Flask makes of the handler's outcome: the returned status, the
    code of an aborting [BadRequest], or 500 for any other exception. *)
Definition http_status (r : result (pyval * Z)) : Z :=
  match r with
  | Ok (_, code) => code
  | Raise BadRequest => 400
  | Raise _ => 500
  end.

(** The log lines a Telegram call leaves for an answer of the service. *)
Definition failure_log (what : pystr) (o : outcome) : list event :=
  match o with
  | Responded r => if ok r then [] else [telegram_failure_line what r]
  | NoResponse => []
  end.

(** The events of posting [parts] one after the other, the first one as
    the [n]-th Telegram call of the run. *)
Fixpoint parts_trace (cfg : config) (w : world) (chat_id reply_to : pyval)
    (parts : list pystr) (n : nat) : list event :=
  match parts with
  | [] => []
  | part :: parts' =>
      sendMessage cfg chat_id reply_to part
      :: failure_log (lit "sendMessage") (telegram w n)
      ++ parts_trace cfg w chat_id reply_to parts' (S n)
  end.

(** How many of [parts] get posted: the loop of [send_message] stops at
    the first call that raises. *)
Fixpoint sent_count (w : world) (n : nat) (parts : list pystr) : nat :=
  match parts with
  | [] => 0
  | _ :: parts' =>
      if answers_json (telegram w n) then S (sent_count w (S n) parts')
      else 1
  end.

(** How posting [parts] ends. *)
Fixpoint send_outcome (w : world) (n : nat) (parts : list pystr)
  : result unit :=
  match parts with
  | [] => Ok tt
  | _ :: parts' =>
      match telegram w n with
      | Responded r =>
          match resp_json r with
          | Some _ => send_outcome w (S n) parts'
          | None => Raise (json_error r)
          end
      | NoResponse => Raise RequestException
      end
  end.

(** What [send_telegram_request] raises on an answer that is none, or
    one whose body [resp.json()] fails on. *)
Definition send_error (o : outcome) : exn :=
  match o with
  | Responded r => json_error r
  | NoResponse => RequestException
  end.

(** The state after [k] more Telegram calls that left the events [evs]. *)
Definition after_telegram (st : state) (k : nat) (evs : list event) : state :=
  {| tg_calls := tg_calls st + k; tr_calls := tr_calls st;
     trace := trace st ++ evs |}.

(** The events a run added to the trace of the state it started from. *)
Definition new_events (st st' : state) : list event :=
  skipn (length (trace st)) (trace st').

(** The identifier field of a response body, when the body is a JSON
    object that has one. *)
Definition body_order_id (r : response) : option pyval :=
  match resp_json r with
  | Some (PDict d) => lookup (lit "order_id") d
  | _ => None
  end.

(** How [create_transcription] ends on an answer of the service. *)
Definition create_result (o : outcome) : result pyval :=
  match o with
  | NoResponse => Raise RequestException
  | Responded r =>
      if is_error_status (resp_status_code r) then Raise (HTTPError r)
      else match resp_json r with
           | None => Raise (json_error r)
           | Some (PDict d) =>
               match lookup (lit "order_id") d with
               | Some v => Ok v
               | None => Raise (KeyError (lit "order_id"))
               end
           | Some _ => Raise TypeError
           end
  end.

(** The command token. *)
Definition token : pystr := lit "/transcribe".

(** The command argument the handler submits: what follows the first
    white-space run of the trimmed text. *)
Definition argument (text : pystr) : pystr :=
  lstrip (dropwhile (fun c => negb (isspace c)) text).

(** The condition of the specification, in its words: the text begins
    with the command token, followed by white space and a non-empty
    argument. *)
Definition spec_command (text : pystr) : bool :=
  startswith text token
  && match skipn (length token) text with
     | c :: rest => isspace c && negb (forallb isspace rest)
     | [] => false
     end.

(** A run submitted an order: it posted to the transcription service. *)
Definition submitted (evs : list event) : bool :=
  existsb (fun e => match e with
                    | Post Transkriptor _ _ _ _ => true
                    | _ => false
                    end) evs.

(** A run started a delivery task. *)
Definition started (evs : list event) : bool :=
  existsb (fun e => match e with ThreadStart _ _ => true | _ => false end)
          evs.

(** The acknowledgement and the failure report of the handler. *)
Definition started_text (repr : pyval -> pystr) (order_id : pyval) : pystr :=
  [9989]%N ++ lit " Transcription started! Order ID: "
  ++ format repr order_id ++ [10]%N
  ++ lit "I'll notify you when it's ready.".

Definition create_failed_text (r : response) : pystr :=
  [10060]%N ++ lit " Failed to create transcription: " ++ resp_text r.

(** How a handler branch that sends one text and returns ends. *)
Definition return_after (r : result unit) : result (pyval * Z) :=
  match r with
  | Ok _ => Ok empty_200
  | Raise e => Raise e
  end.

(** The state after one more event that is not an HTTP call. *)
Definition with_event (st : state) (e : event) : state :=
  {| tg_calls := tg_calls st; tr_calls := tr_calls st;
     trace := trace st ++ [e] |}.

(** A computation that, when it returns, returns [jsonify({}), 200]. *)
Definition returns_empty_200 (m : M (pyval * Z)) : Prop :=
  forall st x, fst (m st) = Ok x -> x = empty_200.

(** The state after [k] more Transkriptor calls that left the events
    [evs]. *)
Definition after_transkriptor (st : state) (k : nat) (evs : list event)
  : state :=
  {| tg_calls := tg_calls st; tr_calls := tr_calls st + k;
     trace := trace st ++ evs |}.

(** What [export_transcription] raises on an answer it cannot return. *)
Definition export_error (o : outcome) : exn :=
  match o with
  | Responded r => json_error r
  | NoResponse => RequestException
  end.

(** The standard output takes the line. *)
Definition prints (w : world) (line : pystr) : bool :=
  encodable line || stdout_takes w line.

(** The log line of a turn of the poll loop on a 202. *)
Definition poll_line (repr : pyval -> pystr) (order_id : pyval) : pystr :=
  lit "[Poll] Order " ++ format repr order_id ++ lit " still processing...".

(** A turn on a 202 can log and sleep: the log line is printed and
    [time.sleep] accepts the configured interval. *)
Definition can_wait (cfg : config) (repr : pyval -> pystr) (w : world)
    (order_id : pyval) : bool :=
  prints w (poll_line repr order_id) && sleepable (POLL_INTERVAL cfg).

(** What a turn on a 202 raises when it cannot, and what it has logged
    by then. *)
Definition wait_error (cfg : config) (repr : pyval -> pystr) (w : world)
    (order_id : pyval) : exn :=
  if prints w (poll_line repr order_id)
  then sleep_error (POLL_INTERVAL cfg)
  else UnicodeEncodeError.

Definition wait_log (repr : pyval -> pystr) (w : world) (order_id : pyval)
  : list event :=
  if prints w (poll_line repr order_id)
  then [Print (poll_line repr order_id)]
  else [].


(** The events of one turn of the poll loop on a 202: the export request,
    the log line, the sleep. *)
Definition waiting (cfg : config) (repr : pyval -> pystr) (order_id : pyval)
  : list event :=
  [export_request cfg repr order_id;
   Print (lit "[Poll] Order " ++ format repr order_id
          ++ lit " still processing...");
   Sleep (POLL_INTERVAL cfg)].

(** The events of [k] such turns in a row. *)
Fixpoint waiting_turns (cfg : config) (repr : pyval -> pystr)
    (order_id : pyval) (k : nat) : list event :=
  match k with
  | O => []
  | S k' => waiting cfg repr order_id ++ waiting_turns cfg repr order_id k'
  end.


Definition no_content_text : pystr :=
  lit "Transcription completed but no content was returned.".


(** How a turn of the loop that sends a text ends. *)
Definition break_after (r : result unit) : result loop_ctl :=
  match r with
  | Ok _ => Ok Break
  | Raise e => Raise e
  end.

(** The state in which the handler sends its answer to a submission:
    the creation request for [arg] has been posted. *)
Definition submitted_state (cfg : config) (st : state) (arg : pystr)
  : state :=
  after_transkriptor st 1
    [create_request cfg arg (lit "en-US") (lit "Standard")].

(* ====================================================================== *)
(** * Sample configurations, answers and worlds *)
(* ====================================================================== *)

Module Sample.

Definition cfg : config :=
  {| TELEGRAM_BOT_TOKEN := lit "123:abc";
     TRANSKRIPTOR_API_KEY := lit "key";
     POLL_INTERVAL := 30 |}.

(** [repr] is only consulted for lists and dicts, which the samples do
    not format. *)
Definition repr (v : pyval) : pystr := lit "...".

(** A response whose body is the ASCII text [body], which is the JSON
    document [parsed] or, without one, is not JSON. *)
Definition reply (code : Z) (body : pystr) (parsed : option pyval)
  : response :=
  {| resp_status_code := code; resp_content := map byte_of_N body;
     resp_decoded := body;
     resp_parsed := match parsed with
                    | Some v => Parsed v
                    | None => Unparsed NotJSON
                    end |}.

(** The double quote. *)
Definition dq : pystr := [34%N].

(** Telegram's answer to a delivered message: [{"ok": true}]. *)
Definition tg_ok : response :=
  reply 200 (lit "{" ++ dq ++ lit "ok" ++ dq ++ lit ": true}")
    (Some (PDict [(lit "ok", PBool true)])).

(** Telegram refusing a message: 400 with a JSON description. *)
Definition tg_rejected : response :=
  reply 400 (lit "{" ++ dq ++ lit "ok" ++ dq ++ lit ": false}")
    (Some (PDict [(lit "ok", PBool false)])).

(** A gateway in front of Telegram answering 502 with an HTML page. *)
Definition tg_bad_gateway : response :=
  reply 502 (lit "<html>502 Bad Gateway</html>") None.

(** A response with an empty body. *)
Definition empty_reply (code : Z) : response := reply code [] None.

(** A standard output with the [strict] error handler: it refuses every
    line that UTF-8 cannot encode. *)
Definition strict : pystr -> bool := fun _ => false.

Definition always (r : response) : nat -> outcome := fun _ => Responded r.
Definition never : nat -> outcome := fun _ => NoResponse.

(** Answers given by a finite script, then [rest]. *)
Definition script (rs : list response) (rest : outcome) : nat -> outcome :=
  fun n => match nth_error rs n with
           | Some r => Responded r
           | None => rest
           end.

(** Both services up; Transkriptor answers every call with 202. *)
Definition processing : world :=
  {| telegram := always tg_ok; transkriptor := always (empty_reply 202);
     stdout_takes := strict |}.

(** Telegram unreachable. *)
Definition telegram_down : world :=
  {| telegram := never; transkriptor := always (empty_reply 202);
     stdout_takes := strict |}.

(** Telegram behind a failing gateway. *)
Definition telegram_bad_gateway : world :=
  {| telegram := always tg_bad_gateway;
     transkriptor := always (empty_reply 202);
     stdout_takes := strict |}.

(** Telegram rejecting every message with a JSON error. *)
Definition telegram_rejecting : world :=
  {| telegram := always tg_rejected;
     transkriptor := always (empty_reply 202);
     stdout_takes := strict |}.

Definition chat : pyval := PInt 42.

(** A text of 5000 code points. *)
Definition long_text : pystr := repeat 97%N 5000.

Definition order : pyval := PStr (lit "abc123").

(** A JSON object with the single string member [key]. *)
Definition object_text (key value : pystr) : pystr :=
  lit "{" ++ dq ++ key ++ dq ++ lit ": " ++ dq ++ value ++ dq ++ lit "}".

Definition object_reply (code : Z) (key value : pystr) : response :=
  reply code (object_text key value) (Some (PDict [(key, PStr value)])).

(** The finished export with inline content [hello]. *)
Definition hello_reply : response :=
  object_reply 200 (lit "content") (lit "hello").





(** A finished export whose content is the empty string. *)
Definition empty_content_reply : response :=
  object_reply 200 (lit "content") [].

(** The worlds of the delivery scenarios; Telegram is up in all. *)
Definition exporting (rs : list response) : world :=
  {| telegram := always tg_ok;
     transkriptor := script rs (Responded (empty_reply 202));
     stdout_takes := strict |}.

(** 202, 202, then 200 with [{content: hello}]. *)
Definition abc123_world : world :=
  exporting [empty_reply 202; empty_reply 202; hello_reply].

(** Answers of the creation endpoint: an accepted order, the same body
    under status 300, a 2xx body without the identifier, a refusal with
    a JSON detail, and a refusal with a body of 5000 code points. *)
Definition created_reply : response :=
  object_reply 200 (lit "order_id") (lit "abc123").

Definition multiple_choices_reply : response :=
  object_reply 300 (lit "order_id") (lit "abc123").

Definition no_id_reply : response :=
  object_reply 200 (lit "status") (lit "queued").

Definition bad_request_reply : response :=
  object_reply 400 (lit "message") (lit "Invalid URL").

Definition long_error_reply : response := reply 400 long_text None.

(** Telegram up; the transcription service always gives the answer [o]. *)
Definition serving (o : outcome) : world :=
  {| telegram := always tg_ok; transkriptor := fun _ => o;
     stdout_takes := strict |}.

(** An update carrying a message of chat 42 with the text [t]. *)
Definition text_update (t : pystr) : request :=
  {| method := lit "POST";
     body_json :=
       Some (PDict [(lit "update_id", PInt 1);
                    (lit "message",
                     PDict [(lit "message_id", PInt 5);
                            (lit "chat", PDict [(lit "id", chat)]);
                            (lit "text", PStr t)])]) |}.

(** An update carrying a message without text (a photo, say). *)
Definition photo_update : request :=
  {| method := lit "POST";
     body_json :=
       Some (PDict [(lit "update_id", PInt 1);
                    (lit "message",
                     PDict [(lit "message_id", PInt 5);
                            (lit "chat", PDict [(lit "id", chat)])])]) |}.

(** An update whose message has no [chat]. *)
Definition chatless_update : request :=
  {| method := lit "POST";
     body_json :=
       Some (PDict [(lit "update_id", PInt 1);
                    (lit "message", PDict [(lit "text", PStr (lit "hi"))])])
  |}.

(** An update of another kind (no message, no edited message). *)
Definition other_update : request :=
  {| method := lit "POST";
     body_json := Some (PDict [(lit "update_id", PInt 1)]) |}.

(** A body that is not JSON. *)
Definition garbage_request : request :=
  {| method := lit "POST"; body_json := None |}.

End Sample.


(* ====================================================================== *)
(** * Further observations of a run *)
(* ====================================================================== *)

(** Events that concern the chat only: Telegram requests and log lines. *)
Definition chat_only (evs : list event) : bool :=
  forallb (fun e => match e with
                    | Post Telegram _ _ _ _ | Print _ => true
                    | _ => false
                    end) evs.

(** The document uploads of a run. *)
Definition documents (evs : list event) : list event :=
  filter (fun e => match e with
                   | Post Telegram _ _ (Multipart _ _) _ => true
                   | _ => false
                   end) evs.

(** The delivery tasks a run started, by order id and chat id. *)
Definition threads (evs : list event) : list (pyval * pyval) :=
  flat_map (fun e => match e with
                     | ThreadStart order_id chat_id => [(order_id, chat_id)]
                     | _ => []
                     end) evs.


(** Line 134: [update.get("message") or update.get("edited_message")] on
    the items of the update. *)
Definition selected_message (u : list (pystr * pyval)) : pyval :=
  if truthy (get_or_none (lit "message") u)
  then get_or_none (lit "message") u
  else get_or_none (lit "edited_message") u.

(** The exceptions a payload can raise before the command dispatch. *)
Definition payload_errors : list exn :=
  [BadRequest; AttributeError; TypeError;
   KeyError (lit "chat"); KeyError (lit "id")].


(** The outcome of a payload that never reaches the command dispatch:
    the state is untouched, and the handler returns or raises one of
    [payload_errors]. *)
Definition inert (out : result (pyval * Z) * state) (st : state) : Prop :=
  snd out = st
  /\ (fst out = Ok empty_200
      \/ exists e, fst out = Raise e /\ In e payload_errors).

(** What the handler may do to the outside, whatever the request: no
    sleep, no document, at most one call to the transcription service,
    at most one task, started last and only on the way to a 200. *)
Definition handler_footprint_of (st : state)
    (out : result (pyval * Z) * state) : Prop :=
  let evs := new_events st (snd out) in
  sleeps evs = []
  /\ documents evs = []
  /\ tr_calls (snd out) <= tr_calls st + 1
  /\ length (threads evs) <= 1
  /\ (started evs = true ->
      fst out = Ok (PDict [], 200%Z)
      /\ submitted evs = true
      /\ exists order_id chat_id before,
           evs = before ++ [ThreadStart order_id chat_id]).

(** A POST whose body is the JSON object with the items [u]. *)
Definition update_request (u : list (pystr * pyval)) : request :=
  {| method := lit "POST"; body_json := Some (PDict u) |}.

Module Cases.

(** The state in which the [abc123] scenario ends. *)
Definition abc123_final : state :=
  after_telegram
    (after_transkriptor initial 3
       (waiting_turns Sample.cfg Sample.repr Sample.order 2
        ++ [export_request Sample.cfg Sample.repr Sample.order])) 1
    [sendDocument Sample.cfg Sample.chat (lit "abc123.txt")
       [x68; x65; x6c; x6c; x6f] (lit "Here is your transcript!")].

(** A configuration with a negative poll interval. *)
Definition negative_interval : config :=
  {| TELEGRAM_BOT_TOKEN := lit "123:abc";
     TRANSKRIPTOR_API_KEY := lit "key";
     POLL_INTERVAL := -1 |}.

(** A finished export whose content holds a lone surrogate, written
    [\ud800] in the JSON text. *)
Definition surrogate_reply : response :=
  Sample.reply 200
    (lit "{" ++ Sample.dq ++ lit "content" ++ Sample.dq ++ lit ": "
     ++ Sample.dq ++ lit "\ud800" ++ Sample.dq ++ lit "}")
    (Some (PDict [(lit "content", PStr [55296%N])])).

(** A finished export whose body is a JSON array. *)
Definition array_reply : response :=
  Sample.reply 200 (lit "[]") (Some (PList [])).

(** A finished export whose content is a number. *)
Definition number_content_reply : response :=
  Sample.reply 200
    (lit "{" ++ Sample.dq ++ lit "content" ++ Sample.dq ++ lit ": 7}")
    (Some (PDict [(lit "content", PInt 7)])).

(** An accepted creation whose identifier is [null]. *)
Definition null_id_reply : response :=
  Sample.reply 200
    (lit "{" ++ Sample.dq ++ lit "order_id" ++ Sample.dq ++ lit ": null}")
    (Some (PDict [(lit "order_id", PNone)])).

(** A configuration whose poll interval is one second more than
    [time.sleep] takes. *)
Definition huge_interval : config :=
  {| TELEGRAM_BOT_TOKEN := lit "123:abc";
     TRANSKRIPTOR_API_KEY := lit "key";
     POLL_INTERVAL := 9223372037 |}.




(** A message object without [chat] and without [text]. *)
Definition chatless_blank_update : request :=
  {| method := lit "POST";
     body_json :=
       Some (PDict [(lit "update_id", PInt 1);
                    (lit "message", PDict [(lit "message_id", PInt 5)])])
  |}.

(** A creation response whose JSON body holds an integer of 5000 digits:
    [resp.json()] fails on it with a plain [ValueError]. *)
Definition long_integer_reply (code : Z) : response :=
  {| resp_status_code := code;
     resp_content :=
       map byte_of_N
         (lit "{" ++ Sample.dq ++ lit "order_id" ++ Sample.dq ++ lit ": "
          ++ repeat 49%N 5000 ++ lit "}");
     resp_decoded :=
       lit "{" ++ Sample.dq ++ lit "order_id" ++ Sample.dq ++ lit ": "
       ++ repeat 49%N 5000 ++ lit "}";
     resp_parsed := Unparsed IntegerTooLong |}.

(** The order is accepted, but Telegram is unreachable. *)
Definition accepted_telegram_down : world :=
  {| telegram := Sample.never;
     transkriptor := fun _ => Responded Sample.created_reply;
     stdout_takes := Sample.strict |}.

End Cases.

(* ====================================================================== *)
(** * Sanity checks of the Python primitives *)
(* ====================================================================== *)

Example str_of_int_404 : str_of_int 404 = lit "404".
Proof. reflexivity. Qed.

Example str_of_int_neg : str_of_int (-7) = lit "-7".
Proof. reflexivity. Qed.

Example strip_example : strip (lit "  /transcribe x  ") = lit "/transcribe x".
Proof. reflexivity. Qed.

Example split_example :
  split_maxsplit1 (lit "/transcribe   https://x y") =
  [lit "/transcribe"; lit "https://x y"].
Proof. reflexivity. Qed.

Example split_bare : split_maxsplit1 (lit "/transcribe") = [lit "/transcribe"].
Proof. reflexivity. Qed.

Example range_example : range 0 10 4 = [0; 4; 8].
Proof. reflexivity. Qed.

Example slice_example : slice (lit "abcdef") 4 8 = lit "ef".
Proof. reflexivity. Qed.

Example encode_hello :
  encode_utf8 (lit "hello") = Some [x68; x65; x6c; x6c; x6f].
Proof. reflexivity. Qed.

Example encode_check_mark :
  encode_utf8 [9989%N] = Some [xe2; x9c; x85].
Proof. reflexivity. Qed.

Example encode_surrogate : encode_utf8 [55296%N] = None.
Proof. reflexivity. Qed.

(* ====================================================================== *)
(** * Chunking: [range], [slice] and [message_parts] *)
(* ====================================================================== *)

Arguments lit : simpl never.
Arguments str_of_int : simpl never.
Arguments max_len : simpl never.

Lemma max_len_pos : 0 < max_len.
Proof. unfold max_len. lia. Qed.

Lemma ceil_div_zero (b : nat) : 0 < b -> ceil_div 0 b = 0.
Proof.
  intros Hb. unfold ceil_div. simpl. apply Nat.div_small. lia.
Qed.

Lemma ceil_div_step (a b : nat) :
  0 < b -> 0 < a -> ceil_div a b = S (ceil_div (a - b) b).
Proof.
  intros Hb Ha. unfold ceil_div.
  destruct (Nat.le_gt_cases a b) as [Hle | Hgt].
  - replace (a - b) with 0 by lia. simpl.
    rewrite (Nat.div_small (b - 1) b) by lia.
    assert (H : a + (b - 1) = (a - 1) + 1 * b) by lia.
    rewrite H, Nat.div_add by lia.
    rewrite Nat.div_small by lia. reflexivity.
  - assert (H : a + (b - 1) = (a - b + (b - 1)) + 1 * b) by lia.
    rewrite H, Nat.div_add by lia. lia.
Qed.

(** [ceil_div a b] is the least number of blocks of [b] that cover [a]. *)
Lemma ceil_div_spec (a b : nat) :
  0 < b ->
  a <= b * ceil_div a b /\ (0 < a -> b * (ceil_div a b - 1) < a).
Proof.
  intros Hb. unfold ceil_div.
  pose proof (Nat.div_mod_eq (a + (b - 1)) b) as E.
  pose proof (Nat.mod_upper_bound (a + (b - 1)) b ltac:(lia)) as U.
  split.
  - nia.
  - intros Ha.
    assert (1 <= (a + (b - 1)) / b).
    { apply Nat.div_le_lower_bound; lia. }
    nia.
Qed.

Lemma length_range_from (step stop fuel i : nat) :
  0 < step -> stop - i <= fuel ->
  length (range_from fuel i stop step) = ceil_div (stop - i) step.
Proof.
  intros Hs. revert i.
  induction fuel as [| fuel IH]; intros i Hf; simpl.
  - replace (stop - i) with 0 by lia. now rewrite ceil_div_zero.
  - destruct (Nat.ltb_spec i stop) as [Hlt | Hge].
    + simpl. rewrite IH by lia.
      rewrite (ceil_div_step (a := stop - i)) by lia.
      do 2 f_equal. lia.
    + replace (stop - i) with 0 by lia. now rewrite ceil_div_zero.
Qed.

Lemma concat_slices (A : Type) (text : list A) (step fuel i : nat) :
  0 < step -> length text - i <= fuel ->
  concat (map (fun i => slice text i (i + step))
              (range_from fuel i (length text) step)) = skipn i text.
Proof.
  intros Hs. revert i.
  induction fuel as [| fuel IH]; intros i Hf; simpl.
  - symmetry. apply skipn_all2. lia.
  - destruct (Nat.ltb_spec i (length text)) as [Hlt | Hge].
    + simpl. rewrite IH by lia. unfold slice.
      replace (i + step - i) with step by lia.
      rewrite Nat.add_comm, <- skipn_skipn.
      apply firstn_skipn.
    + symmetry. apply skipn_all2. lia.
Qed.

Lemma length_slice (A : Type) (text : list A) (i j : nat) :
  length (slice text i j) <= j - i.
Proof. unfold slice. apply firstn_le_length. Qed.

Lemma length_message_parts (text : pystr) :
  length (message_parts text) = ceil_div (length text) max_len.
Proof.
  unfold message_parts, range. rewrite length_map.
  rewrite length_range_from by (auto using max_len_pos).
  now rewrite Nat.sub_0_r.
Qed.

Lemma concat_message_parts (text : pystr) :
  concat (message_parts text) = text.
Proof.
  unfold message_parts, range.
  rewrite concat_slices by (auto using max_len_pos).
  reflexivity.
Qed.

Lemma message_parts_bounded (text : pystr) :
  Forall (fun part => length part <= max_len) (message_parts text).
Proof.
  unfold message_parts. apply Forall_forall. intros part Hin.
  apply in_map_iff in Hin. destruct Hin as [i [<- _]].
  pose proof (length_slice text i (i + max_len)). lia.
Qed.

(** A non-empty text of at most [max_len] code points is its own single
    part; the empty text has no part at all. *)
Lemma message_parts_single (text : pystr) :
  text <> [] -> length text <= max_len -> message_parts text = [text].
Proof.
  intros Hne Hle. unfold message_parts, range.
  destruct text as [| c text']; [congruence |].
  rewrite Nat.sub_0_r. cbn [length range_from].
  destruct (Nat.ltb_spec 0 (S (length text'))) as [_ | H]; [| lia].
  cbn [map]. 
  assert (R : range_from (length text') (0 + max_len) (S (length text')) max_len = []).
  { destruct (length text') as [| n] eqn:E; [reflexivity |].
    cbn [range_from]. 
    destruct (Nat.ltb_spec (0 + max_len) (S (S n))) as [H | _]; [| reflexivity].
    simpl in Hle. lia. }
  rewrite R. cbn [map]. f_equal.
  unfold slice. rewrite Nat.add_0_l, Nat.sub_0_r. cbn [skipn].
  apply firstn_all2. exact Hle.
Qed.

Lemma message_parts_nil : message_parts [] = [].
Proof. reflexivity. Qed.

(* ====================================================================== *)
(** * The chat notifier: [send_telegram_request], [send_message],
      [send_document] *)
(* ====================================================================== *)

Lemma after_telegram_0 (st : state) : after_telegram st 0 [] = st.
Proof.
  destruct st as [a b t]. unfold after_telegram. simpl.
  now rewrite Nat.add_0_r, app_nil_r.
Qed.

Lemma after_telegram_after (st : state) (j k : nat) (e1 e2 : list event) :
  after_telegram (after_telegram st j e1) k e2 =
  after_telegram st (j + k) (e1 ++ e2).
Proof.
  unfold after_telegram. simpl. now rewrite Nat.add_assoc, app_assoc.
Qed.

(* ---------------------------------------------------------------------- *)
(** ** What can be encoded, and printed *)

Lemma encodable_cons (c : N) (s : pystr) :
  encodable (c :: s) =
  match utf8_char c with Some _ => encodable s | None => false end.
Proof.
  unfold encodable. cbn [encode_utf8].
  destruct (utf8_char c), (encode_utf8 s); reflexivity.
Qed.

Lemma encodable_app (a b : pystr) :
  encodable (a ++ b) = encodable a && encodable b.
Proof.
  induction a as [| c a IH]; [reflexivity |].
  cbn [app]. rewrite !encodable_cons.
  destruct (utf8_char c); [exact IH | reflexivity].
Qed.

Lemma utf8_char_small (c : N) :
  (c < 256)%N -> exists b, utf8_char c = Some b.
Proof.
  intros H. unfold utf8_char.
  destruct (N.ltb_spec c 128); [eauto |].
  destruct (N.ltb_spec c 2048); [eauto | lia].
Qed.

(** The literals of the source can be encoded, and so can the decimal
    form of an [int]. *)
Lemma encodable_lit (s : string) : encodable (lit s) = true.
Proof.
  unfold lit. induction s as [| a s IH]; [reflexivity |].
  cbn [list_ascii_of_string map]. rewrite encodable_cons.
  destruct (utf8_char_small (N_ascii_bounded a)) as [b ->]. exact IH.
Qed.

Lemma encodable_str_of_int (z : Z) : encodable (str_of_int z) = true.
Proof. apply encodable_lit. Qed.

Lemma encodable_resp_text (r : response) : encodable (resp_text r) = true.
Proof.
  unfold resp_text. induction (resp_decoded r) as [| c s IH]; [reflexivity |].
  cbn [map]. rewrite encodable_cons. unfold scalar at 1.
  destruct (utf8_char c) eqn:E; [now rewrite E | exact IH].
Qed.

(** A line that can be encoded is printed. *)
Lemma print_encodable (w : world) (line : pystr) :
  encodable line = true -> print w line = emit (Print line).
Proof. intros H. unfold print. now rewrite H. Qed.

(** The log line of a failed Telegram call is always printed. *)
Lemma print_failure_line (w : world) (what : pystr) (r : response) :
  encodable what = true ->
  print w (lit "[Telegram] " ++ what ++ lit " failed: "
           ++ str_of_int (resp_status_code r) ++ [32; 8211; 32]%N
           ++ resp_text r) =
  emit (telegram_failure_line what r).
Proof.
  intros H. apply print_encodable.
  rewrite !encodable_app, !encodable_lit, H, encodable_str_of_int,
    encodable_resp_text.
  reflexivity.
Qed.

Lemma print_document_failure_line (w : world) (r : response) :
  print w (lit "[Telegram] sendDocument failed: "
           ++ str_of_int (resp_status_code r) ++ [32; 8211; 32]%N
           ++ resp_text r) =
  emit (telegram_failure_line (lit "sendDocument") r).
Proof.
  rewrite print_encodable; [reflexivity |].
  rewrite !encodable_app, !encodable_lit, encodable_str_of_int,
    encodable_resp_text.
  reflexivity.
Qed.

Section Notifier.

Variable cfg : config.
Variable w : world.

Lemma send_telegram_request_run (what : pystr)
    (params : list (pystr * pyval)) (st : state) :
  encodable what = true ->
  send_telegram_request cfg w what params st =
  (match telegram w (tg_calls st) with
   | Responded r => match resp_json r with
                    | Some v => Ok v
                    | None => Raise (json_error r)
                    end
   | NoResponse => Raise RequestException
   end,
   after_telegram st 1
     (Post Telegram (TELEGRAM_API cfg ++ lit "/" ++ what) [] (Json params) 30
      :: failure_log what (telegram w (tg_calls st)))).
Proof.
  intros Hw.
  unfold send_telegram_request, bind at 1, requests_post, answer.
  cbn [buildable].
  destruct (telegram w (tg_calls st)) as [r |].
  - cbv beta iota. rewrite (@print_failure_line w what r Hw).
    unfold bind, json, resp_json, json_error, emit, ret, raise, count_call,
      after_telegram, failure_log, telegram_failure_line.
    destruct (ok r); simpl; destruct (resp_parsed r); simpl;
      rewrite <- ?app_assoc, Nat.add_1_r; reflexivity.
  - unfold count_call, after_telegram. simpl. now rewrite Nat.add_1_r.
Qed.

(** [send_message] posts the parts of the text in order, each once, and
    stops where a call raises. *)
Lemma send_parts_run (chat_id reply_to : pyval) (parts : list pystr)
    (st : state) :
  for_each parts
    (fun part =>
       _ <- send_telegram_request cfg w (lit "sendMessage")
              [(lit "chat_id", chat_id); (lit "text", PStr part);
               (lit "reply_to_message_id", reply_to)] ;;
       ret tt) st =
  (send_outcome w (tg_calls st) parts,
   after_telegram st (sent_count w (tg_calls st) parts)
     (parts_trace cfg w chat_id reply_to
        (firstn (sent_count w (tg_calls st) parts) parts) (tg_calls st))).
Proof.
  revert st. induction parts as [| part parts IH]; intros st.
  - simpl. unfold ret. now rewrite after_telegram_0.
  - cbn [for_each]. unfold bind at 1. unfold bind at 1.
    rewrite send_telegram_request_run by reflexivity.
    cbn [send_outcome sent_count answers_json].
    destruct (telegram w (tg_calls st)) as [r |] eqn:E.
    + destruct (resp_json r) as [v |] eqn:J.
      * unfold ret at 1. rewrite IH.
        cbn [after_telegram tg_calls].
        replace (tg_calls st + 1) with (S (tg_calls st)) by lia.
        f_equal. rewrite after_telegram_after.
        cbn [answers_json]. rewrite J.
        cbn [firstn parts_trace]. rewrite E. reflexivity.
      * cbn [answers_json]. rewrite J.
        cbn [firstn parts_trace]. rewrite E, app_nil_r. reflexivity.
    + cbn [answers_json firstn parts_trace]. rewrite E, app_nil_r.
      reflexivity.
Qed.

Lemma for_each_map (A B : Type) (f : A -> B) (xs : list A)
    (body : B -> M unit) :
  for_each (map f xs) body = for_each xs (fun x => body (f x)).
Proof.
  induction xs as [| x xs IH]; simpl; [reflexivity |].
  now rewrite IH.
Qed.

Lemma send_message_run (chat_id reply_to : pyval) (text : pystr)
    (st : state) :
  send_message cfg w chat_id text reply_to st =
  (send_outcome w (tg_calls st) (message_parts text),
   after_telegram st (sent_count w (tg_calls st) (message_parts text))
     (parts_trace cfg w chat_id reply_to
        (firstn (sent_count w (tg_calls st) (message_parts text))
                (message_parts text)) (tg_calls st))).
Proof.
  rewrite <- send_parts_run. unfold send_message, message_parts.
  now rewrite for_each_map.
Qed.

Lemma buildable_document (chat_id : pyval) (file_name : pystr)
    (file_bytes : list byte) (caption : pystr) :
  buildable
    (Multipart [(lit "chat_id", chat_id); (lit "caption", PStr caption)]
       [(lit "document", (file_name, file_bytes))]) =
  uploadable chat_id file_name caption.
Proof.
  unfold uploadable. cbn [buildable forallb form_strings fst snd].
  destruct (forallb encodable (form_strings chat_id)),
    (encodable caption), (encodable file_name); reflexivity.
Qed.

Lemma send_document_run (chat_id : pyval) (file_name : pystr)
    (file_bytes : list byte) (caption : pystr) (st : state) :
  send_document cfg w chat_id file_name file_bytes caption st =
  if uploadable chat_id file_name caption then
    (match telegram w (tg_calls st) with
     | Responded _ => Ok tt
     | NoResponse => Raise RequestException
     end,
     after_telegram st 1
       (sendDocument cfg chat_id file_name file_bytes caption
        :: failure_log (lit "sendDocument") (telegram w (tg_calls st))))
  else
    (Raise UnicodeEncodeError,
     after_telegram st 0
       [sendDocument cfg chat_id file_name file_bytes caption]).
Proof.
  unfold send_document, bind, requests_post.
  rewrite buildable_document.
  destruct (uploadable chat_id file_name caption).
  - unfold answer.
    destruct (telegram w (tg_calls st)) as [r |].
    + rewrite print_document_failure_line.
      unfold count_call, after_telegram, failure_log,
        telegram_failure_line, sendDocument, emit, ret.
      destruct (ok r); simpl; rewrite <- ?app_assoc, Nat.add_1_r.
      * reflexivity.
      * reflexivity.
    + unfold count_call, after_telegram, sendDocument. simpl.
      now rewrite Nat.add_1_r.
  - unfold record_call, after_telegram, sendDocument. cbn [tg_calls trace].
    now rewrite Nat.add_0_r.
Qed.

End Notifier.

Lemma effects_app (a b : list event) : effects (a ++ b) = effects a ++ effects b.
Proof. unfold effects. apply filter_app. Qed.

Lemma effects_failure_log (what : pystr) (o : outcome) :
  effects (failure_log what o) = [].
Proof.
  destruct o as [r |]; simpl; [| reflexivity].
  destruct (ok r); reflexivity.
Qed.

Lemma effects_parts_trace (cfg : config) (w : world)
    (chat_id reply_to : pyval) (parts : list pystr) (n : nat) :
  effects (parts_trace cfg w chat_id reply_to parts n) =
  map (sendMessage cfg chat_id reply_to) parts.
Proof.
  revert n. induction parts as [| part parts IH]; intros n; [reflexivity |].
  cbn [parts_trace map].
  change (effects (?e :: ?l)) with (effects ([e] ++ l)).
  rewrite !effects_app, effects_failure_log, IH. reflexivity.
Qed.

Lemma sleeps_app (a b : list event) : sleeps (a ++ b) = sleeps a ++ sleeps b.
Proof. unfold sleeps. apply flat_map_app. Qed.


Lemma sent_count_le (w : world) (parts : list pystr) (n : nat) :
  sent_count w n parts <= length parts.
Proof.
  revert n. induction parts as [| part parts IH]; intros n; simpl; [lia |].
  destruct (answers_json (telegram w n)); [| lia].
  specialize (IH (S n)). lia.
Qed.

Lemma sent_count_single (w : world) (part : pystr) (n : nat) :
  sent_count w n [part] = 1.
Proof. simpl. now destruct (answers_json (telegram w n)). Qed.

(** When Telegram answers every call of the loop with a JSON body, all
    the parts are posted and the loop ends normally. *)
Lemma send_all_answered (w : world) (parts : list pystr) (n : nat) :
  (forall i, i < length parts -> answers_json (telegram w (n + i)) = true) ->
  sent_count w n parts = length parts /\ send_outcome w n parts = Ok tt.
Proof.
  revert n. induction parts as [| part parts IH]; intros n H; [now split |].
  pose proof (H 0 ltac:(simpl; lia)) as H0. rewrite Nat.add_0_r in H0.
  destruct (IH (S n)) as [IH1 IH2].
  { intros i Hi. replace (S n + i) with (n + S i) by lia.
    apply H. simpl. lia. }
  cbn [sent_count send_outcome length]. rewrite H0.
  unfold answers_json in H0.
  destruct (telegram w n) as [r |]; [| discriminate].
  destruct (resp_json r); [| discriminate].
  now rewrite IH1, IH2.
Qed.

(** [resp.json()] raises a [JSONDecodeError], a [ValueError] or a
    [RecursionError]. *)
Lemma json_error_cases (r : response) :
  json_error r = JSONDecodeError \/ json_error r = ValueError
  \/ json_error r = RecursionError.
Proof.
  unfold json_error. destruct (resp_parsed r) as [v | []]; cbn; auto.
Qed.

Lemma json_error_not_HTTPError (r r' : response) :
  json_error r <> HTTPError r'.
Proof.
  destruct (json_error_cases r) as [E | [E | E]]; rewrite E; discriminate.
Qed.

Lemma json_error_not_BadRequest (r : response) : json_error r <> BadRequest.
Proof.
  destruct (json_error_cases r) as [E | [E | E]]; rewrite E; discriminate.
Qed.

(** The notifier raises what [requests.post] and [resp.json()] raise,
    never an [HTTPError]. *)
Lemma send_outcome_no_HTTPError (w : world) (parts : list pystr) (n : nat)
    (r : response) :
  send_outcome w n parts <> Raise (HTTPError r).
Proof.
  revert n. induction parts as [| part parts IH]; intros n; simpl.
  - discriminate.
  - destruct (telegram w n) as [r' |]; [| discriminate].
    destruct (resp_json r'); [apply IH |].
    intros H. inversion H as [H1]. now apply json_error_not_HTTPError in H1.
Qed.

(** The first call of the loop that is not answered with a JSON body is
    the last one made: its exception ends the loop. *)
Lemma send_first_failure (w : world) (parts : list pystr) (n j : nat) :
  j < length parts ->
  (forall i, i < j -> answers_json (telegram w (n + i)) = true) ->
  answers_json (telegram w (n + j)) = false ->
  sent_count w n parts = S j
  /\ send_outcome w n parts = Raise (send_error (telegram w (n + j))).
Proof.
  revert n j. induction parts as [| part parts IH]; intros n j Hj Hall Hf.
  - simpl in Hj. lia.
  - cbn [sent_count send_outcome]. destruct j as [| j].
    + rewrite Nat.add_0_r in *. rewrite Hf. split; [reflexivity |].
      unfold answers_json in Hf.
      destruct (telegram w n) as [r |]; [| reflexivity].
      cbn [send_error]. destruct (resp_json r); [discriminate | reflexivity].
    + pose proof (Hall 0 ltac:(lia)) as H0. rewrite Nat.add_0_r in H0.
      rewrite H0. unfold answers_json in H0.
      destruct (telegram w n) as [r |]; [| discriminate].
      destruct (resp_json r); [| discriminate].
      replace (n + S j) with (S n + j) in * by lia.
      destruct (IH (S n) j) as [IH1 IH2].
      * simpl in Hj. lia.
      * intros i Hi. replace (S n + i) with (n + S i) by lia.
        apply Hall. lia.
      * exact Hf.
      * now rewrite IH1, IH2.
Qed.

Lemma send_error_not_HTTPError (o : outcome) (r : response) :
  send_error o <> HTTPError r.
Proof.
  destruct o as [r' |]; cbn; [apply json_error_not_HTTPError | discriminate].
Qed.

(** Flask answers 500 to the exception of a failed Telegram call. *)
Lemma http_status_send_error (o : outcome) :
  http_status (Raise (send_error o)) = 500%Z.
Proof.
  destruct o as [r |]; cbn; [| reflexivity].
  destruct (json_error_cases r) as [E | [E | E]]; rewrite E; reflexivity.
Qed.

(** What [send_message] posts, whatever Telegram answers. *)
Lemma effects_send_message (cfg : config) (w : world)
    (chat_id reply_to : pyval) (text : pystr) (st : state) :
  effects (new_events st (snd (send_message cfg w chat_id text reply_to st)))
  = map (sendMessage cfg chat_id reply_to)
      (firstn (sent_count w (tg_calls st) (message_parts text))
         (message_parts text)).
Proof.
  rewrite send_message_run. cbn [snd].
  unfold new_events, after_telegram. cbn [trace].
  rewrite skipn_app, Nat.sub_diag, skipn_all.
  apply effects_parts_trace.
Qed.

(** When Telegram answers every request of the loop with a JSON body,
    [send_message] returns having posted every part once, in order. *)
Lemma send_message_answered (cfg : config) (w : world)
    (chat_id reply_to : pyval) (text : pystr) (st : state) :
  (forall i, i < length (message_parts text) ->
     answers_json (telegram w (tg_calls st + i)) = true) ->
  send_message cfg w chat_id text reply_to st =
  (Ok tt,
   after_telegram st (length (message_parts text))
     (parts_trace cfg w chat_id reply_to (message_parts text)
        (tg_calls st))).
Proof.
  intros H. rewrite send_message_run.
  destruct (send_all_answered w (message_parts text) (tg_calls st) H)
    as [Hc Ho].
  rewrite Hc, Ho, firstn_all. reflexivity.
Qed.

Example send_message_two_parts :
  effects (trace (snd (send_message Sample.cfg Sample.processing Sample.chat
                         Sample.long_text PNone initial))) =
  [sendMessage Sample.cfg Sample.chat PNone (repeat 97%N 4096);
   sendMessage Sample.cfg Sample.chat PNone (repeat 97%N 904)].
Proof. vm_compute. reflexivity. Qed.

Example send_message_empty_text :
  send_message Sample.cfg Sample.processing Sample.chat [] PNone initial =
  (Ok tt, initial).
Proof. reflexivity. Qed.

(** C3, as stated, fails: not every chunk is sent.  The loop of
    [send_message] has no [try]: for a text of 5000 code points (two
    chunks) and a Telegram that does not respond, or that answers with a
    body that is not JSON, the first request raises and the second chunk
    is never posted. *)
Lemma send_message_drops_chunks :
  length (message_parts Sample.long_text) = 2
  /\ send_message Sample.cfg Sample.telegram_down Sample.chat
       Sample.long_text PNone initial =
     (Raise RequestException,
      after_telegram initial 1
        [sendMessage Sample.cfg Sample.chat PNone (repeat 97%N 4096)])
  /\ send_message Sample.cfg Sample.telegram_bad_gateway Sample.chat
       Sample.long_text PNone initial =
     (Raise JSONDecodeError,
      after_telegram initial 1
        [sendMessage Sample.cfg Sample.chat PNone (repeat 97%N 4096);
         telegram_failure_line (lit "sendMessage") Sample.tg_bad_gateway]).
Proof. split; [| split]; vm_compute; reflexivity. Qed.

(** C3, amended.  For every text passed to [send_message], the successive
    parts number [ceil(len(text) / 4096)], each part has at most 4096
    code points, and the parts concatenated in order give back the text.
    The requests posted are always the first parts, in order, one
    [sendMessage] request per part.  When Telegram answers every request
    of the loop with a body that [resp.json()] parses, every part is
    posted and [send_message] returns.  Otherwise the first request that
    gets no response, or a response on which [resp.json()] fails, is the
    last one posted: [send_message] raises its exception and the later
    parts are not sent. *)
Theorem send_message_chunks (cfg : config) (w : world)
    (chat_id reply_to : pyval) (text : pystr) (st : state) :
  let parts := message_parts text in
  length parts = ceil_div (length text) 4096
  /\ Forall (fun part => length part <= 4096) parts
  /\ concat parts = text
  /\ (exists k,
        k <= length parts
        /\ effects (new_events st
                      (snd (send_message cfg w chat_id text reply_to st))) =
           map (sendMessage cfg chat_id reply_to) (firstn k parts))
  /\ ((forall i, i < length parts ->
         answers_json (telegram w (tg_calls st + i)) = true) ->
      send_message cfg w chat_id text reply_to st =
        (Ok tt,
         after_telegram st (length parts)
           (parts_trace cfg w chat_id reply_to parts (tg_calls st)))
      /\ effects (parts_trace cfg w chat_id reply_to parts (tg_calls st)) =
         map (sendMessage cfg chat_id reply_to) parts)
  /\ (forall j,
        j < length parts ->
        (forall i, i < j ->
           answers_json (telegram w (tg_calls st + i)) = true) ->
        answers_json (telegram w (tg_calls st + j)) = false ->
        fst (send_message cfg w chat_id text reply_to st) =
          Raise (send_error (telegram w (tg_calls st + j)))
        /\ effects (new_events st
                      (snd (send_message cfg w chat_id text reply_to st))) =
           map (sendMessage cfg chat_id reply_to) (firstn (S j) parts)).
Proof.
  intros parts. subst parts.
  split; [apply length_message_parts |].
  split; [apply message_parts_bounded |].
  split; [apply concat_message_parts |].
  split; [| split].
  - exists (sent_count w (tg_calls st) (message_parts text)).
    split; [apply sent_count_le |].
    apply effects_send_message.
  - intros H. split; [| apply effects_parts_trace].
    now apply send_message_answered.
  - intros j Hj Hall Hf.
    destruct (send_first_failure w (message_parts text) (tg_calls st)
                Hj Hall Hf) as [Hc Ho].
    rewrite effects_send_message, Hc.
    rewrite send_message_run. cbn [fst]. now rewrite Ho.
Qed.

Lemma send_message_chunks_witness :
  (forall i, i < length (message_parts Sample.long_text) ->
     answers_json (telegram Sample.processing (tg_calls initial + i)) = true)
  /\ send_message Sample.cfg Sample.processing Sample.chat Sample.long_text
       PNone initial =
     (Ok tt,
      after_telegram initial (length (message_parts Sample.long_text))
        (parts_trace Sample.cfg Sample.processing Sample.chat PNone
           (message_parts Sample.long_text) (tg_calls initial))).
Proof.
  split.
  - intros i _. reflexivity.
  - apply (send_message_chunks Sample.cfg Sample.processing Sample.chat PNone
             Sample.long_text initial).
    intros i _. reflexivity.
Defined.

Example send_document_no_response :
  send_document Sample.cfg Sample.telegram_down Sample.chat (lit "a.txt")
    [x68] (lit "") initial =
  (Raise RequestException,
   after_telegram initial 1
     [sendDocument Sample.cfg Sample.chat (lit "a.txt") [x68] (lit "")]).
Proof. reflexivity. Qed.

(** A 502 answered by a gateway with an HTML body: [send_message] logs
    the failure and then raises out of [resp.json()]. *)
Example send_message_bad_gateway :
  send_message Sample.cfg Sample.telegram_bad_gateway Sample.chat (lit "hi")
    PNone initial =
  (Raise JSONDecodeError,
   after_telegram initial 1
     [sendMessage Sample.cfg Sample.chat PNone (lit "hi");
      telegram_failure_line (lit "sendMessage") Sample.tg_bad_gateway]).
Proof. reflexivity. Qed.

(** The same answer to [send_document] is logged and nothing is raised. *)
Example send_document_bad_gateway :
  send_document Sample.cfg Sample.telegram_bad_gateway Sample.chat
    (lit "a.txt") [x68] (lit "") initial =
  (Ok tt,
   after_telegram initial 1
     [sendDocument Sample.cfg Sample.chat (lit "a.txt") [x68] (lit "");
      telegram_failure_line (lit "sendDocument") Sample.tg_bad_gateway]).
Proof. reflexivity. Qed.

(** C6, as stated, fails: when the outbound send gets no response at all
    ([requests.post] raises on a connection error or a timeout),
    [send_document] does not log and return, it raises to its caller, and
    so does [send_message]. *)
Lemma send_document_failure_raises :
  telegram Sample.telegram_down (tg_calls initial) = NoResponse
  /\ fst (send_document Sample.cfg Sample.telegram_down Sample.chat
            (lit "a.txt") [x68] (lit "") initial) = Raise RequestException
  /\ logged (trace (snd (send_document Sample.cfg Sample.telegram_down
                           Sample.chat (lit "a.txt") [x68] (lit "")
                           initial))) = []
  /\ fst (send_message Sample.cfg Sample.telegram_down Sample.chat
            (lit "hi") PNone initial) = Raise RequestException.
Proof. repeat split. Qed.

(** C6, amended.  When [requests] can build the upload (the chat id, the
    caption and the file name can be encoded as UTF-8) and Telegram
    answers the request with an HTTP response, whatever its status,
    [send_document] returns normally after that one POST, and a 4xx/5xx
    answer leaves one log line and nothing else.  When Telegram answers
    every request of [send_message] with a response whose body
    [resp.json()] parses, [send_message] returns normally, each part
    having been posted once, with one log line per 4xx/5xx answer.
    There is no retry: the effects are the one POST per document or
    part.  Everything else raises to the caller: a request that gets no response at all raises the exception
    of [requests.post] after that single POST; an upload that cannot be
    built raises [UnicodeEncodeError] before anything is sent; and the
    first [send_message] request that gets no response, or a response
    on which [resp.json()] fails, raises after it was posted (and logged,
    for a 4xx/5xx), the later parts not being sent. *)
Theorem notifier_failures (cfg : config) (w : world) (chat_id : pyval)
    (st : state) :
  (forall file_name file_bytes caption r,
     uploadable chat_id file_name caption = true ->
     telegram w (tg_calls st) = Responded r ->
     send_document cfg w chat_id file_name file_bytes caption st =
     (Ok tt,
      after_telegram st 1
        (sendDocument cfg chat_id file_name file_bytes caption
         :: (if ok r then []
             else [telegram_failure_line (lit "sendDocument") r]))))
  /\ (forall text reply_to,
        (forall i, i < length (message_parts text) ->
           answers_json (telegram w (tg_calls st + i)) = true) ->
        send_message cfg w chat_id text reply_to st =
        (Ok tt,
         after_telegram st (length (message_parts text))
           (parts_trace cfg w chat_id reply_to (message_parts text)
              (tg_calls st)))
        /\ effects (parts_trace cfg w chat_id reply_to (message_parts text)
                      (tg_calls st)) =
           map (sendMessage cfg chat_id reply_to) (message_parts text))
  /\ (forall file_name file_bytes caption,
        uploadable chat_id file_name caption = true ->
        telegram w (tg_calls st) = NoResponse ->
        send_document cfg w chat_id file_name file_bytes caption st =
        (Raise RequestException,
         after_telegram st 1
           [sendDocument cfg chat_id file_name file_bytes caption]))
  /\ (forall file_name file_bytes caption,
        uploadable chat_id file_name caption = false ->
        send_document cfg w chat_id file_name file_bytes caption st =
        (Raise UnicodeEncodeError,
         after_telegram st 0
           [sendDocument cfg chat_id file_name file_bytes caption]))
  /\ (forall text reply_to j,
        j < length (message_parts text) ->
        (forall i, i < j ->
           answers_json (telegram w (tg_calls st + i)) = true) ->
        answers_json (telegram w (tg_calls st + j)) = false ->
        fst (send_message cfg w chat_id text reply_to st) =
          Raise (send_error (telegram w (tg_calls st + j)))
        /\ effects (new_events st
                      (snd (send_message cfg w chat_id text reply_to st))) =
           map (sendMessage cfg chat_id reply_to)
             (firstn (S j) (message_parts text))).
Proof.
  split; [| split; [| split; [| split]]].
  - intros file_name file_bytes caption r U E.
    rewrite send_document_run, U, E. reflexivity.
  - intros text reply_to H. split; [| apply effects_parts_trace].
    now apply send_message_answered.
  - intros file_name file_bytes caption U E.
    rewrite send_document_run, U, E. reflexivity.
  - intros file_name file_bytes caption U.
    rewrite send_document_run, U. reflexivity.
  - intros text reply_to j Hj Hall Hf.
    destruct (send_first_failure w (message_parts text) (tg_calls st)
                Hj Hall Hf) as [Hc Ho].
    rewrite effects_send_message, Hc.
    rewrite send_message_run. cbn [fst]. now rewrite Ho.
Qed.

Lemma notifier_failures_witness :
  telegram Sample.telegram_rejecting (tg_calls initial) =
    Responded Sample.tg_rejected
  /\ send_document Sample.cfg Sample.telegram_rejecting Sample.chat
       (lit "a.txt") [x68] (lit "") initial =
     (Ok tt,
      after_telegram initial 1
        [sendDocument Sample.cfg Sample.chat (lit "a.txt") [x68] (lit "");
         telegram_failure_line (lit "sendDocument") Sample.tg_rejected])
  /\ send_message Sample.cfg Sample.telegram_rejecting Sample.chat
       (lit "hi") PNone initial =
     (Ok tt,
      after_telegram initial 1
        [sendMessage Sample.cfg Sample.chat PNone (lit "hi");
         telegram_failure_line (lit "sendMessage") Sample.tg_rejected])
  /\ send_document Sample.cfg Sample.telegram_down Sample.chat
       (lit "a.txt") [x68] (lit "") initial =
     (Raise RequestException,
      after_telegram initial 1
        [sendDocument Sample.cfg Sample.chat (lit "a.txt") [x68] (lit "")])
  /\ uploadable Sample.chat ([55296%N] ++ lit ".txt") (lit "") = false
  /\ send_document Sample.cfg Sample.processing Sample.chat
       ([55296%N] ++ lit ".txt") [x68] (lit "") initial =
     (Raise UnicodeEncodeError,
      after_telegram initial 0
        [sendDocument Sample.cfg Sample.chat ([55296%N] ++ lit ".txt")
           [x68] (lit "")])
  /\ fst (send_message Sample.cfg Sample.telegram_bad_gateway Sample.chat
            (lit "hi") PNone initial) =
     Raise (send_error (telegram Sample.telegram_bad_gateway
                          (tg_calls initial + 0))).
Proof.
  split; [reflexivity |]. split; [| split; [| split; [| split; [| split]]]].
  - apply (proj1 (notifier_failures Sample.cfg Sample.telegram_rejecting
                    Sample.chat initial)
             (lit "a.txt") [x68] (lit "") Sample.tg_rejected).
    + reflexivity.
    + reflexivity.
  - apply (proj1 (proj2 (notifier_failures Sample.cfg
                           Sample.telegram_rejecting Sample.chat initial))
             (lit "hi") PNone).
    intros i _. reflexivity.
  - apply (proj1 (proj2 (proj2 (notifier_failures Sample.cfg
                                  Sample.telegram_down Sample.chat initial)))
             (lit "a.txt") [x68] (lit "")).
    + reflexivity.
    + reflexivity.
  - reflexivity.
  - apply (proj1 (proj2 (proj2 (proj2 (notifier_failures Sample.cfg
                                         Sample.processing Sample.chat
                                         initial))))
             ([55296%N] ++ lit ".txt") [x68] (lit "")).
    reflexivity.
  - apply (proj2 (proj2 (proj2 (proj2 (notifier_failures Sample.cfg
                                         Sample.telegram_bad_gateway
                                         Sample.chat initial))))
             (lit "hi") PNone 0).
    + vm_compute. lia.
    + intros i Hi. lia.
    + reflexivity.
Defined.

(* ====================================================================== *)
(** * The delivery task: [export_transcription], [poll_and_send] *)
(* ====================================================================== *)

Lemma sleepable_iff (seconds : Z) :
  sleepable seconds = true <-> (0 <= seconds <= 9223372036)%Z.
Proof.
  unfold sleepable, sleep_max. rewrite andb_true_iff, !Z.leb_le. tauto.
Qed.

Lemma sleep_run (seconds : Z) (st : state) :
  sleep seconds st =
  if sleepable seconds then (Ok tt, with_event st (Sleep seconds))
  else (Raise (sleep_error seconds), st).
Proof.
  unfold sleep, sleepable, sleep_error, emit, raise, with_event.
  destruct (Z.ltb_spec seconds (- sleep_max)),
    (Z.ltb_spec sleep_max seconds), (Z.ltb_spec seconds 0),
    (Z.leb_spec 0 seconds), (Z.leb_spec seconds sleep_max);
    cbn [orb andb]; try reflexivity; unfold sleep_max in *; lia.
Qed.

Lemma not_sleepable (seconds : Z) :
  ~ (0 <= seconds <= 9223372036)%Z -> sleepable seconds = false.
Proof.
  intros H. destruct (sleepable seconds) eqn:E; [| reflexivity].
  apply sleepable_iff in E. contradiction.
Qed.



Lemma can_wait_unsleepable (cfg : config) (repr : pyval -> pystr)
    (w : world) (order_id : pyval) :
  ~ (0 <= POLL_INTERVAL cfg <= 9223372036)%Z ->
  can_wait cfg repr w order_id = false.
Proof.
  intros Hr. unfold can_wait. rewrite (not_sleepable Hr).
  apply andb_false_r.
Qed.

(** [time.sleep] raises a [ValueError] on a negative length down to
    [-9223372036] and an [OverflowError] beyond that, on either side. *)
Lemma sleep_error_cases (seconds : Z) :
  ((- 9223372036 <= seconds < 0)%Z -> sleep_error seconds = ValueError)
  /\ ((seconds < - 9223372036 \/ 9223372036 < seconds)%Z ->
      sleep_error seconds = OverflowError).
Proof.
  unfold sleep_error.
  destruct (Z.ltb_spec seconds (- sleep_max)),
    (Z.ltb_spec sleep_max seconds); cbn [orb]; split; intros;
    try reflexivity; unfold sleep_max in *; lia.
Qed.

Section Delivery.

Variable cfg : config.
Variable repr : pyval -> pystr.
Variable w : world.
Variables order_id chat_id : pyval.

Lemma export_transcription_run (st : state) :
  export_transcription cfg repr w order_id st =
  (match export_result (transkriptor w (tr_calls st)) with
   | Some sd => Ok sd
   | None => Raise (export_error (transkriptor w (tr_calls st)))
   end,
   after_transkriptor st 1 [export_request cfg repr order_id]).
Proof.
  unfold export_transcription, bind, requests_post, answer, count_call,
    after_transkriptor, export_result, export_error, export_request.
  cbn [buildable].
  destruct (transkriptor w (tr_calls st)) as [r |]; simpl.
  - destruct (resp_content r) as [| b bs]; simpl.
    + now rewrite Nat.add_1_r.
    + unfold json, resp_json, json_error.
      destruct (resp_parsed r); simpl; now rewrite Nat.add_1_r.
  - now rewrite Nat.add_1_r.
Qed.

(** A turn on which the export call raises ends the task. *)
Lemma poll_iteration_export_raises (st : state) :
  export_result (transkriptor w (tr_calls st)) = None ->
  poll_iteration cfg repr w order_id chat_id st =
  (Raise (export_error (transkriptor w (tr_calls st))),
   after_transkriptor st 1 [export_request cfg repr order_id]).
Proof.
  intros E. unfold poll_iteration, bind at 1.
  rewrite export_transcription_run, E. reflexivity.
Qed.

(** Status 202: log, sleep, go round again, when the line is printed
    and [time.sleep] accepts the interval; raise when not. *)
Lemma poll_iteration_202_cases (st : state) (data : pyval) :
  export_result (transkriptor w (tr_calls st)) = Some (202%Z, data) ->
  poll_iteration cfg repr w order_id chat_id st =
  if can_wait cfg repr w order_id
  then (Ok Continue, after_transkriptor st 1 (waiting cfg repr order_id))
  else (Raise (wait_error cfg repr w order_id),
        after_transkriptor st 1
          (export_request cfg repr order_id :: wait_log repr w order_id)).
Proof.
  intros E. unfold poll_iteration, bind at 1.
  rewrite export_transcription_run, E. cbn [fst snd Z.eqb Pos.eqb].
  unfold bind at 1. unfold can_wait, wait_error, wait_log.
  fold (poll_line repr order_id). unfold print.
  fold (prints w (poll_line repr order_id)).
  destruct (prints w (poll_line repr order_id)); cbn [andb].
  - unfold emit. unfold bind at 1. rewrite sleep_run.
    destruct (sleepable (POLL_INTERVAL cfg)).
    + unfold ret, with_event, after_transkriptor, waiting, poll_line.
      cbn [tg_calls tr_calls trace]. rewrite <- !app_assoc. reflexivity.
    + unfold after_transkriptor. cbn [tg_calls tr_calls trace].
      rewrite <- !app_assoc. reflexivity.
  - reflexivity.
Qed.


Lemma poll_iteration_202_raises (st : state) (data : pyval) :
  export_result (transkriptor w (tr_calls st)) = Some (202%Z, data) ->
  can_wait cfg repr w order_id = false ->
  poll_iteration cfg repr w order_id chat_id st =
  (Raise (wait_error cfg repr w order_id),
   after_transkriptor st 1
     (export_request cfg repr order_id :: wait_log repr w order_id)).
Proof.
  intros E Hp. now rewrite (poll_iteration_202_cases st E), Hp.
Qed.





(** Any turn that goes through [send_message] and then [break]. *)
Lemma send_then_break (text : pystr) (st : state) :
  (send_message cfg w chat_id text PNone ;; ret Break) st =
  (break_after (send_outcome w (tg_calls st) (message_parts text)),
   after_telegram st (sent_count w (tg_calls st) (message_parts text))
     (parts_trace cfg w chat_id PNone
        (firstn (sent_count w (tg_calls st) (message_parts text))
                (message_parts text)) (tg_calls st))).
Proof.
  unfold bind. rewrite send_message_run.
  destruct (send_outcome w (tg_calls st) (message_parts text)) as [[] | e];
    reflexivity.
Qed.


(** Status 200 with neither: the no-content notice. *)
Lemma poll_iteration_no_content (st : state) (d : list (pystr * pyval)) :
  export_result (transkriptor w (tr_calls st)) = Some (200%Z, PDict d) ->
  truthy (get_or_none (lit "content") d) = false ->
  truthy (get_or_none (lit "presigned_url") d) = false ->
  let st1 := after_transkriptor st 1 [export_request cfg repr order_id] in
  let parts := message_parts no_content_text in
  poll_iteration cfg repr w order_id chat_id st =
  (break_after (send_outcome w (tg_calls st) parts),
   after_telegram st1 (sent_count w (tg_calls st) parts)
     (parts_trace cfg w chat_id PNone
        (firstn (sent_count w (tg_calls st) parts) parts) (tg_calls st))).
Proof.
  intros E Hc Hu st1 parts. unfold poll_iteration, bind at 1.
  rewrite export_transcription_run, E. cbn [fst snd Z.eqb Pos.eqb].
  unfold py_get. fold (get_or_none (lit "content") d).
  fold (get_or_none (lit "presigned_url") d).
  unfold bind at 1. unfold ret at 1.
  unfold bind at 1. unfold ret at 1.
  rewrite Hc, Hu.
  fold no_content_text.
  rewrite send_then_break. reflexivity.
Qed.


End Delivery.

Section Loop.

Variable cfg : config.
Variable repr : pyval -> pystr.
Variable w : world.
Variables order_id chat_id : pyval.

Lemma then_break_not_continue (m : M unit) (st : state) :
  fst ((m ;; ret Break) st) <> Ok Continue.
Proof.
  unfold bind, ret. destruct (m st) as [[a | e] st']; simpl; discriminate.
Qed.



Lemma poll_and_send_step (fuel : nat) (st : state) :
  poll_and_send cfg repr w (S fuel) order_id chat_id st =
  match poll_iteration cfg repr w order_id chat_id st with
  | (Ok Continue, st') => poll_and_send cfg repr w fuel order_id chat_id st'
  | (Ok Break, st') => Done (Ok tt) st'
  | (Raise e, st') => Done (Raise e) st'
  end.
Proof. reflexivity. Qed.


Lemma after_transkriptor_0 (st : state) : after_transkriptor st 0 [] = st.
Proof.
  destruct st as [a b t]. unfold after_transkriptor. simpl.
  now rewrite Nat.add_0_r, app_nil_r.
Qed.

Lemma after_transkriptor_after (st : state) (j k : nat)
    (e1 e2 : list event) :
  after_transkriptor (after_transkriptor st j e1) k e2 =
  after_transkriptor st (j + k) (e1 ++ e2).
Proof.
  unfold after_transkriptor. simpl. now rewrite Nat.add_assoc, app_assoc.
Qed.


Lemma sleeps_waiting_turns (k : nat) :
  sleeps (waiting_turns cfg repr order_id k) = repeat (POLL_INTERVAL cfg) k.
Proof.
  induction k as [| k IH]; [reflexivity |].
  cbn [waiting_turns repeat]. rewrite sleeps_app, IH. reflexivity.
Qed.




(** Once finished, more fuel changes nothing. *)
Lemma poll_and_send_more_fuel (fuel extra : nat) (st : state)
    (res : result unit) (st' : state) :
  poll_and_send cfg repr w fuel order_id chat_id st = Done res st' ->
  poll_and_send cfg repr w (fuel + extra) order_id chat_id st = Done res st'.
Proof.
  revert st. induction fuel as [| fuel IH]; intros st D; [discriminate |].
  cbn [Nat.add]. rewrite poll_and_send_step in *.
  destruct (poll_iteration cfg repr w order_id chat_id st)
    as [[[|] | e] st1]; auto.
Qed.






End Loop.

Lemma new_events_after_transkriptor (st : state) (k : nat)
    (evs : list event) :
  new_events st (after_transkriptor st k evs) = evs.
Proof.
  unfold new_events, after_transkriptor. cbn [trace].
  rewrite skipn_app, Nat.sub_diag, skipn_all. reflexivity.
Qed.

Lemma new_events_after_telegram (st : state) (k : nat) (evs : list event) :
  new_events st (after_telegram st k evs) = evs.
Proof.
  unfold new_events, after_telegram. cbn [trace].
  rewrite skipn_app, Nat.sub_diag, skipn_all. reflexivity.
Qed.

Lemma new_events_both (st : state) (j k : nat) (e1 e2 : list event) :
  new_events st (after_telegram (after_transkriptor st j e1) k e2) = e1 ++ e2.
Proof.
  unfold new_events, after_telegram, after_transkriptor. cbn [trace].
  rewrite <- app_assoc, skipn_app, Nat.sub_diag, skipn_all. reflexivity.
Qed.




Section Dispatch.

Variable cfg : config.
Variable repr : pyval -> pystr.
Variable w : world.
Variables order_id chat_id : pyval.

(** A turn that ends in [break] or in an exception ends the task. *)
Lemma poll_and_send_break (st st' : state) (r : result unit) :
  poll_iteration cfg repr w order_id chat_id st = (break_after r, st') ->
  forall fuel,
    poll_and_send cfg repr w (S fuel) order_id chat_id st = Done r st'.
Proof.
  intros E fuel. rewrite poll_and_send_step, E.
  destruct r as [[] | e]; reflexivity.
Qed.


End Dispatch.

Example poll_iteration_hello :
  effects (trace (snd (poll_iteration Sample.cfg Sample.repr
                         (Sample.exporting [Sample.hello_reply])
                         Sample.order Sample.chat initial))) =
  [export_request Sample.cfg Sample.repr Sample.order;
   sendDocument Sample.cfg Sample.chat (lit "abc123.txt")
     [x68; x65; x6c; x6c; x6f] (lit "Here is your transcript!")].
Proof. reflexivity. Qed.

(** An export that is done with an empty [content] and no link: no
    document, the no-content notice. *)
Example poll_iteration_empty_content :
  effects (trace (snd (poll_iteration Sample.cfg Sample.repr
                         (Sample.exporting [Sample.empty_content_reply])
                         Sample.order Sample.chat initial))) =
  [export_request Sample.cfg Sample.repr Sample.order;
   sendMessage Sample.cfg Sample.chat PNone no_content_text].
Proof. reflexivity. Qed.

(** A 502 whose body is an HTML page: the export call itself raises and
    no failure notice is sent. *)
Example poll_iteration_html_error :
  poll_iteration Sample.cfg Sample.repr
    (Sample.exporting [Sample.tg_bad_gateway]) Sample.order Sample.chat
    initial =
  (Raise JSONDecodeError,
   after_transkriptor initial 1
     [export_request Sample.cfg Sample.repr Sample.order]).
Proof. reflexivity. Qed.










(* ====================================================================== *)
(** * The order submitter: [create_transcription] *)
(* ====================================================================== *)

Lemma create_transcription_run (cfg : config) (w : world)
    (youtube_url language service : pystr) (st : state) :
  create_transcription cfg w youtube_url language service st =
  (create_result (transkriptor w (tr_calls st)),
   after_transkriptor st 1
     [create_request cfg youtube_url language service]).
Proof.
  unfold create_transcription, bind, requests_post, answer, count_call,
    after_transkriptor, create_result, create_request, raise_for_status.
  cbn [buildable].
  destruct (transkriptor w (tr_calls st)) as [r |]; simpl.
  - destruct (is_error_status (resp_status_code r)); simpl.
    + now rewrite Nat.add_1_r.
    + unfold json, resp_json, json_error.
      destruct (resp_parsed r) as [[| | | | | d] | f]; simpl;
        rewrite ?Nat.add_1_r; try reflexivity.
      unfold py_index. destruct (lookup (lit "order_id") d); simpl;
        reflexivity.
  - now rewrite Nat.add_1_r.
Qed.


Example create_transcription_accepted :
  fst (create_transcription Sample.cfg
         (Sample.serving (Responded Sample.created_reply))
         (lit "https://x") (lit "en-US") (lit "Standard") initial) =
  Ok (PStr (lit "abc123")).
Proof. reflexivity. Qed.

Example create_transcription_refused :
  fst (create_transcription Sample.cfg
         (Sample.serving (Responded Sample.bad_request_reply))
         (lit "https://x") (lit "en-US") (lit "Standard") initial) =
  Raise (HTTPError Sample.bad_request_reply).
Proof. reflexivity. Qed.

Example create_transcription_no_id :
  fst (create_transcription Sample.cfg
         (Sample.serving (Responded Sample.no_id_reply))
         (lit "https://x") (lit "en-US") (lit "Standard") initial) =
  Raise (KeyError (lit "order_id")).
Proof. reflexivity. Qed.




(* ====================================================================== *)
(** * Trimming and splitting the command text *)
(* ====================================================================== *)

Lemma dropwhile_idempotent (p : N -> bool) (s : pystr) :
  dropwhile p (dropwhile p s) = dropwhile p s.
Proof.
  induction s as [| c s IH]; [reflexivity |].
  simpl. destruct (p c) eqn:E; [exact IH |].
  simpl. now rewrite E.
Qed.

Lemma dropwhile_app_all (p : N -> bool) (a b : pystr) :
  forallb p a = true -> dropwhile p (a ++ b) = dropwhile p b.
Proof.
  induction a as [| c a IH]; intros H; [reflexivity |].
  simpl in *. apply andb_true_iff in H. destruct H as [Hc Ha].
  rewrite Hc. now apply IH.
Qed.

Lemma length_dropwhile (p : N -> bool) (s : pystr) :
  length (dropwhile p s) <= length s.
Proof.
  induction s as [| c s IH]; simpl; [lia |].
  destruct (p c); simpl; lia.
Qed.

Lemma dropwhile_nil_iff (p : N -> bool) (s : pystr) :
  dropwhile p s = [] <-> forallb p s = true.
Proof.
  induction s as [| c s IH]; simpl; [tauto |].
  destruct (p c); simpl; [exact IH |].
  split; discriminate.
Qed.

Lemma takewhile_dropwhile (p : N -> bool) (s : pystr) :
  takewhile p s ++ dropwhile p s = s.
Proof.
  induction s as [| c s IH]; [reflexivity |].
  simpl. destruct (p c); simpl; [now rewrite IH | reflexivity].
Qed.

Lemma dropwhile_head (p : N -> bool) (s : pystr) (c : N) (rest : pystr) :
  dropwhile p s = c :: rest -> p c = false /\ In c s.
Proof.
  induction s as [| x s IH]; [discriminate |].
  simpl. destruct (p x) eqn:E.
  - intros H. destruct (IH H) as [H1 H2]. auto.
  - intros H. inversion H; subst. auto.
Qed.

Lemma forallb_takewhile (p : N -> bool) (s : pystr) :
  forallb p (takewhile p s) = true.
Proof.
  induction s as [| c s IH]; [reflexivity |].
  simpl. destruct (p c) eqn:E; simpl; [now rewrite E | reflexivity].
Qed.

Lemma rstrip_idempotent (s : pystr) : rstrip (rstrip s) = rstrip s.
Proof.
  unfold rstrip. now rewrite rev_involutive, dropwhile_idempotent.
Qed.

(** The trimmed text does not end in white space. *)
Lemma rstrip_strip (s : pystr) : rstrip (strip s) = strip s.
Proof. unfold strip. apply rstrip_idempotent. Qed.

(** A text that [rstrip] leaves alone has no white-space-only suffix. *)
Lemma rstrip_fixed_suffix (t pre suf : pystr) :
  rstrip t = t -> t = pre ++ suf -> suf <> [] ->
  forallb isspace suf = false.
Proof.
  intros Hfix -> Hne.
  destruct (forallb isspace suf) eqn:Hall; [exfalso | reflexivity].
  unfold rstrip in Hfix. rewrite rev_app_distr in Hfix.
  rewrite dropwhile_app_all in Hfix.
  - apply (f_equal (@length N)) in Hfix.
    rewrite length_rev, length_app in Hfix.
    pose proof (length_dropwhile isspace (rev pre)) as L.
    rewrite length_rev in L.
    destruct suf; [congruence | simpl in Hfix; lia].
  - rewrite forallb_forall in *. intros x Hx. apply Hall.
    now apply in_rev.
Qed.

Lemma strip_nil_iff (s : pystr) : strip s = [] <-> forallb isspace s = true.
Proof.
  unfold strip, rstrip, lstrip. split.
  - intros H. apply (f_equal (@rev N)) in H.
    rewrite rev_involutive in H. cbn [rev] in H.
    apply dropwhile_nil_iff in H.
    rewrite <- (takewhile_dropwhile isspace s), forallb_app.
    rewrite forallb_takewhile. cbn [andb].
    rewrite forallb_forall in *. intros x Hx. apply H.
    apply -> in_rev. exact Hx.
  - intros H. apply dropwhile_nil_iff in H. now rewrite H.
Qed.

Lemma existsb_false_forallb_neg (s : pystr) :
  forallb (fun c => negb (isspace c)) s = true -> existsb isspace s = false.
Proof.
  induction s as [| c s IH]; [reflexivity |].
  simpl. intros H. apply andb_true_iff in H. destruct H as [Hc Hs].
  apply negb_true_iff in Hc. rewrite Hc. now apply IH.
Qed.

(** On a trimmed text that starts with the command token, the split
    has two parts exactly when the text holds some white space; the
    second part is then the (non-empty) argument. *)
Lemma split_command (t : pystr) :
  startswith t token = true ->
  rstrip t = t ->
  (existsb isspace t = true ->
   split_maxsplit1 t =
     [takewhile (fun c => negb (isspace c)) t; argument t]
   /\ argument t <> [])
  /\ (existsb isspace t = false -> split_maxsplit1 t = [t]).
Proof.
  intros Hstart Hfix.
  destruct t as [| c0 t']; [discriminate |].
  assert (Hc0 : isspace c0 = false).
  { cbn in Hstart. apply andb_true_iff in Hstart. destruct Hstart as [H _].
    apply N.eqb_eq in H. now subst c0. }
  assert (Hunfold :
            split_maxsplit1 (c0 :: t') =
            match argument (c0 :: t') with
            | [] => [takewhile (fun x => negb (isspace x)) (c0 :: t')]
            | r :: rest =>
                [takewhile (fun x => negb (isspace x)) (c0 :: t'); r :: rest]
            end).
  { unfold split_maxsplit1.
    assert (L : lstrip (c0 :: t') = c0 :: t')
      by (unfold lstrip; cbn [dropwhile]; now rewrite Hc0).
    rewrite L. reflexivity. }
  rewrite Hunfold. clear Hunfold.
  set (t := c0 :: t') in *.
  pose proof (takewhile_dropwhile (fun x => negb (isspace x)) t) as Hsplit.
  split.
  - intros Hex.
    assert (Hrest : dropwhile (fun x => negb (isspace x)) t <> []).
    { intros Hnil. rewrite Hnil, app_nil_r in Hsplit.
      pose proof (forallb_takewhile (fun x => negb (isspace x)) t) as F.
      rewrite Hsplit in F. apply existsb_false_forallb_neg in F.
      congruence. }
    assert (Harg : argument t <> []).
    { unfold argument, lstrip. intros Hnil.
      apply dropwhile_nil_iff in Hnil.
      pose proof (@rstrip_fixed_suffix t _ _ Hfix (eq_sym Hsplit) Hrest).
      congruence. }
    split; [| exact Harg].
    destruct (argument t); [congruence | reflexivity].
  - intros Hex.
    assert (Hrest : dropwhile (fun x => negb (isspace x)) t = []).
    { destruct (dropwhile (fun x => negb (isspace x)) t) as [| c r] eqn:D;
        [reflexivity |].
      apply dropwhile_head in D. destruct D as [Hc Hin].
      apply negb_false_iff in Hc.
      assert (existsb isspace t = true)
        by (apply existsb_exists; eauto).
      congruence. }
    unfold argument. rewrite Hrest. cbn [lstrip dropwhile].
    rewrite Hrest, app_nil_r in Hsplit. now rewrite Hsplit.
Qed.

(* ====================================================================== *)
(** * The webhook receiver: [telegram_webhook] *)
(* ====================================================================== *)

Section Webhook.

Variable cfg : config.
Variable repr : pyval -> pystr.
Variable w : world.

Lemma lookup_some_truthy (key : pystr) (items : list (pystr * pyval))
    (v : pyval) :
  lookup key items = Some v -> truthy (PDict items) = true.
Proof. destruct items; [discriminate | reflexivity]. Qed.

(** Lines 138-139 on a message object with a chat id and a text. *)
Lemma webhook_message (items : list (pystr * pyval)) (chat_id : pyval)
    (raw : option pystr) (st : state) :
  match lookup (lit "chat") items with
  | Some (PDict c) =>
      match lookup (lit "id") c, lookup (lit "text") items with
      | Some chat_id, None => Some (chat_id, None)
      | Some chat_id, Some (PStr s) => Some (chat_id, Some s)
      | _, _ => None
      end
  | _ => None
  end = Some (chat_id, raw) ->
  (if negb (truthy (PDict items)) then ret empty_200 else
   chat <- py_index (PDict items) (lit "chat") ;;
   chat_id <- py_index chat (lit "id") ;;
   t <- py_get (PDict items) (lit "text") (PStr []) ;;
   text <- py_strip t ;;
   telegram_webhook_command cfg repr w chat_id text) st =
  telegram_webhook_command cfg repr w chat_id (trimmed raw) st.
Proof.
  intros H.
  destruct (lookup (lit "chat") items) as [[| | | | | c] |] eqn:Hchat;
    try discriminate.
  rewrite (lookup_some_truthy _ _ Hchat). cbn [negb].
  unfold py_index at 1. rewrite Hchat.
  unfold bind at 1. unfold ret at 1.
  unfold py_index at 1.
  destruct (lookup (lit "id") c) as [cid |] eqn:Hid; [| discriminate].
  unfold bind at 1. unfold ret at 1.
  unfold py_get.
  destruct (lookup (lit "text") items) as [[| | | s | |] |] eqn:Htext;
    try discriminate; inversion H; subst; reflexivity.
Qed.

(** On a well-formed update the handler comes down to the command
    dispatch on the chat id and the trimmed text. *)
Lemma webhook_incoming_raw (req : request) (chat_id : pyval)
    (raw : option pystr) (st : state) :
  incoming_raw req = Some (chat_id, raw) ->
  telegram_webhook cfg repr w req st =
    telegram_webhook_command cfg repr w chat_id (trimmed raw) st.
Proof.
  unfold incoming_raw, telegram_webhook. intros H.
  destruct (str_eqb (method req) (lit "POST")); [| discriminate].
  unfold get_json.
  destruct (body_json req) as [[| | | | | u] |]; try discriminate.
  unfold bind at 1. unfold ret at 1.
  destruct u as [| kv u'].
  { cbn in H. discriminate. }
  set (U := kv :: u') in *.
  change (truthy (PDict U)) with true. cbn [negb].
  unfold py_get at 1. fold (get_or_none (lit "message") U).
  unfold bind at 1. unfold ret at 1.
  cbv zeta in H.
  destruct (truthy (get_or_none (lit "message") U)) eqn:Tm.
  - unfold bind at 1. unfold ret at 1.
    destruct (get_or_none (lit "message") U) as [| | | | | items];
      try discriminate.
    now apply webhook_message.
  - unfold py_get at 1. fold (get_or_none (lit "edited_message") U).
    unfold bind at 1. unfold ret at 1.
    destruct (get_or_none (lit "edited_message") U) as [| | | | | items];
      try discriminate.
    now apply webhook_message.
Qed.

Lemma webhook_incoming (req : request) (chat_id : pyval) (text : pystr)
    (st : state) :
  incoming req = Some (chat_id, text) ->
  telegram_webhook cfg repr w req st =
    telegram_webhook_command cfg repr w chat_id text st
  /\ rstrip text = text.
Proof.
  unfold incoming. intros H.
  destruct (incoming_raw req) as [[c raw] |] eqn:E; [| discriminate].
  inversion H; subst. split.
  - now apply webhook_incoming_raw.
  - apply rstrip_strip.
Qed.

(** A handler branch that sends one text and returns. *)
Lemma send_then_return (chat_id : pyval) (text : pystr) (st : state) :
  (send_message cfg w chat_id text PNone ;; ret empty_200) st =
  (return_after (send_outcome w (tg_calls st) (message_parts text)),
   after_telegram st (sent_count w (tg_calls st) (message_parts text))
     (parts_trace cfg w chat_id PNone
        (firstn (sent_count w (tg_calls st) (message_parts text))
                (message_parts text)) (tg_calls st))).
Proof.
  unfold bind. rewrite send_message_run.
  destruct (send_outcome w (tg_calls st) (message_parts text)) as [[] | e];
    reflexivity.
Qed.

(** Text that does not start with the token: the reminder. *)
Lemma command_other_text (chat_id : pyval) (text : pystr) (st : state) :
  startswith text token = false ->
  telegram_webhook_command cfg repr w chat_id text st =
  (return_after (send_outcome w (tg_calls st) [reminder_hint]),
   after_telegram st 1
     (sendMessage cfg chat_id PNone reminder_hint
      :: failure_log (lit "sendMessage") (telegram w (tg_calls st)))).
Proof.
  intros H. unfold telegram_webhook_command. fold token. rewrite H.
  fold reminder_hint. rewrite send_then_return.
  change (message_parts reminder_hint) with [reminder_hint].
  rewrite sent_count_single. cbn [firstn parts_trace].
  now rewrite app_nil_r.
Qed.

(** The token without an argument: the usage message. *)
Lemma command_bare (chat_id : pyval) (text : pystr) (st : state) :
  startswith text token = true ->
  (length (split_maxsplit1 text) =? 2) = false ->
  telegram_webhook_command cfg repr w chat_id text st =
  (return_after (send_outcome w (tg_calls st) [usage_hint]),
   after_telegram st 1
     (sendMessage cfg chat_id PNone usage_hint
      :: failure_log (lit "sendMessage") (telegram w (tg_calls st)))).
Proof.
  intros H Hl. unfold telegram_webhook_command. fold token. rewrite H, Hl.
  cbn [negb]. fold usage_hint. rewrite send_then_return.
  change (message_parts usage_hint) with [usage_hint].
  rewrite sent_count_single. cbn [firstn parts_trace].
  now rewrite app_nil_r.
Qed.

End Webhook.

Section Submission.

Variable cfg : config.
Variable repr : pyval -> pystr.
Variable w : world.
Variable chat_id : pyval.

Lemma command_unfold (text word arg : pystr) (st : state) :
  startswith text token = true ->
  split_maxsplit1 text = [word; arg] ->
  telegram_webhook_command cfg repr w chat_id text st =
  (try_except_HTTPError
     (order_id <- create_transcription cfg w arg (lit "en-US")
                    (lit "Standard") ;;
      send_message cfg w chat_id (started_text repr order_id) PNone ;;
      thread_start order_id chat_id)
     (fun e_response =>
        send_message cfg w chat_id (create_failed_text e_response) PNone) ;;
   ret empty_200) st.
Proof.
  intros H Hs. unfold telegram_webhook_command. fold token.
  rewrite H, Hs. reflexivity.
Qed.

(** The creation call is refused (4xx/5xx): the failure is reported to
    the chat and nothing else happens. *)
Lemma command_refused (text word arg : pystr) (st : state) (r : response) :
  startswith text token = true ->
  split_maxsplit1 text = [word; arg] ->
  create_result (transkriptor w (tr_calls st)) = Raise (HTTPError r) ->
  let parts := message_parts (create_failed_text r) in
  telegram_webhook_command cfg repr w chat_id text st =
  (return_after (send_outcome w (tg_calls st) parts),
   after_telegram (submitted_state cfg st arg)
     (sent_count w (tg_calls st) parts)
     (parts_trace cfg w chat_id PNone
        (firstn (sent_count w (tg_calls st) parts) parts) (tg_calls st))).
Proof.
  intros H Hs Hc parts. rewrite (command_unfold text st H Hs).
  unfold bind at 1. unfold try_except_HTTPError.
  unfold bind at 1. rewrite create_transcription_run, Hc.
  rewrite send_message_run. fold parts.
  cbn [submitted_state after_transkriptor tg_calls].
  destruct (send_outcome w (tg_calls st) parts) as [[] | e];
    reflexivity.
Qed.

(** The creation call raises something else: it leaves the handler. *)
Lemma command_create_raises (text word arg : pystr) (st : state) (e : exn) :
  startswith text token = true ->
  split_maxsplit1 text = [word; arg] ->
  create_result (transkriptor w (tr_calls st)) = Raise e ->
  (forall r, e <> HTTPError r) ->
  telegram_webhook_command cfg repr w chat_id text st =
  (Raise e, submitted_state cfg st arg).
Proof.
  intros H Hs Hc Hne. rewrite (command_unfold text st H Hs).
  unfold bind at 1. unfold try_except_HTTPError.
  unfold bind at 1. rewrite create_transcription_run, Hc.
  destruct e; try reflexivity. now elim (Hne r).
Qed.

(** The order is accepted: acknowledgement, then the delivery task. *)
Lemma command_accepted (text word arg : pystr) (st : state)
    (order_id : pyval) :
  startswith text token = true ->
  split_maxsplit1 text = [word; arg] ->
  create_result (transkriptor w (tr_calls st)) = Ok order_id ->
  let parts := message_parts (started_text repr order_id) in
  let sent :=
    after_telegram (submitted_state cfg st arg)
      (sent_count w (tg_calls st) parts)
      (parts_trace cfg w chat_id PNone
         (firstn (sent_count w (tg_calls st) parts) parts) (tg_calls st)) in
  telegram_webhook_command cfg repr w chat_id text st =
  match send_outcome w (tg_calls st) parts with
  | Ok _ => (Ok empty_200, with_event sent (ThreadStart order_id chat_id))
  | Raise e => (Raise e, sent)
  end.
Proof.
  intros H Hs Hc parts sent. rewrite (command_unfold text st H Hs).
  unfold bind at 1. unfold try_except_HTTPError.
  unfold bind at 1. rewrite create_transcription_run, Hc.
  unfold bind at 1. rewrite send_message_run. fold parts.
  cbn [submitted_state after_transkriptor tg_calls] in *.
  pose proof (send_outcome_no_HTTPError w parts (tg_calls st)) as Hno.
  destruct (send_outcome w (tg_calls st) parts) as [[] | e].
  - reflexivity.
  - destruct e; try reflexivity. now elim (Hno r).
Qed.

(** Whatever the service answers, a command with an argument starts by
    posting the creation request for that argument. *)
Lemma command_submits_first (text word arg : pystr) (st : state) :
  startswith text token = true ->
  split_maxsplit1 text = [word; arg] ->
  exists rest,
    new_events st (snd (telegram_webhook_command cfg repr w chat_id text st))
    = create_request cfg arg (lit "en-US") (lit "Standard") :: rest.
Proof.
  intros H Hs.
  destruct (create_result (transkriptor w (tr_calls st)))
    as [order_id | e] eqn:Hc.
  - rewrite (command_accepted text st H Hs Hc). cbv zeta.
    destruct (send_outcome w (tg_calls st)
                (message_parts (started_text repr order_id))).
    + eexists. cbn [snd]. unfold with_event. cbn [trace tg_calls tr_calls].
      unfold new_events, submitted_state, after_telegram, after_transkriptor.
      cbn [trace]. rewrite <- !app_assoc, skipn_app, Nat.sub_diag, skipn_all.
      reflexivity.
    + eexists. cbn [snd]. unfold submitted_state.
      rewrite new_events_both. reflexivity.
  - assert (D : (exists r, e = HTTPError r) \/ (forall r, e <> HTTPError r)).
    { destruct e; try (right; discriminate). left. now exists r. }
    destruct D as [[r ->] | Hne].
    + rewrite (command_refused text st H Hs Hc). cbv zeta.
      eexists. cbn [snd]. unfold submitted_state.
      rewrite new_events_both. reflexivity.
    + rewrite (command_create_raises text st H Hs Hc Hne).
      eexists. cbn [snd]. unfold submitted_state.
      rewrite new_events_after_transkriptor. reflexivity.
Qed.

End Submission.

Lemma submitted_app (a b : list event) :
  submitted (a ++ b) = submitted a || submitted b.
Proof. apply existsb_app. Qed.

Lemma submitted_failure_log (what : pystr) (o : outcome) :
  submitted (failure_log what o) = false.
Proof.
  destruct o as [r |]; simpl; [| reflexivity].
  destruct (ok r); reflexivity.
Qed.

Lemma In_skipn (A : Type) (n : nat) (l : list A) (x : A) :
  In x (skipn n l) -> In x l.
Proof.
  revert l. induction n as [| n IH]; intros [| y l]; simpl; auto.
Qed.

(** The condition of the specification implies the one the code tests. *)
Lemma spec_command_space (text : pystr) :
  spec_command text = true ->
  startswith text token = true /\ existsb isspace text = true.
Proof.
  unfold spec_command. intros H. apply andb_true_iff in H.
  destruct H as [Hs H]. split; [exact Hs |].
  destruct (skipn (length token) text) as [| c rest] eqn:E; [discriminate |].
  apply andb_true_iff in H. destruct H as [Hc _].
  apply existsb_exists. exists c. split; [| exact Hc].
  apply (In_skipn (length token)). rewrite E. now left.
Qed.

Example webhook_command_with_argument :
  effects (trace (snd (telegram_webhook Sample.cfg Sample.repr
                         (Sample.serving (Responded Sample.created_reply))
                         (Sample.text_update (lit "/transcribe https://x"))
                         initial))) =
  [create_request Sample.cfg (lit "https://x") (lit "en-US")
     (lit "Standard");
   sendMessage Sample.cfg Sample.chat PNone
     (started_text Sample.repr (PStr (lit "abc123")));
   ThreadStart (PStr (lit "abc123")) Sample.chat].
Proof. reflexivity. Qed.

Example webhook_bare_command :
  telegram_webhook Sample.cfg Sample.repr
    (Sample.serving (Responded Sample.created_reply))
    (Sample.text_update (lit "  /transcribe  ")) initial =
  (Ok empty_200,
   after_telegram initial 1 [sendMessage Sample.cfg Sample.chat PNone
                               usage_hint]).
Proof. reflexivity. Qed.

(** C2, as stated, fails: the text [/transcribeXYZ abc] does not begin
    with the command token followed by white space, yet the handler
    submits an order, for [abc], instead of replying with a usage hint. *)
Lemma prefix_match_submits :
  spec_command (lit "/transcribeXYZ abc") = false
  /\ incoming (Sample.text_update (lit "/transcribeXYZ abc")) =
     Some (Sample.chat, lit "/transcribeXYZ abc")
  /\ effects (trace (snd (telegram_webhook Sample.cfg Sample.repr
                            (Sample.serving (Responded Sample.created_reply))
                            (Sample.text_update (lit "/transcribeXYZ abc"))
                            initial))) =
     [create_request Sample.cfg (lit "abc") (lit "en-US") (lit "Standard");
      sendMessage Sample.cfg Sample.chat PNone
        (started_text Sample.repr (PStr (lit "abc123")));
      ThreadStart (PStr (lit "abc123")) Sample.chat].
Proof. repeat split. Qed.

(** C2, amended.  For every well-formed inbound message, with [text] its
    trimmed text, the handler proceeds to order submission exactly when
    [text] starts with the token [/transcribe] (a prefix match: the first
    word need not be the token alone) and contains white space; it then
    submits what follows the first white-space run, which is not empty.
    For any other text, the bare token included, it sends one usage hint
    and submits nothing.  A text that begins with the token followed by
    white space and a non-empty argument is always submitted. *)
Theorem command_recognition (cfg : config) (repr : pyval -> pystr)
    (w : world) (req : request) (chat_id : pyval) (text : pystr)
    (st : state) :
  incoming req = Some (chat_id, text) ->
  let evs := new_events st (snd (telegram_webhook cfg repr w req st)) in
  (submitted evs = true <->
   startswith text token = true /\ existsb isspace text = true)
  /\ (submitted evs = true ->
      argument text <> []
      /\ hd_error evs =
         Some (create_request cfg (argument text) (lit "en-US")
                 (lit "Standard")))
  /\ (submitted evs = false ->
      effects evs =
      [sendMessage cfg chat_id PNone
         (if startswith text token then usage_hint else reminder_hint)])
  /\ (spec_command text = true -> submitted evs = true).
Proof.
  intros Hin evs. subst evs.
  destruct (webhook_incoming cfg repr w req st Hin) as [Hrun Hfix].
  rewrite Hrun. clear Hrun.
  destruct (startswith text token) eqn:Hs.
  - destruct (@split_command text Hs Hfix) as [Hyes Hno].
    destruct (existsb isspace text) eqn:Hex.
    + destruct (Hyes eq_refl) as [Hsplit Harg].
      destruct (command_submits_first cfg repr w chat_id text st Hs Hsplit)
        as [rest Hev].
      rewrite Hev. cbn [submitted existsb create_request orb hd_error].
      repeat split; auto; discriminate.
    + specialize (Hno eq_refl).
      rewrite (command_bare cfg repr w chat_id text st Hs)
        by now rewrite Hno.
      cbn [snd]. rewrite new_events_after_telegram.
      change (?a :: failure_log ?x ?y) with ([a] ++ failure_log x y).
      rewrite submitted_app, submitted_failure_log, effects_app,
        effects_failure_log.
      cbn [submitted existsb sendMessage orb].
      repeat split; try discriminate.
      * intros [_ H]. discriminate H.
      * intros H. apply spec_command_space in H. destruct H. congruence.
  - rewrite (command_other_text cfg repr w chat_id text st Hs).
    cbn [snd]. rewrite new_events_after_telegram.
    change (?a :: failure_log ?x ?y) with ([a] ++ failure_log x y).
    rewrite submitted_app, submitted_failure_log, effects_app,
      effects_failure_log.
    cbn [submitted existsb sendMessage orb].
    repeat split; try discriminate.
    + intros [H _]. discriminate H.
    + intros H. apply spec_command_space in H. destruct H. congruence.
Qed.

Lemma command_recognition_witness :
  incoming (Sample.text_update (lit "/transcribe https://x")) =
    Some (Sample.chat, lit "/transcribe https://x")
  /\ (submitted
        (new_events initial
           (snd (telegram_webhook Sample.cfg Sample.repr
                   (Sample.serving (Responded Sample.created_reply))
                   (Sample.text_update (lit "/transcribe https://x"))
                   initial))) = true <->
      startswith (lit "/transcribe https://x") token = true
      /\ existsb isspace (lit "/transcribe https://x") = true).
Proof.
  split; [reflexivity |].
  apply (command_recognition Sample.cfg Sample.repr
           (Sample.serving (Responded Sample.created_reply))
           (Sample.text_update (lit "/transcribe https://x")) initial
           (chat_id := Sample.chat) (text := lit "/transcribe https://x")
           eq_refl).
Defined.

Lemma started_app (a b : list event) :
  started (a ++ b) = started a || started b.
Proof. apply existsb_app. Qed.

Lemma started_parts_trace (cfg : config) (w : world)
    (chat_id reply_to : pyval) (parts : list pystr) (n : nat) :
  started (parts_trace cfg w chat_id reply_to parts n) = false.
Proof.
  revert n. induction parts as [| part parts IH]; intros n; [reflexivity |].
  cbn [parts_trace].
  change (?a :: ?x ++ ?y) with ([a] ++ x ++ y).
  rewrite !started_app, IH.
  destruct (telegram w n) as [r |]; [| reflexivity].
  cbn [failure_log]. destruct (ok r); reflexivity.
Qed.

Lemma message_parts_nonempty (text : pystr) :
  text <> [] -> message_parts text <> [].
Proof.
  intros Hne Hnil. apply (f_equal (@length pystr)) in Hnil.
  rewrite length_message_parts in Hnil. cbn [length] in Hnil.
  destruct (ceil_div_spec (length text) max_len_pos) as [Hle _].
  rewrite Hnil in Hle. destruct text; [congruence | simpl in Hle; lia].
Qed.

Lemma sent_count_pos (w : world) (parts : list pystr) (n : nat) :
  parts <> [] -> 1 <= sent_count w n parts.
Proof.
  destruct parts as [| part parts]; [congruence |]. intros _. simpl.
  destruct (answers_json (telegram w n)); lia.
Qed.

Example webhook_refused :
  telegram_webhook Sample.cfg Sample.repr
    (Sample.serving (Responded Sample.bad_request_reply))
    (Sample.text_update (lit "/transcribe nonsense")) initial =
  (Ok empty_200,
   after_telegram
     (after_transkriptor initial 1
        [create_request Sample.cfg (lit "nonsense") (lit "en-US")
           (lit "Standard")]) 1
     [sendMessage Sample.cfg Sample.chat PNone
        (create_failed_text Sample.bad_request_reply)]).
Proof. reflexivity. Qed.

(** A 300 from the creation endpoint is not an error for
    [raise_for_status]: the order is acknowledged and a task started. *)
Example webhook_status_300_starts_task :
  started (trace (snd (telegram_webhook Sample.cfg Sample.repr
                         (Sample.serving
                            (Responded Sample.multiple_choices_reply))
                         (Sample.text_update (lit "/transcribe https://x"))
                         initial))) = true.
Proof. reflexivity. Qed.

(** C5, as stated, fails: a creation call answered with HTTP 400 and a
    body of 5000 code points makes the handler send two chat messages,
    not exactly one. *)
Lemma creation_failure_two_messages :
  let failure := create_failed_text Sample.long_error_reply in
  resp_status_code Sample.long_error_reply = 400%Z
  /\ effects (trace (snd (telegram_webhook Sample.cfg Sample.repr
                            (Sample.serving
                               (Responded Sample.long_error_reply))
                            (Sample.text_update
                               (lit "/transcribe https://x"))
                            initial))) =
     [create_request Sample.cfg (lit "https://x") (lit "en-US")
        (lit "Standard");
      sendMessage Sample.cfg Sample.chat PNone (firstn 4096 failure);
      sendMessage Sample.cfg Sample.chat PNone (skipn 4096 failure)]
  /\ length (skipn 4096 failure) = 938.
Proof.
  cbv zeta. split; [reflexivity |].
  split; vm_compute; reflexivity.
Qed.

(** C5, amended.  For every [/transcribe] command (a trimmed text that
    starts with the token and holds an argument) whose creation call is
    answered with a 4xx or 5xx status, the handler reports
    [Failed to create transcription: <response text>] to the chat through
    [send_message]: as exactly one message when that text has at most
    4096 code points; when it is longer, as its successive parts, all of
    them when Telegram answers each request with a body that
    [resp.json()] parses, and otherwise the parts up to the first request
    that fails (no response, or a body on which [resp.json()] fails),
    whose exception then leaves the handler.  In every case it makes no
    other call to the transcription service and starts no delivery task,
    so no poll ever occurs for the command. *)
Theorem creation_failure_reported (cfg : config) (repr : pyval -> pystr)
    (w : world) (req : request) (chat_id : pyval) (text : pystr)
    (st : state) (r : response) :
  incoming req = Some (chat_id, text) ->
  startswith text token = true ->
  existsb isspace text = true ->
  transkriptor w (tr_calls st) = Responded r ->
  is_error_status (resp_status_code r) = true ->
  let failure :=
    [10060]%N ++ lit " Failed to create transcription: " ++ resp_text r in
  let request :=
    create_request cfg (argument text) (lit "en-US") (lit "Standard") in
  let out := telegram_webhook cfg repr w req st in
  let evs := new_events st (snd out) in
  started evs = false
  /\ tr_calls (snd out) = tr_calls st + 1
  /\ (exists k,
        1 <= k <= length (message_parts failure)
        /\ effects evs =
           request
           :: map (sendMessage cfg chat_id PNone)
                (firstn k (message_parts failure)))
  /\ (length failure <= 4096 ->
      effects evs = [request; sendMessage cfg chat_id PNone failure])
  /\ ((forall i, i < length (message_parts failure) ->
         answers_json (telegram w (tg_calls st + i)) = true) ->
      fst out = Ok empty_200
      /\ effects evs =
         request :: map (sendMessage cfg chat_id PNone)
                      (message_parts failure))
  /\ (forall j,
        j < length (message_parts failure) ->
        (forall i, i < j ->
           answers_json (telegram w (tg_calls st + i)) = true) ->
        answers_json (telegram w (tg_calls st + j)) = false ->
        fst out = Raise (send_error (telegram w (tg_calls st + j)))
        /\ effects evs =
           request :: map (sendMessage cfg chat_id PNone)
                        (firstn (S j) (message_parts failure))).
Proof.
  intros Hin Hs Hex E Herr. cbv zeta.
  destruct (webhook_incoming cfg repr w req st Hin) as [Hrun Hfix].
  rewrite Hrun. clear Hrun.
  destruct (@split_command text Hs Hfix) as [Hyes _].
  destruct (Hyes Hex) as [Hsplit Harg].
  assert (Hc : create_result (transkriptor w (tr_calls st)) =
               Raise (HTTPError r)).
  { rewrite E. cbn [create_result]. now rewrite Herr. }
  rewrite (command_refused cfg repr w chat_id text st Hs Hsplit Hc).
  cbv zeta. cbn [fst snd]. unfold submitted_state.
  rewrite new_events_both.
  change (create_failed_text r)
    with ([10060]%N ++ lit " Failed to create transcription: "
          ++ resp_text r).
  set (failure := [10060]%N ++ lit " Failed to create transcription: "
                  ++ resp_text r).
  set (request := create_request cfg (argument text) (lit "en-US")
                    (lit "Standard")).
  set (parts := message_parts failure).
  set (k := sent_count w (tg_calls st) parts).
  assert (Heff : effects
                   ([request]
                    ++ parts_trace cfg w chat_id PNone (firstn k parts)
                         (tg_calls st)) =
                 request :: map (sendMessage cfg chat_id PNone)
                              (firstn k parts)).
  { rewrite effects_app, effects_parts_trace. reflexivity. }
  split; [| split; [| split; [| split; [| split]]]].
  - rewrite started_app, started_parts_trace. reflexivity.
  - reflexivity.
  - exists k. split; [| exact Heff]. split.
    + apply sent_count_pos. apply message_parts_nonempty. discriminate.
    + apply sent_count_le.
  - intros Hlen. rewrite Heff. subst k parts.
    rewrite message_parts_single by (exact Hlen || discriminate).
    now rewrite sent_count_single.
  - intros Hall.
    destruct (send_all_answered w parts (tg_calls st) Hall) as [Hk Ho].
    rewrite Ho. split; [reflexivity |].
    rewrite Heff. subst k. now rewrite Hk, firstn_all.
  - intros j Hj Hall Hf.
    destruct (send_first_failure w parts (tg_calls st) Hj Hall Hf)
      as [Hk Ho].
    rewrite Ho. split; [reflexivity |].
    rewrite Heff. subst k. now rewrite Hk.
Qed.

Lemma creation_failure_reported_witness :
  incoming (Sample.text_update (lit "/transcribe nonsense")) =
    Some (Sample.chat, lit "/transcribe nonsense")
  /\ startswith (lit "/transcribe nonsense") token = true
  /\ existsb isspace (lit "/transcribe nonsense") = true
  /\ transkriptor (Sample.serving (Responded Sample.bad_request_reply))
       (tr_calls initial) = Responded Sample.bad_request_reply
  /\ is_error_status (resp_status_code Sample.bad_request_reply) = true
  /\ started
       (new_events initial
          (snd (telegram_webhook Sample.cfg Sample.repr
                  (Sample.serving (Responded Sample.bad_request_reply))
                  (Sample.text_update (lit "/transcribe nonsense"))
                  initial))) = false
  /\ effects
       (new_events initial
          (snd (telegram_webhook Sample.cfg Sample.repr
                  (Sample.serving (Responded Sample.bad_request_reply))
                  (Sample.text_update (lit "/transcribe nonsense"))
                  initial))) =
     [create_request Sample.cfg (argument (lit "/transcribe nonsense"))
        (lit "en-US") (lit "Standard");
      sendMessage Sample.cfg Sample.chat PNone
        ([10060]%N ++ lit " Failed to create transcription: "
         ++ resp_text Sample.bad_request_reply)].
Proof.
  do 5 (split; [reflexivity |]).
  pose proof (creation_failure_reported Sample.cfg Sample.repr
                (Sample.serving (Responded Sample.bad_request_reply))
                (Sample.text_update (lit "/transcribe nonsense")) initial
                (chat_id := Sample.chat) (text := lit "/transcribe nonsense")
                (r := Sample.bad_request_reply)
                eq_refl eq_refl eq_refl eq_refl eq_refl) as H.
  cbv zeta in H. destruct H as (Hstarted & _ & _ & Hone & _ & _).
  split; [exact Hstarted |].
  apply Hone. vm_compute. lia.
Defined.

Lemma blank_trimmed (raw : option pystr) : blank raw = true -> trimmed raw = [].
Proof.
  destruct raw as [s |]; simpl; intros H.
  - now apply strip_nil_iff.
  - reflexivity.
Qed.

Example incoming_photo :
  incoming_raw Sample.photo_update = Some (Sample.chat, None).
Proof. reflexivity. Qed.

Example incoming_spaces :
  incoming_raw (Sample.text_update [32; 10; 9]%N) =
  Some (Sample.chat, Some [32; 10; 9]%N).
Proof. reflexivity. Qed.

Example webhook_photo :
  telegram_webhook Sample.cfg Sample.repr Sample.processing
    Sample.photo_update initial =
  (Ok empty_200,
   after_telegram initial 1
     [sendMessage Sample.cfg Sample.chat PNone reminder_hint]).
Proof. reflexivity. Qed.

Example webhook_other_update :
  telegram_webhook Sample.cfg Sample.repr Sample.processing
    Sample.other_update initial = (Ok empty_200, initial).
Proof. reflexivity. Qed.

(** C10, as stated, fails: the handler does not always respond 200, and
    it can stay silent.  For a message whose text is white space only and
    a Telegram that does not respond, the reminder is posted but the
    exception of the request leaves the handler, which Flask answers
    with 500.  For a message object without [chat] (and without text),
    line 138 raises a [KeyError] and nothing is sent at all. *)
Lemma blank_text_not_always_200 :
  incoming_raw (Sample.text_update [32; 10; 9]%N) =
    Some (Sample.chat, Some [32; 10; 9]%N)
  /\ blank (Some [32; 10; 9]%N) = true
  /\ telegram_webhook Sample.cfg Sample.repr Sample.telegram_down
       (Sample.text_update [32; 10; 9]%N) initial =
     (Raise RequestException,
      after_telegram initial 1
        [sendMessage Sample.cfg Sample.chat PNone reminder_hint])
  /\ http_status
       (fst (telegram_webhook Sample.cfg Sample.repr Sample.telegram_down
               (Sample.text_update [32; 10; 9]%N) initial)) = 500%Z
  /\ telegram_webhook Sample.cfg Sample.repr Sample.processing
       Cases.chatless_blank_update initial =
     (Raise (KeyError (lit "chat")), initial)
  /\ http_status
       (fst (telegram_webhook Sample.cfg Sample.repr Sample.processing
               Cases.chatless_blank_update initial)) = 500%Z.
Proof. repeat split. Qed.

(** C10, amended.  For every inbound update that carries a [message] or
    [edited_message] object with a chat id ([message.chat.id]) and whose
    [text] field is absent, empty, or made of white space only, the
    handler is not silent: the trimmed text is the empty string, which
    does not start with the command token, and the handler posts exactly
    one message, the usage reminder.  It then responds 200 with [{}]
    when Telegram answers that request with a body that [resp.json()]
    parses; when the request gets no response, or a body on which
    [resp.json()] fails, its exception leaves the handler and the HTTP
    response is a 500. *)
Theorem blank_text_reminder (cfg : config) (repr : pyval -> pystr)
    (w : world) (req : request) (chat_id : pyval) (raw : option pystr)
    (st : state) :
  incoming_raw req = Some (chat_id, raw) ->
  blank raw = true ->
  let out := telegram_webhook cfg repr w req st in
  trimmed raw = []
  /\ effects (new_events st (snd out)) =
     [sendMessage cfg chat_id PNone
        (lit "Send /transcribe <YouTube URL> to start a transcription.")]
  /\ (answers_json (telegram w (tg_calls st)) = true ->
      fst out = Ok (PDict [], 200%Z))
  /\ (answers_json (telegram w (tg_calls st)) = false ->
      fst out = Raise (send_error (telegram w (tg_calls st)))
      /\ http_status (fst out) = 500%Z).
Proof.
  intros Hin Hb. cbv zeta.
  rewrite (webhook_incoming_raw cfg repr w req st Hin).
  rewrite (blank_trimmed raw Hb).
  rewrite command_other_text by reflexivity.
  cbn [fst snd]. rewrite new_events_after_telegram.
  change (?a :: failure_log ?x ?y) with ([a] ++ failure_log x y).
  rewrite effects_app, effects_failure_log.
  split; [reflexivity |]. split; [reflexivity |]. split.
  - intros Ha. cbn [send_outcome]. unfold answers_json in Ha.
    destruct (telegram w (tg_calls st)) as [r |]; [| discriminate].
    destruct (resp_json r); [reflexivity | discriminate].
  - intros Ha.
    assert (R : return_after (send_outcome w (tg_calls st) [reminder_hint])
                = Raise (send_error (telegram w (tg_calls st)))).
    { cbn [send_outcome]. unfold answers_json in Ha.
      destruct (telegram w (tg_calls st)) as [r |]; [| reflexivity].
      cbn [send_error]. destruct (resp_json r); [discriminate | reflexivity]. }
    rewrite R. split; [reflexivity |]. apply http_status_send_error.
Qed.

Lemma blank_text_reminder_witness :
  incoming_raw (Sample.text_update [32; 10; 9]%N) =
    Some (Sample.chat, Some [32; 10; 9]%N)
  /\ blank (Some [32; 10; 9]%N) = true
  /\ effects
       (new_events initial
          (snd (telegram_webhook Sample.cfg Sample.repr Sample.processing
                  (Sample.text_update [32; 10; 9]%N) initial))) =
     [sendMessage Sample.cfg Sample.chat PNone
        (lit "Send /transcribe <YouTube URL> to start a transcription.")]
  /\ fst (telegram_webhook Sample.cfg Sample.repr Sample.processing
            (Sample.text_update [32; 10; 9]%N) initial) =
     Ok (PDict [], 200%Z)
  /\ http_status
       (fst (telegram_webhook Sample.cfg Sample.repr Sample.telegram_down
               (Sample.text_update [32; 10; 9]%N) initial)) = 500%Z.
Proof.
  split; [reflexivity |]. split; [reflexivity |].
  pose proof (blank_text_reminder Sample.cfg Sample.repr Sample.processing
                (Sample.text_update [32; 10; 9]%N) initial
                (chat_id := Sample.chat) (raw := Some [32; 10; 9]%N)
                eq_refl eq_refl) as Up.
  pose proof (blank_text_reminder Sample.cfg Sample.repr
                Sample.telegram_down
                (Sample.text_update [32; 10; 9]%N) initial
                (chat_id := Sample.chat) (raw := Some [32; 10; 9]%N)
                eq_refl eq_refl) as Down.
  cbv zeta in Up, Down.
  destruct Up as (_ & Hsent & Hok & _).
  destruct Down as (_ & _ & _ & Hfail).
  split; [exact Hsent |]. split.
  - apply Hok. reflexivity.
  - apply Hfail. reflexivity.
Defined.

(* ---------------------------------------------------------------------- *)
(** ** What the handler answers over HTTP *)

Lemma returns_ret : returns_empty_200 (ret empty_200).
Proof. intros st x H. now inversion H. Qed.

Lemma returns_bind (A : Type) (m : M A) (k : A -> M (pyval * Z)) :
  (forall a, returns_empty_200 (k a)) -> returns_empty_200 (bind m k).
Proof.
  intros Hk st x. unfold bind.
  destruct (m st) as [[a | e] st']; [apply Hk | discriminate].
Qed.

Lemma returns_command (cfg : config) (repr : pyval -> pystr) (w : world)
    (chat_id : pyval) (text : pystr) :
  returns_empty_200 (telegram_webhook_command cfg repr w chat_id text).
Proof.
  unfold telegram_webhook_command.
  destruct (startswith text (lit "/transcribe")).
  - destruct (negb (length (split_maxsplit1 text) =? 2));
      apply returns_bind; intros; apply returns_ret.
  - apply returns_bind; intros; apply returns_ret.
Qed.

Lemma returns_webhook (cfg : config) (repr : pyval -> pystr) (w : world)
    (req : request) :
  returns_empty_200 (telegram_webhook cfg repr w req).
Proof.
  unfold telegram_webhook.
  destruct (str_eqb (method req) (lit "POST")); [| apply returns_ret].
  apply returns_bind. intros update.
  destruct (negb (truthy update)); [apply returns_ret |].
  apply returns_bind. intros m.
  apply returns_bind. intros message.
  destruct (negb (truthy message)); [apply returns_ret |].
  apply returns_bind. intros chat.
  apply returns_bind. intros chat_id.
  apply returns_bind. intros t.
  apply returns_bind. intros text.
  apply returns_command.
Qed.

Lemma send_outcome_answered (w : world) (parts : list pystr) (n : nat) :
  (forall i, answers_json (telegram w i) = true) ->
  send_outcome w n parts = Ok tt.
Proof.
  intros H. now apply send_all_answered.
Qed.

Example webhook_garbage_body :
  fst (telegram_webhook Sample.cfg Sample.repr Sample.processing
         Sample.garbage_request initial) = Raise BadRequest
  /\ http_status
       (fst (telegram_webhook Sample.cfg Sample.repr Sample.processing
               Sample.garbage_request initial)) = 400%Z.
Proof. split; reflexivity. Qed.

Example webhook_chatless_message :
  fst (telegram_webhook Sample.cfg Sample.repr Sample.processing
         Sample.chatless_update initial) = Raise (KeyError (lit "chat"))
  /\ http_status
       (fst (telegram_webhook Sample.cfg Sample.repr Sample.processing
               Sample.chatless_update initial)) = 500%Z.
Proof. split; reflexivity. Qed.

(** C4, as stated, fails: downstream failures other than a 4xx/5xx
    creation response leave the handler as exceptions, and the POST is
    not answered with 200.  Here, for the update [/transcribe https://x]:
    a 2xx creation response without [order_id] (a [KeyError] at line 77),
    and a creation call that gets no response (line 74). *)
Lemma webhook_not_always_200 :
  let req := Sample.text_update (lit "/transcribe https://x") in
  let no_id :=
    fst (telegram_webhook Sample.cfg Sample.repr
           (Sample.serving (Responded Sample.no_id_reply)) req initial) in
  let unreachable :=
    fst (telegram_webhook Sample.cfg Sample.repr
           (Sample.serving NoResponse) req initial) in
  no_id = Raise (KeyError (lit "order_id"))
  /\ http_status no_id = 500%Z
  /\ unreachable = Raise RequestException
  /\ http_status unreachable = 500%Z.
Proof. repeat split. Qed.

(** C4, amended.  Whenever the handler returns, it responds HTTP 200
    with the empty JSON object.  It does return, sending nothing, for a
    body that is a falsy JSON value and for an update without a (truthy)
    [message] or [edited_message]; and it returns for every well-formed
    message as long as Telegram answers the handler's requests and the
    creation call, if one is made, either yields an order id or is
    refused with a 4xx/5xx status, that refusal being reported to the
    chat only.  Other exceptions are not turned into a 200 response. *)
Theorem webhook_http_response (cfg : config) (repr : pyval -> pystr)
    (w : world) (req : request) (st : state) :
  (forall body code,
     fst (telegram_webhook cfg repr w req st) = Ok (body, code) ->
     body = PDict [] /\ code = 200%Z)
  /\ (forall update,
        body_json req = Some update -> truthy update = false ->
        telegram_webhook cfg repr w req st = (Ok (PDict [], 200%Z), st))
  /\ (forall u,
        body_json req = Some (PDict u) ->
        truthy (if truthy (get_or_none (lit "message") u)
                then get_or_none (lit "message") u
                else get_or_none (lit "edited_message") u) = false ->
        telegram_webhook cfg repr w req st = (Ok (PDict [], 200%Z), st))
  /\ (forall chat_id text,
        incoming req = Some (chat_id, text) ->
        (forall n, answers_json (telegram w n) = true) ->
        (exists order_id,
           create_result (transkriptor w (tr_calls st)) = Ok order_id)
        \/ (exists r,
              create_result (transkriptor w (tr_calls st)) =
              Raise (HTTPError r)) ->
        fst (telegram_webhook cfg repr w req st) = Ok (PDict [], 200%Z)).
Proof.
  split; [| split; [| split]].
  - intros body code H. apply returns_webhook in H.
    inversion H. now split.
  - intros update Hb Hf. unfold telegram_webhook, get_json.
    destruct (str_eqb (method req) (lit "POST")); [| reflexivity].
    rewrite Hb. unfold bind at 1. unfold ret at 1.
    now rewrite Hf.
  - intros u Hb Hf. unfold telegram_webhook, get_json.
    destruct (str_eqb (method req) (lit "POST")); [| reflexivity].
    rewrite Hb. unfold bind at 1. unfold ret at 1.
    destruct (negb (truthy (PDict u))); [reflexivity |].
    unfold py_get at 1. fold (get_or_none (lit "message") u).
    unfold bind at 1. unfold ret at 1.
    destruct (truthy (get_or_none (lit "message") u)) eqn:Tm.
    + unfold bind at 1. unfold ret at 1. now rewrite Hf.
    + unfold py_get at 1. fold (get_or_none (lit "edited_message") u).
      unfold bind at 1. unfold ret at 1. now rewrite Hf.
  - intros chat_id text Hin Htg Hcreate.
    destruct (webhook_incoming cfg repr w req st Hin) as [Hrun Hfix].
    rewrite Hrun. clear Hrun.
    destruct (startswith text token) eqn:Hs.
    + destruct (@split_command text Hs Hfix) as [Hyes Hno].
      destruct (existsb isspace text) eqn:Hex.
      * destruct (Hyes eq_refl) as [Hsplit _].
        destruct Hcreate as [[order_id Hc] | [r Hc]].
        -- rewrite (command_accepted cfg repr w chat_id text st
                      Hs Hsplit Hc).
           cbv zeta. now rewrite send_outcome_answered.
        -- rewrite (command_refused cfg repr w chat_id text st
                      Hs Hsplit Hc).
           cbv zeta. now rewrite send_outcome_answered.
      * specialize (Hno eq_refl).
        rewrite (command_bare cfg repr w chat_id text st Hs)
          by now rewrite Hno.
        now rewrite send_outcome_answered.
    + rewrite (command_other_text cfg repr w chat_id text st Hs).
      now rewrite send_outcome_answered.
Qed.

Lemma webhook_http_response_witness :
  incoming (Sample.text_update (lit "/transcribe nonsense")) =
    Some (Sample.chat, lit "/transcribe nonsense")
  /\ (forall n,
        answers_json
          (telegram (Sample.serving (Responded Sample.bad_request_reply)) n)
        = true)
  /\ create_result
       (transkriptor (Sample.serving (Responded Sample.bad_request_reply))
          (tr_calls initial)) =
     Raise (HTTPError Sample.bad_request_reply)
  /\ fst (telegram_webhook Sample.cfg Sample.repr
            (Sample.serving (Responded Sample.bad_request_reply))
            (Sample.text_update (lit "/transcribe nonsense")) initial) =
     Ok (PDict [], 200%Z)
  /\ telegram_webhook Sample.cfg Sample.repr Sample.processing
       Sample.other_update initial = (Ok (PDict [], 200%Z), initial).
Proof.
  split; [reflexivity |]. split; [intros n; reflexivity |].
  split; [reflexivity |].
  split;
    [| apply (proj1 (proj2 (proj2
                (webhook_http_response Sample.cfg Sample.repr
                   Sample.processing Sample.other_update initial)))
                [(lit "update_id", PInt 1)]); reflexivity].
  apply (proj2 (proj2 (proj2
           (webhook_http_response Sample.cfg Sample.repr
              (Sample.serving (Responded Sample.bad_request_reply))
              (Sample.text_update (lit "/transcribe nonsense")) initial)))
           Sample.chat (lit "/transcribe nonsense") eq_refl).
  - intros n. reflexivity.
  - right. exists Sample.bad_request_reply. reflexivity.
Defined.

(* ====================================================================== *)
(** * Further properties of the chat notifier *)
(* ====================================================================== *)

Lemma nth_range_from (step stop fuel i k : nat) :
  0 < step -> stop - i <= fuel ->
  k < ceil_div (stop - i) step ->
  nth k (range_from fuel i stop step) 0 = i + k * step.
Proof.
  intros Hs. revert i k.
  induction fuel as [| fuel IH]; intros i k Hf Hk.
  - replace (stop - i) with 0 in Hk by lia.
    rewrite ceil_div_zero in Hk by exact Hs. lia.
  - cbn [range_from]. destruct (Nat.ltb_spec i stop) as [Hlt | Hge].
    + destruct k as [| k]; [cbn; lia |].
      cbn [nth]. rewrite IH; [lia | lia |].
      rewrite (ceil_div_step (a := stop - i)) in Hk by lia.
      replace (stop - (i + step)) with (stop - i - step) by lia. lia.
    + replace (stop - i) with 0 in Hk by lia.
      rewrite ceil_div_zero in Hk by exact Hs. lia.
Qed.

Lemma nth_message_parts (text : pystr) (i : nat) :
  i < length (message_parts text) ->
  nth i (message_parts text) [] =
  slice text (i * max_len) (i * max_len + max_len).
Proof.
  intros Hi. pose proof Hi as Hi'. rewrite length_message_parts in Hi'.
  unfold message_parts in *. rewrite length_map in Hi.
  rewrite (nth_indep _ [] (slice text 0 (0 + max_len)))
    by now rewrite length_map.
  rewrite (map_nth (fun i => slice text i (i + max_len))).
  unfold range. rewrite nth_range_from.
  - reflexivity.
  - apply max_len_pos.
  - lia.
  - now rewrite Nat.sub_0_r.
Qed.

Lemma length_slice_exact (A : Type) (text : list A) (i j : nat) :
  length (slice text i j) = Nat.min (j - i) (length text - i).
Proof. unfold slice. now rewrite length_firstn, length_skipn. Qed.

(** The [i]-th part starts inside the text. *)
Lemma message_part_starts (text : pystr) (i : nat) :
  i < length (message_parts text) -> 4096 * i < length text.
Proof.
  intros Hi. rewrite length_message_parts in Hi.
  destruct (ceil_div_spec (length text) max_len_pos) as [_ Hlow].
  unfold max_len in *.
  assert (Hpos : 0 < length text).
  { destruct (length text); [| lia].
    rewrite ceil_div_zero in Hi by lia. lia. }
  specialize (Hlow Hpos). nia.
Qed.

(** X8.  Whatever Telegram answers, the [i]-th request [send_message]
    posts (counting from 0) is the [sendMessage] request for the slice
    [text[4096*i : 4096*i + 4096]], with the chat id and the reply
    target it was given.  That slice is never empty; it has exactly 4096
    code points when the text goes on that far, and otherwise holds what
    is left of the text. *)
Theorem message_part_sizes (cfg : config) (w : world)
    (chat_id reply_to : pyval) (text : pystr) (st : state) (i : nat) :
  let posted :=
    effects (new_events st
               (snd (send_message cfg w chat_id text reply_to st))) in
  let part := slice text (4096 * i) (4096 * i + 4096) in
  i < length posted ->
  nth_error posted i = Some (sendMessage cfg chat_id reply_to part)
  /\ 1 <= length part <= 4096
  /\ (4096 * i + 4096 <= length text -> length part = 4096)
  /\ (length text <= 4096 * i + 4096 ->
      length part = length text - 4096 * i).
Proof.
  intros posted part Hi. subst posted part.
  rewrite effects_send_message in *.
  rewrite length_map, length_firstn in Hi.
  assert (Hp : i < length (message_parts text)) by lia.
  pose proof (message_part_starts text Hp) as Hlt.
  split.
  - rewrite nth_error_map, nth_error_firstn.
    destruct (Nat.ltb_spec i (sent_count w (tg_calls st) (message_parts text)))
      as [_ | Hge]; [| lia].
    rewrite (nth_error_nth' (message_parts text) [] Hp).
    rewrite (nth_message_parts text Hp). unfold max_len. cbn [option_map].
    now replace (i * 4096) with (4096 * i) by lia.
  - rewrite length_slice_exact. repeat split; lia.
Qed.

Lemma message_part_sizes_witness :
  1 < length (effects
                (new_events initial
                   (snd (send_message Sample.cfg Sample.processing
                           Sample.chat Sample.long_text PNone initial))))
  /\ nth_error
       (effects
          (new_events initial
             (snd (send_message Sample.cfg Sample.processing Sample.chat
                     Sample.long_text PNone initial)))) 1 =
     Some (sendMessage Sample.cfg Sample.chat PNone
             (slice Sample.long_text (4096 * 1) (4096 * 1 + 4096)))
  /\ length (slice Sample.long_text (4096 * 1) (4096 * 1 + 4096)) = 904.
Proof.
  assert (H : 1 < length (effects
                            (new_events initial
                               (snd (send_message Sample.cfg
                                       Sample.processing Sample.chat
                                       Sample.long_text PNone initial)))))
    by (vm_compute; lia).
  split; [exact H |]. split.
  - apply (message_part_sizes Sample.cfg Sample.processing Sample.chat
             PNone Sample.long_text initial (i := 1) H).
  - vm_compute. reflexivity.
Defined.

Lemma message_parts_nil_iff (text : pystr) :
  message_parts text = [] <-> text = [].
Proof.
  split.
  - intros H. destruct text as [| c text]; [reflexivity |].
    now elim (@message_parts_nonempty (c :: text)).
  - intros ->. reflexivity.
Qed.

Lemma sent_count_zero_iff (w : world) (parts : list pystr) (n : nat) :
  sent_count w n parts = 0 <-> parts = [].
Proof.
  split.
  - intros H. destruct parts as [| p parts]; [reflexivity |].
    pose proof (@sent_count_pos w (p :: parts) n ltac:(discriminate)). lia.
  - intros ->. reflexivity.
Qed.

(** X7.  [send_message] with the empty text does nothing at all: no
    request is posted, nothing is logged, and it returns; with any other
    text it posts at least one request, whatever Telegram answers. *)
Theorem send_message_empty_text_only (cfg : config) (w : world)
    (chat_id reply_to : pyval) (text : pystr) (st : state) :
  send_message cfg w chat_id [] reply_to st = (Ok tt, st)
  /\ (tg_calls (snd (send_message cfg w chat_id text reply_to st)) =
      tg_calls st <-> text = []).
Proof.
  split.
  - rewrite send_message_run. cbn [message_parts].
    change (message_parts []) with (@nil pystr).
    cbn [send_outcome sent_count firstn parts_trace].
    now rewrite after_telegram_0.
  - rewrite send_message_run. cbn [snd after_telegram tg_calls].
    rewrite <- message_parts_nil_iff, <- (sent_count_zero_iff w _ (tg_calls st)).
    lia.
Qed.

(* ====================================================================== *)
(** * Further properties of the delivery task *)
(* ====================================================================== *)

Lemma chat_only_app (a b : list event) :
  chat_only (a ++ b) = chat_only a && chat_only b.
Proof. apply forallb_app. Qed.

Lemma chat_only_failure_log (what : pystr) (o : outcome) :
  chat_only (failure_log what o) = true.
Proof.
  destruct o as [r |]; simpl; [| reflexivity]. destruct (ok r); reflexivity.
Qed.

Lemma chat_only_parts_trace (cfg : config) (w : world)
    (chat_id reply_to : pyval) (parts : list pystr) (n : nat) :
  chat_only (parts_trace cfg w chat_id reply_to parts n) = true.
Proof.
  revert n. induction parts as [| part parts IH]; intros n; [reflexivity |].
  cbn [parts_trace].
  change (?a :: ?x ++ ?y) with ([a] ++ x ++ y).
  now rewrite !chat_only_app, chat_only_failure_log, IH.
Qed.

Lemma documents_app (a b : list event) :
  documents (a ++ b) = documents a ++ documents b.
Proof. apply filter_app. Qed.

Lemma documents_failure_log (what : pystr) (o : outcome) :
  documents (failure_log what o) = [].
Proof.
  destruct o as [r |]; simpl; [| reflexivity]. destruct (ok r); reflexivity.
Qed.

Lemma documents_parts_trace (cfg : config) (w : world)
    (chat_id reply_to : pyval) (parts : list pystr) (n : nat) :
  documents (parts_trace cfg w chat_id reply_to parts n) = [].
Proof.
  revert n. induction parts as [| part parts IH]; intros n; [reflexivity |].
  cbn [parts_trace].
  change (?a :: ?x ++ ?y) with ([a] ++ x ++ y).
  now rewrite !documents_app, documents_failure_log, IH.
Qed.

Lemma chat_only_no_sleep (evs : list event) :
  chat_only evs = true -> sleeps evs = [].
Proof.
  induction evs as [| e evs IH]; [reflexivity |]. simpl.
  destruct e as [[] | | |]; simpl; try discriminate; exact IH.
Qed.

Lemma chat_only_not_started (evs : list event) :
  chat_only evs = true -> started evs = false.
Proof.
  induction evs as [| e evs IH]; [reflexivity |]. simpl.
  destruct e as [[] | | |]; simpl; try discriminate; exact IH.
Qed.

Lemma chat_only_not_submitted (evs : list event) :
  chat_only evs = true -> submitted evs = false.
Proof.
  induction evs as [| e evs IH]; [reflexivity |]. simpl.
  destruct e as [[] | | |]; simpl; try discriminate; exact IH.
Qed.

Section Turn.

Variable cfg : config.
Variable repr : pyval -> pystr.
Variable w : world.
Variables order_id chat_id : pyval.

(** How a turn of the poll loop can end: it waits (status 202), or it
    is the last one, and then everything after the export request
    concerns the chat only, with at most one document. *)
Lemma poll_turn_cases (st : state) :
  let out := poll_iteration cfg repr w order_id chat_id st in
  (fst out = Ok Continue
   /\ snd out = after_transkriptor st 1 (waiting cfg repr order_id))
  \/ (fst out <> Ok Continue
      /\ exists n final,
           snd out =
           after_telegram
             (after_transkriptor st 1 [export_request cfg repr order_id])
             n final
           /\ chat_only final = true
           /\ length (documents final) <= 1).
Proof.
  cbv zeta.
  set (st1 := after_transkriptor st 1 [export_request cfg repr order_id]).
  assert (Quiet : exists n final,
             st1 = after_telegram st1 n final
             /\ chat_only final = true
             /\ length (documents final) <= 1).
  { exists 0, []. rewrite after_telegram_0.
    repeat split. simpl. lia. }
  assert (Sent : forall text,
             fst ((send_message cfg w chat_id text PNone ;; ret Break) st1)
               <> Ok Continue
             /\ exists n final,
                  snd ((send_message cfg w chat_id text PNone ;; ret Break)
                         st1) = after_telegram st1 n final
                  /\ chat_only final = true
                  /\ length (documents final) <= 1).
  { intros text. split; [apply then_break_not_continue |].
    rewrite send_then_break. cbn [snd]. do 2 eexists.
    split; [reflexivity |].
    rewrite chat_only_parts_trace, documents_parts_trace.
    split; [reflexivity | simpl; lia]. }
  destruct (poll_iteration cfg repr w order_id chat_id st) as [r st'] eqn:H.
  cbn [fst snd]. pose proof H as P.
  unfold poll_iteration, bind at 1 in H.
  rewrite export_transcription_run in H. fold st1 in H.
  assert (Raised : forall e, (Raise e, st1) = (r, st') ->
             (r = Ok Continue
              /\ st' = after_transkriptor st 1 (waiting cfg repr order_id))
             \/ (r <> Ok Continue
                 /\ exists n final,
                      st' = after_telegram st1 n final
                      /\ chat_only final = true
                      /\ length (documents final) <= 1)).
  { intros e He. injection He as <- <-. right.
    split; [discriminate | exact Quiet]. }
  assert (Sends : forall text,
             (send_message cfg w chat_id text PNone ;; ret Break) st1 =
             (r, st') ->
             (r = Ok Continue
              /\ st' = after_transkriptor st 1 (waiting cfg repr order_id))
             \/ (r <> Ok Continue
                 /\ exists n final,
                      st' = after_telegram st1 n final
                      /\ chat_only final = true
                      /\ length (documents final) <= 1)).
  { intros text Ht. right. destruct (Sent text) as [S1 S2].
    rewrite Ht in S1, S2. now split. }
  destruct (export_result (transkriptor w (tr_calls st)))
    as [[status_code data] |] eqn:E; [| now apply (Raised _ H)].
  cbn [fst snd] in H.
  destruct (Z.eqb_spec status_code 200) as [-> | H200].
  - destruct data as [| b | z | s | l | d];
      try (now apply (Raised AttributeError H)).
    unfold py_get in H. unfold bind at 1 in H. unfold ret at 1 in H.
    unfold bind at 1 in H. unfold ret at 1 in H.
    fold (get_or_none (lit "content") d) in H.
    fold (get_or_none (lit "presigned_url") d) in H.
    destruct (truthy (get_or_none (lit "content") d)) eqn:Tc.
    + destruct (get_or_none (lit "content") d) as [| b | z | c | l | d'];
        try (now apply (Raised AttributeError H)).
      cbn [py_encode] in H.
      destruct (encode_utf8 c) as [file_bytes |];
        [| now apply (Raised UnicodeEncodeError H)].
      unfold bind at 1 in H. unfold bind at 1 in H. unfold ret at 1 in H.
      rewrite send_document_run in H. right.
      destruct (uploadable chat_id (format repr order_id ++ lit ".txt")
                  (lit "Here is your transcript!")).
      * destruct (telegram w (tg_calls st1)) as [resp |];
          injection H as <- <-; (split; [discriminate |]);
          do 2 eexists; (split; [reflexivity |]).
        -- destruct (ok resp); split; try reflexivity; simpl; lia.
        -- split; [reflexivity | simpl; lia].
      * injection H as <- <-. split; [discriminate |].
        do 2 eexists. split; [reflexivity |].
        split; [reflexivity | simpl; lia].
    + destruct (truthy (get_or_none (lit "presigned_url") d));
        now apply (Sends _ H).
  - destruct (Z.eqb_spec status_code 202) as [-> | H202];
      [| now apply (Sends _ H)].
    rewrite (@poll_iteration_202_cases cfg repr w order_id chat_id st data E)
      in P.
    destruct (can_wait cfg repr w order_id).
    + left. injection P as <- <-. split; reflexivity.
    + right. injection P as <- <-.
      split; [discriminate |].
      exists 0, (wait_log repr w order_id).
      split; [| unfold wait_log;
                destruct (prints w (poll_line repr order_id));
                split; try reflexivity; simpl; lia].
      unfold after_telegram, st1, after_transkriptor.
      cbn [tg_calls tr_calls trace].
      now rewrite Nat.add_0_r, <- app_assoc.
Qed.

End Turn.

Section Task.

Variable cfg : config.
Variable repr : pyval -> pystr.
Variable w : world.
Variables order_id chat_id : pyval.

Lemma running_state (fuel : nat) (st st' : state) :
  poll_and_send cfg repr w fuel order_id chat_id st = Running st' ->
  st' = after_transkriptor st fuel (waiting_turns cfg repr order_id fuel).
Proof.
  revert st. induction fuel as [| fuel IH]; intros st H.
  - cbn in H. injection H as <-. now rewrite after_transkriptor_0.
  - rewrite poll_and_send_step in H.
    destruct (poll_turn_cases cfg repr w order_id chat_id st)
      as [[Hr Hs] | [Hr _]];
      destruct (poll_iteration cfg repr w order_id chat_id st)
        as [[[|] | e] st1]; cbn [fst snd] in *;
      try discriminate; try congruence.
    subst st1. apply IH in H. rewrite H, after_transkriptor_after.
    reflexivity.
Qed.

Lemma finished_state (fuel : nat) (st st' : state) (res : result unit) :
  poll_and_send cfg repr w fuel order_id chat_id st = Done res st' ->
  exists k n final,
    k < fuel
    /\ st' =
       after_telegram
         (after_transkriptor st (S k)
            (waiting_turns cfg repr order_id k
             ++ [export_request cfg repr order_id])) n final
    /\ chat_only final = true
    /\ length (documents final) <= 1.
Proof.
  revert st. induction fuel as [| fuel IH]; intros st H; [discriminate |].
  rewrite poll_and_send_step in H.
  destruct (poll_turn_cases cfg repr w order_id chat_id st)
    as [[Hr Hs] | [Hr (n & final & Hs & Hc & Hd)]];
    destruct (poll_iteration cfg repr w order_id chat_id st)
      as [[[|] | e] st1]; cbn [fst snd] in *;
    try discriminate; try congruence.
  - subst st1. apply IH in H.
    destruct H as (k & n & final & Hk & Hs & Hc & Hd).
    exists (S k), n, final. split; [lia |]. split; [| now split].
    rewrite Hs, after_transkriptor_after. cbn [waiting_turns].
    now rewrite <- app_assoc.
  - injection H as <- <-. exists 0, n, final.
    split; [lia |]. split; [exact Hs | now split].
  - injection H as <- <-. exists 0, n, final.
    split; [lia |]. split; [exact Hs | now split].
Qed.

Lemma documents_waiting_turns (k : nat) :
  documents (waiting_turns cfg repr order_id k) = [].
Proof.
  induction k as [| k IH]; [reflexivity |].
  cbn [waiting_turns]. now rewrite documents_app, IH.
Qed.

Lemma started_waiting_turns (k : nat) :
  started (waiting_turns cfg repr order_id k) = false.
Proof.
  induction k as [| k IH]; [reflexivity |].
  cbn [waiting_turns]. now rewrite started_app, IH.
Qed.

End Task.

(** X2.  Whatever the services answer, a delivery task that is still
    running after [n] turns has done nothing but wait: [n] export
    requests, each followed by the log line and a sleep of
    [POLL_INTERVAL], and not a single call to Telegram. *)
Theorem running_task_only_waits (cfg : config) (repr : pyval -> pystr)
    (w : world) (order_id chat_id : pyval) (fuel : nat) (st st' : state) :
  poll_and_send cfg repr w fuel order_id chat_id st = Running st' ->
  new_events st st' = waiting_turns cfg repr order_id fuel
  /\ tr_calls st' = tr_calls st + fuel
  /\ tg_calls st' = tg_calls st
  /\ sleeps (new_events st st') = repeat (POLL_INTERVAL cfg) fuel.
Proof.
  intros H. apply running_state in H. subst st'.
  rewrite new_events_after_transkriptor.
  repeat split. apply sleeps_waiting_turns.
Qed.

Lemma running_task_only_waits_witness :
  poll_and_send Sample.cfg Sample.repr Sample.abc123_world 2 Sample.order
    Sample.chat initial =
  Running (after_transkriptor initial 2
             (waiting_turns Sample.cfg Sample.repr Sample.order 2))
  /\ tg_calls (after_transkriptor initial 2
                 (waiting_turns Sample.cfg Sample.repr Sample.order 2)) =
     tg_calls initial.
Proof.
  split; [reflexivity |].
  apply (running_task_only_waits Sample.cfg Sample.repr Sample.abc123_world
           Sample.order Sample.chat 2 initial eq_refl).
Defined.

(** X3.  Whatever the services answer, a delivery task that has ended
    did so on its [k+1]-th export request, after [k] waits: it made
    exactly one export request more than it slept, every sleep lasted
    [POLL_INTERVAL], and all it did after the last export request
    concerns the chat (Telegram requests and log lines), with at most
    one document uploaded.  It never starts a task and never creates an
    order. *)
Theorem finished_task_shape (cfg : config) (repr : pyval -> pystr)
    (w : world) (order_id chat_id : pyval) (fuel : nat) (st st' : state)
    (res : result unit) :
  poll_and_send cfg repr w fuel order_id chat_id st = Done res st' ->
  exists k final,
    k < fuel
    /\ new_events st st' =
       waiting_turns cfg repr order_id k
       ++ export_request cfg repr order_id :: final
    /\ chat_only final = true
    /\ tr_calls st' = tr_calls st + S k
    /\ sleeps (new_events st st') = repeat (POLL_INTERVAL cfg) k
    /\ length (documents (new_events st st')) <= 1
    /\ started (new_events st st') = false.
Proof.
  intros H. apply finished_state in H.
  destruct H as (k & n & final & Hk & -> & Hc & Hd).
  exists k, final. rewrite new_events_both, <- app_assoc.
  cbn [app]. split; [exact Hk |]. split; [reflexivity |].
  split; [exact Hc |]. split; [reflexivity |].
  change (export_request cfg repr order_id :: final)
    with ([export_request cfg repr order_id] ++ final).
  rewrite !sleeps_app, !documents_app, !started_app.
  rewrite sleeps_waiting_turns, documents_waiting_turns,
    started_waiting_turns.
  rewrite (chat_only_no_sleep final Hc), (chat_only_not_started final Hc).
  cbn [sleeps flat_map export_request documents filter started existsb app
         orb length].
  rewrite app_nil_r. repeat split. exact Hd.
Qed.

Lemma finished_task_shape_witness :
  poll_and_send Sample.cfg Sample.repr Sample.abc123_world 5 Sample.order
    Sample.chat initial = Done (Ok tt) Cases.abc123_final
  /\ exists k final,
       k < 5
       /\ new_events initial Cases.abc123_final =
          waiting_turns Sample.cfg Sample.repr Sample.order k
          ++ export_request Sample.cfg Sample.repr Sample.order :: final
       /\ chat_only final = true
       /\ tr_calls Cases.abc123_final = tr_calls initial + S k
       /\ sleeps (new_events initial Cases.abc123_final) =
          repeat (POLL_INTERVAL Sample.cfg) k
       /\ length (documents (new_events initial Cases.abc123_final)) <= 1
       /\ started (new_events initial Cases.abc123_final) = false.
Proof.
  split; [reflexivity |].
  apply (finished_task_shape Sample.cfg Sample.repr Sample.abc123_world
           Sample.order Sample.chat 5 initial (res := Ok tt) eq_refl).
Defined.

(** X4.  A finished export (status 200) whose JSON object has neither a
    truthy [content] nor a truthy [presigned_url] (absent, [null], empty
    string, ...) makes the task send exactly one message, the no-content
    notice, upload no document, and end. *)
Theorem no_content_notice (cfg : config) (repr : pyval -> pystr)
    (w : world) (order_id chat_id : pyval) (st : state)
    (d : list (pystr * pyval)) :
  export_result (transkriptor w (tr_calls st)) = Some (200%Z, PDict d) ->
  truthy (get_or_none (lit "content") d) = false ->
  truthy (get_or_none (lit "presigned_url") d) = false ->
  exists res st',
    (forall fuel,
       poll_and_send cfg repr w (S fuel) order_id chat_id st = Done res st')
    /\ effects (new_events st st') =
       [export_request cfg repr order_id;
        sendMessage cfg chat_id PNone
          (lit "Transcription completed but no content was returned.")]
    /\ documents (new_events st st') = [].
Proof.
  intros E Hc Hu.
  pose proof (poll_iteration_no_content cfg repr w order_id chat_id st
                E Hc Hu) as R.
  cbv zeta in R.
  change (message_parts no_content_text) with [no_content_text] in R.
  rewrite sent_count_single in R. cbn [firstn parts_trace] in R.
  do 2 eexists. split; [| split].
  - apply poll_and_send_break. exact R.
  - rewrite new_events_both, app_nil_r.
    change ([?a] ++ ?b :: ?l) with ([a; b] ++ l).
    rewrite effects_app, effects_failure_log. reflexivity.
  - rewrite new_events_both, app_nil_r.
    change ([?a] ++ ?b :: ?l) with ([a; b] ++ l).
    rewrite documents_app, documents_failure_log. reflexivity.
Qed.

Lemma no_content_notice_witness :
  export_result
    (transkriptor (Sample.exporting [Sample.empty_content_reply])
       (tr_calls initial)) =
    Some (200%Z, PDict [(lit "content", PStr [])])
  /\ exists res st',
       (forall fuel,
          poll_and_send Sample.cfg Sample.repr
            (Sample.exporting [Sample.empty_content_reply]) (S fuel)
            Sample.order Sample.chat initial = Done res st')
       /\ effects (new_events initial st') =
          [export_request Sample.cfg Sample.repr Sample.order;
           sendMessage Sample.cfg Sample.chat PNone
             (lit "Transcription completed but no content was returned.")]
       /\ documents (new_events initial st') = [].
Proof.
  split; [reflexivity |].
  apply (no_content_notice Sample.cfg Sample.repr
           (Sample.exporting [Sample.empty_content_reply])
           Sample.order Sample.chat initial
           (d := [(lit "content", PStr [])]) eq_refl eq_refl eq_refl).
Defined.

Section Silent.

Variable cfg : config.
Variable repr : pyval -> pystr.
Variable w : world.
Variables order_id chat_id : pyval.

Lemma poll_and_send_raises (st st' : state) (e : exn) :
  poll_iteration cfg repr w order_id chat_id st = (Raise e, st') ->
  forall fuel,
    poll_and_send cfg repr w (S fuel) order_id chat_id st =
    Done (Raise e) st'.
Proof. intros H fuel. now rewrite poll_and_send_step, H. Qed.

Lemma poll_iteration_not_object (st : state) (data : pyval) :
  export_result (transkriptor w (tr_calls st)) = Some (200%Z, data) ->
  (forall d, data <> PDict d) ->
  poll_iteration cfg repr w order_id chat_id st =
  (Raise AttributeError,
   after_transkriptor st 1 [export_request cfg repr order_id]).
Proof.
  intros E Hd. unfold poll_iteration, bind at 1.
  rewrite export_transcription_run, E. cbn [fst snd Z.eqb Pos.eqb].
  destruct data; try reflexivity. now elim (Hd items).
Qed.

Lemma poll_iteration_content_not_str (st : state)
    (d : list (pystr * pyval)) (content : pyval) :
  export_result (transkriptor w (tr_calls st)) = Some (200%Z, PDict d) ->
  lookup (lit "content") d = Some content ->
  truthy content = true ->
  (forall s, content <> PStr s) ->
  poll_iteration cfg repr w order_id chat_id st =
  (Raise AttributeError,
   after_transkriptor st 1 [export_request cfg repr order_id]).
Proof.
  intros E Hc Ht Hs. unfold poll_iteration, bind at 1.
  rewrite export_transcription_run, E. cbn [fst snd Z.eqb Pos.eqb].
  unfold py_get. rewrite Hc.
  unfold bind at 1. unfold ret at 1. unfold bind at 1. unfold ret at 1.
  rewrite Ht. destruct content; try reflexivity. now elim (Hs s).
Qed.

Lemma poll_iteration_unencodable (st : state) (d : list (pystr * pyval))
    (c : pystr) :
  export_result (transkriptor w (tr_calls st)) = Some (200%Z, PDict d) ->
  lookup (lit "content") d = Some (PStr c) ->
  encode_utf8 c = None ->
  poll_iteration cfg repr w order_id chat_id st =
  (Raise UnicodeEncodeError,
   after_transkriptor st 1 [export_request cfg repr order_id]).
Proof.
  intros E Hc He. unfold poll_iteration, bind at 1.
  rewrite export_transcription_run, E. cbn [fst snd Z.eqb Pos.eqb].
  unfold py_get. rewrite Hc.
  unfold bind at 1. unfold ret at 1. unfold bind at 1. unfold ret at 1.
  destruct c as [| c0 c']; [discriminate |].
  cbn [truthy py_encode]. now rewrite He.
Qed.

End Silent.

(** X5.  The delivery task can end without telling the chat anything.
    When the export call itself raises (no response, or a non-empty body
    that is not JSON), when a status 200 body is JSON but not an object,
    when its [content] is truthy but not a string, or when the content
    cannot be encoded as UTF-8 (a lone surrogate), the task ends with the
    exception right after the export request: no Telegram request is
    made and no failure notice is sent. *)
Theorem delivery_ends_silently (cfg : config) (repr : pyval -> pystr)
    (w : world) (order_id chat_id : pyval) (st : state) :
  let silent :=
    exists e, forall fuel,
      poll_and_send cfg repr w (S fuel) order_id chat_id st =
      Done (Raise e)
        (after_transkriptor st 1 [export_request cfg repr order_id]) in
  (export_result (transkriptor w (tr_calls st)) = None -> silent)
  /\ (forall data,
        export_result (transkriptor w (tr_calls st)) = Some (200%Z, data) ->
        (forall d, data <> PDict d) -> silent)
  /\ (forall d content,
        export_result (transkriptor w (tr_calls st)) =
          Some (200%Z, PDict d) ->
        lookup (lit "content") d = Some content ->
        truthy content = true ->
        (forall s, content <> PStr s) -> silent)
  /\ (forall d c,
        export_result (transkriptor w (tr_calls st)) =
          Some (200%Z, PDict d) ->
        lookup (lit "content") d = Some (PStr c) ->
        encode_utf8 c = None -> silent).
Proof.
  cbv zeta. split; [| split; [| split]].
  - intros E. eexists. apply poll_and_send_raises.
    now apply poll_iteration_export_raises.
  - intros data E Hd. eexists. apply poll_and_send_raises.
    now apply poll_iteration_not_object with (data := data).
  - intros d content E Hc Ht Hs. eexists. apply poll_and_send_raises.
    now apply poll_iteration_content_not_str with (d := d) (content := content).
  - intros d c E Hc He. eexists. apply poll_and_send_raises.
    now apply poll_iteration_unencodable with (d := d) (c := c).
Qed.

Lemma delivery_ends_silently_witness :
  (exists e, forall fuel,
     poll_and_send Sample.cfg Sample.repr
       (Sample.exporting [Sample.tg_bad_gateway]) (S fuel) Sample.order
       Sample.chat initial =
     Done (Raise e)
       (after_transkriptor initial 1
          [export_request Sample.cfg Sample.repr Sample.order]))
  /\ (exists e, forall fuel,
        poll_and_send Sample.cfg Sample.repr
          (Sample.exporting [Cases.array_reply]) (S fuel) Sample.order
          Sample.chat initial =
        Done (Raise e)
          (after_transkriptor initial 1
             [export_request Sample.cfg Sample.repr Sample.order]))
  /\ (exists e, forall fuel,
        poll_and_send Sample.cfg Sample.repr
          (Sample.exporting [Cases.number_content_reply]) (S fuel)
          Sample.order Sample.chat initial =
        Done (Raise e)
          (after_transkriptor initial 1
             [export_request Sample.cfg Sample.repr Sample.order]))
  /\ (exists e, forall fuel,
        poll_and_send Sample.cfg Sample.repr
          (Sample.exporting [Cases.surrogate_reply]) (S fuel) Sample.order
          Sample.chat initial =
        Done (Raise e)
          (after_transkriptor initial 1
             [export_request Sample.cfg Sample.repr Sample.order])).
Proof.
  split; [| split; [| split]].
  - apply (proj1 (delivery_ends_silently Sample.cfg Sample.repr
                    (Sample.exporting [Sample.tg_bad_gateway])
                    Sample.order Sample.chat initial)).
    reflexivity.
  - apply (proj1 (proj2 (delivery_ends_silently Sample.cfg Sample.repr
                           (Sample.exporting [Cases.array_reply])
                           Sample.order Sample.chat initial))
             (PList [])).
    + reflexivity.
    + discriminate.
  - apply (proj1 (proj2 (proj2 (delivery_ends_silently Sample.cfg
                                  Sample.repr
                                  (Sample.exporting
                                     [Cases.number_content_reply])
                                  Sample.order Sample.chat initial)))
             [(lit "content", PInt 7)] (PInt 7)).
    + reflexivity.
    + reflexivity.
    + reflexivity.
    + discriminate.
  - apply (proj2 (proj2 (proj2 (delivery_ends_silently Sample.cfg
                                  Sample.repr
                                  (Sample.exporting [Cases.surrogate_reply])
                                  Sample.order Sample.chat initial)))
             [(lit "content", PStr [55296%N])] [55296%N]).
    + reflexivity.
    + reflexivity.
    + reflexivity.
Defined.

(** X6.  With a [POLL_INTERVAL] that [time.sleep] does not accept, the
    first 202 ends the task, without a sleep and without another poll.
    When the still-processing line is printed (it always is for an order
    id that can be encoded), the task logs it and stops with the
    exception of [time.sleep]: a [ValueError] for an interval from
    -9223372036 to -1, an [OverflowError] for one beyond 9223372036 on
    either side of zero.  When [print] refuses the line, the task stops
    with its [UnicodeEncodeError]. *)
Theorem rejected_interval_stops_task (cfg : config)
    (repr : pyval -> pystr) (w : world) (order_id chat_id : pyval)
    (st : state) (data : pyval) :
  ~ (0 <= POLL_INTERVAL cfg <= 9223372036)%Z ->
  export_result (transkriptor w (tr_calls st)) = Some (202%Z, data) ->
  exists e st',
    (forall fuel,
       poll_and_send cfg repr w (S fuel) order_id chat_id st =
       Done (Raise e) st')
    /\ (prints w (poll_line repr order_id) = true ->
        ((- 9223372036 <= POLL_INTERVAL cfg < 0)%Z -> e = ValueError)
        /\ ((POLL_INTERVAL cfg < - 9223372036
             \/ 9223372036 < POLL_INTERVAL cfg)%Z -> e = OverflowError)
        /\ new_events st st' =
           [export_request cfg repr order_id;
            Print (poll_line repr order_id)])
    /\ (prints w (poll_line repr order_id) = false ->
        e = UnicodeEncodeError)
    /\ effects (new_events st st') = [export_request cfg repr order_id]
    /\ sleeps (new_events st st') = []
    /\ tr_calls st' = tr_calls st + 1.
Proof.
  intros Hr E.
  pose proof (poll_iteration_202_raises cfg repr w order_id chat_id st E
                (can_wait_unsleepable cfg repr w order_id Hr)) as R.
  destruct (sleep_error_cases (POLL_INTERVAL cfg)) as [Hv Ho].
  exists (wait_error cfg repr w order_id). eexists.
  split; [| split; [| split; [| split; [| split]]]].
  - intros fuel. apply (poll_and_send_raises cfg repr w order_id chat_id st R).
  - intros Hq. unfold wait_error, wait_log. rewrite Hq.
    split; [exact Hv |]. split; [exact Ho |].
    now rewrite new_events_after_transkriptor.
  - intros Hq. unfold wait_error. now rewrite Hq.
  - rewrite new_events_after_transkriptor. unfold wait_log.
    now destruct (prints w (poll_line repr order_id)).
  - rewrite new_events_after_transkriptor. unfold wait_log.
    now destruct (prints w (poll_line repr order_id)).
  - reflexivity.
Qed.

Lemma rejected_interval_stops_task_witness :
  ~ (0 <= POLL_INTERVAL Cases.negative_interval <= 9223372036)%Z
  /\ ~ (0 <= POLL_INTERVAL Cases.huge_interval <= 9223372036)%Z
  /\ export_result (transkriptor Sample.processing (tr_calls initial)) =
     Some (202%Z, PDict [])
  /\ (exists e st',
        (forall fuel,
           poll_and_send Cases.negative_interval Sample.repr
             Sample.processing (S fuel) Sample.order Sample.chat initial =
           Done (Raise e) st')
        /\ e = ValueError
        /\ sleeps (new_events initial st') = [])
  /\ (exists e st',
        (forall fuel,
           poll_and_send Cases.huge_interval Sample.repr
             Sample.processing (S fuel) Sample.order Sample.chat initial =
           Done (Raise e) st')
        /\ e = OverflowError
        /\ sleeps (new_events initial st') = []).
Proof.
  assert (Hn : ~ (0 <= POLL_INTERVAL Cases.negative_interval
                  <= 9223372036)%Z).
  { intros [H _]. now apply H. }
  assert (Hh : ~ (0 <= POLL_INTERVAL Cases.huge_interval <= 9223372036)%Z).
  { intros [_ H]. now apply H. }
  split; [exact Hn |]. split; [exact Hh |]. split; [reflexivity |]. split.
  - destruct (rejected_interval_stops_task Cases.negative_interval
                Sample.repr Sample.processing Sample.order Sample.chat
                initial (data := PDict []) Hn eq_refl)
      as (e & st' & D & Hq & _ & _ & Hs & _).
    exists e, st'. split; [exact D |]. split; [| exact Hs].
    apply (proj1 (Hq eq_refl)). vm_compute. split; [discriminate | reflexivity].
  - destruct (rejected_interval_stops_task Cases.huge_interval
                Sample.repr Sample.processing Sample.order Sample.chat
                initial (data := PDict []) Hh eq_refl)
      as (e & st' & D & Hq & _ & _ & Hs & _).
    exists e, st'. split; [exact D |]. split; [| exact Hs].
    apply (proj1 (proj2 (Hq eq_refl))). right. reflexivity.
Defined.

(* ====================================================================== *)
(** * Further properties of the calls to the transcription service *)
(* ====================================================================== *)

(** X1.  [export_transcription] posts exactly one request, to the
    export endpoint of the order, whatever comes back, and never looks at
    the status: any response with an empty body yields
    [(status_code, {})], and any response whose non-empty body
    [resp.json()] parses yields [(status_code, body)], error statuses
    included.  It raises only when no response arrives, or when
    [resp.json()] fails on a non-empty body, and then with the exception
    of that failure: [JSONDecodeError] for a body that is not JSON, a
    plain [ValueError] for JSON with an integer of more than 4300 digits,
    [RecursionError] for JSON nested too deeply. *)
Theorem export_transcription_contract (cfg : config)
    (repr : pyval -> pystr) (w : world) (order_id : pyval) (st : state) :
  snd (export_transcription cfg repr w order_id st) =
    after_transkriptor st 1 [export_request cfg repr order_id]
  /\ (forall r,
        transkriptor w (tr_calls st) = Responded r ->
        resp_content r = [] ->
        fst (export_transcription cfg repr w order_id st) =
        Ok (resp_status_code r, PDict []))
  /\ (forall r body,
        transkriptor w (tr_calls st) = Responded r ->
        resp_content r <> [] ->
        resp_parsed r = Parsed body ->
        fst (export_transcription cfg repr w order_id st) =
        Ok (resp_status_code r, body))
  /\ (forall r f,
        transkriptor w (tr_calls st) = Responded r ->
        resp_content r <> [] ->
        resp_parsed r = Unparsed f ->
        fst (export_transcription cfg repr w order_id st) =
        Raise (match f with
               | NotJSON => JSONDecodeError
               | IntegerTooLong => ValueError
               | NestedTooDeep => RecursionError
               end))
  /\ (transkriptor w (tr_calls st) = NoResponse ->
      fst (export_transcription cfg repr w order_id st) =
      Raise RequestException).
Proof.
  rewrite export_transcription_run. cbn [fst snd].
  split; [reflexivity |]. split; [| split; [| split]].
  - intros r E Hc. rewrite E. cbn [export_result]. now rewrite Hc.
  - intros r body E Hc Hj. rewrite E. cbn [export_result].
    destruct (resp_content r); [congruence |].
    unfold resp_json. now rewrite Hj.
  - intros r f E Hc Hj. rewrite E. cbn [export_result export_error].
    destruct (resp_content r); [congruence |].
    unfold resp_json, json_error. now rewrite Hj.
  - intros E. now rewrite E.
Qed.

Lemma export_transcription_contract_witness :
  transkriptor (Sample.exporting [Sample.empty_reply 503]) (tr_calls initial)
    = Responded (Sample.empty_reply 503)
  /\ resp_content (Sample.empty_reply 503) = []
  /\ fst (export_transcription Sample.cfg Sample.repr
            (Sample.exporting [Sample.empty_reply 503]) Sample.order
            initial) = Ok (503%Z, PDict [])
  /\ fst (export_transcription Sample.cfg Sample.repr
            (Sample.exporting [Sample.tg_bad_gateway]) Sample.order
            initial) = Raise JSONDecodeError
  /\ fst (export_transcription Sample.cfg Sample.repr
            (Sample.exporting [Cases.long_integer_reply 200]) Sample.order
            initial) = Raise ValueError.
Proof.
  do 2 (split; [reflexivity |]). split; [| split].
  - apply (proj1 (proj2 (export_transcription_contract Sample.cfg
                           Sample.repr
                           (Sample.exporting [Sample.empty_reply 503])
                           Sample.order initial))
             (Sample.empty_reply 503)); reflexivity.
  - apply (proj1 (proj2 (proj2 (proj2
             (export_transcription_contract Sample.cfg Sample.repr
                (Sample.exporting [Sample.tg_bad_gateway])
                Sample.order initial))))
             Sample.tg_bad_gateway NotJSON).
    + reflexivity.
    + vm_compute. discriminate.
    + reflexivity.
  - apply (proj1 (proj2 (proj2 (proj2
             (export_transcription_contract Sample.cfg Sample.repr
                (Sample.exporting [Cases.long_integer_reply 200])
                Sample.order initial))))
             (Cases.long_integer_reply 200) IntegerTooLong).
    + reflexivity.
    + vm_compute. discriminate.
    + reflexivity.
Defined.

(** X17.  [create_transcription] posts exactly one request whatever
    comes back (no retry), carrying the URL it was given unchanged.  On a
    response that is not 4xx/5xx it fails with the exception of
    [resp.json()] when that call fails ([JSONDecodeError] for a body that
    is not JSON, a plain [ValueError] for JSON with an integer of more
    than 4300 digits, [RecursionError] for JSON nested too deeply), with
    [TypeError] when the parsed JSON is not an object, and with
    [KeyError('order_id')] when the object lacks the field; when no
    response arrives it fails with the exception of [requests.post]. *)
Theorem create_transcription_failures (cfg : config) (w : world)
    (youtube_url language service : pystr) (st : state) :
  let out := create_transcription cfg w youtube_url language service st in
  snd out =
    after_transkriptor st 1
      [create_request cfg youtube_url language service]
  /\ (forall r,
        transkriptor w (tr_calls st) = Responded r ->
        is_error_status (resp_status_code r) = false ->
        (forall f,
           resp_parsed r = Unparsed f ->
           fst out = Raise (match f with
                            | NotJSON => JSONDecodeError
                            | IntegerTooLong => ValueError
                            | NestedTooDeep => RecursionError
                            end))
        /\ (forall body,
              resp_parsed r = Parsed body ->
              (forall d, body <> PDict d) ->
              fst out = Raise TypeError)
        /\ (forall d,
              resp_parsed r = Parsed (PDict d) ->
              lookup (lit "order_id") d = None ->
              fst out = Raise (KeyError (lit "order_id"))))
  /\ (transkriptor w (tr_calls st) = NoResponse ->
      fst out = Raise RequestException).
Proof.
  cbv zeta. rewrite create_transcription_run. cbn [fst snd].
  split; [reflexivity |]. split.
  - intros r E Hs. rewrite E. cbn [create_result]. rewrite Hs.
    unfold resp_json, json_error. split; [| split].
    + intros f Hj. now rewrite Hj.
    + intros body Hj Hd. rewrite Hj.
      destruct body; try reflexivity. now elim (Hd items).
    + intros d Hj Hl. now rewrite Hj, Hl.
  - intros E. now rewrite E.
Qed.

Lemma create_transcription_failures_witness :
  transkriptor (Sample.serving (Responded Sample.no_id_reply))
    (tr_calls initial) = Responded Sample.no_id_reply
  /\ is_error_status (resp_status_code Sample.no_id_reply) = false
  /\ fst (create_transcription Sample.cfg
            (Sample.serving (Responded Sample.no_id_reply))
            (lit "https://x") (lit "en-US") (lit "Standard") initial) =
     Raise (KeyError (lit "order_id"))
  /\ fst (create_transcription Sample.cfg
            (Sample.serving (Responded (Cases.long_integer_reply 200)))
            (lit "https://x") (lit "en-US") (lit "Standard") initial) =
     Raise ValueError.
Proof.
  do 2 (split; [reflexivity |]). split.
  - pose proof (create_transcription_failures Sample.cfg
                  (Sample.serving (Responded Sample.no_id_reply))
                  (lit "https://x") (lit "en-US") (lit "Standard") initial)
      as H.
    cbv zeta in H. destruct H as (_ & H & _).
    destruct (H Sample.no_id_reply eq_refl eq_refl) as (_ & _ & Hkey).
    apply (Hkey [(lit "status", PStr (lit "queued"))]); reflexivity.
  - pose proof (create_transcription_failures Sample.cfg
                  (Sample.serving (Responded (Cases.long_integer_reply 200)))
                  (lit "https://x") (lit "en-US") (lit "Standard") initial)
      as H.
    cbv zeta in H. destruct H as (_ & H & _).
    destruct (H (Cases.long_integer_reply 200) eq_refl eq_refl)
      as (Hjson & _ & _).
    apply (Hjson IntegerTooLong). reflexivity.
Defined.

(* ====================================================================== *)
(** * Further properties of the webhook receiver *)
(* ====================================================================== *)

Section Payload.

Variable cfg : config.
Variable repr : pyval -> pystr.
Variable w : world.

(** Lines 135-139 on a selected message that is not a well-formed
    message object. *)
Lemma webhook_tail_malformed (message : pyval) (st : state) :
  match message with
  | PDict items =>
      match lookup (lit "chat") items with
      | Some (PDict c) =>
          match lookup (lit "id") c, lookup (lit "text") items with
          | Some chat_id, None => Some (chat_id, @None pystr)
          | Some chat_id, Some (PStr s) => Some (chat_id, Some s)
          | _, _ => None
          end
      | _ => None
      end
  | _ => None
  end = None ->
  inert
    ((if negb (truthy message) then ret empty_200 else
      chat <- py_index message (lit "chat") ;;
      chat_id <- py_index chat (lit "id") ;;
      t <- py_get message (lit "text") (PStr []) ;;
      text <- py_strip t ;;
      telegram_webhook_command cfg repr w chat_id text) st) st.
Proof.
  assert (Returns : inert (ret empty_200 st) st).
  { split; [reflexivity | left; reflexivity]. }
  assert (Raises : forall e, In e payload_errors ->
             inert (@Raise (pyval * Z) e, st) st).
  { intros e He. split; [reflexivity | right; now exists e]. }
  intros H.
  destruct message as [| b | z | s | l | items].
  - exact Returns.
  - destruct b; [| exact Returns]. apply Raises. simpl. tauto.
  - cbn [truthy]. destruct (z =? 0)%Z; [exact Returns |].
    apply Raises. simpl. tauto.
  - destruct s; [exact Returns |]. apply Raises. simpl. tauto.
  - destruct l; [exact Returns |]. apply Raises. simpl. tauto.
  - destruct items as [| kv items']; [exact Returns |].
    set (items := kv :: items') in *.
    change (truthy (PDict items)) with true. cbn [negb].
    unfold py_index at 1. unfold bind at 1.
    destruct (lookup (lit "chat") items) as [chat |];
      [| apply Raises; simpl; tauto].
    unfold ret at 1.
    destruct chat as [| b | z | s | l | c];
      try (apply Raises; simpl; tauto).
    unfold py_index at 1. unfold bind at 1.
    destruct (lookup (lit "id") c) as [cid |];
      [| apply Raises; simpl; tauto].
    unfold ret at 1. unfold py_get. unfold bind at 1. unfold ret at 1.
    destruct (lookup (lit "text") items) as [[| b | z | s | l | d] |];
      try discriminate; apply Raises; simpl; tauto.
Qed.

(** A request that is not a well-formed message update has no effect. *)
Lemma webhook_not_incoming (req : request) (st : state) :
  incoming_raw req = None ->
  inert (telegram_webhook cfg repr w req st) st.
Proof.
  assert (Returns : inert (ret empty_200 st) st).
  { split; [reflexivity | left; reflexivity]. }
  assert (Raises : forall e, In e payload_errors ->
             inert (@Raise (pyval * Z) e, st) st).
  { intros e He. split; [reflexivity | right; now exists e]. }
  unfold incoming_raw, telegram_webhook. intros H.
  destruct (str_eqb (method req) (lit "POST")); [| exact Returns].
  unfold get_json.
  destruct (body_json req) as [update |];
    [| apply Raises; simpl; tauto].
  unfold bind at 1. unfold ret at 1.
  destruct update as [| b | z | s | l | u].
  - exact Returns.
  - destruct b; [| exact Returns]. apply Raises. simpl. tauto.
  - cbn [truthy]. destruct (z =? 0)%Z; [exact Returns |].
    apply Raises. simpl. tauto.
  - destruct s; [exact Returns |]. apply Raises. simpl. tauto.
  - destruct l; [exact Returns |]. apply Raises. simpl. tauto.
  - destruct u as [| kv u']; [exact Returns |].
    set (U := kv :: u') in *.
    change (truthy (PDict U)) with true. cbn [negb].
    unfold py_get at 1. fold (get_or_none (lit "message") U).
    unfold bind at 1. unfold ret at 1.
    cbv zeta in H.
    destruct (truthy (get_or_none (lit "message") U)).
    + unfold bind at 1. unfold ret at 1.
      now apply webhook_tail_malformed.
    + unfold py_get at 1. fold (get_or_none (lit "edited_message") U).
      unfold bind at 1. unfold ret at 1.
      now apply webhook_tail_malformed.
Qed.

End Payload.

(** X12.  A request that is not a well-formed message update (a body
    that is not JSON, a JSON value that is not an object, an update
    without message, a message that is not an object or has no [chat] or
    no [chat.id], a [text] that is not a string) has no effect at all: no
    request to Telegram or to the transcription service, no log, no task.
    The handler either answers [({}, 200)] or raises [BadRequest],
    [AttributeError], [TypeError] or the [KeyError] of the missing key. *)
Theorem malformed_update_no_effect (cfg : config) (repr : pyval -> pystr)
    (w : world) (req : request) (st : state) :
  incoming_raw req = None ->
  snd (telegram_webhook cfg repr w req st) = st
  /\ (fst (telegram_webhook cfg repr w req st) = Ok (PDict [], 200%Z)
      \/ exists e,
           fst (telegram_webhook cfg repr w req st) = Raise e
           /\ In e [BadRequest; AttributeError; TypeError;
                    KeyError (lit "chat"); KeyError (lit "id")]).
Proof.
  intros H. exact (webhook_not_incoming cfg repr w req st H).
Qed.

Lemma malformed_update_no_effect_witness :
  incoming_raw Sample.chatless_update = None
  /\ snd (telegram_webhook Sample.cfg Sample.repr Sample.processing
            Sample.chatless_update initial) = initial
  /\ (fst (telegram_webhook Sample.cfg Sample.repr Sample.processing
             Sample.chatless_update initial) = Ok (PDict [], 200%Z)
      \/ exists e,
           fst (telegram_webhook Sample.cfg Sample.repr Sample.processing
                  Sample.chatless_update initial) = Raise e
           /\ In e [BadRequest; AttributeError; TypeError;
                    KeyError (lit "chat"); KeyError (lit "id")]).
Proof.
  split; [reflexivity |].
  apply (malformed_update_no_effect Sample.cfg Sample.repr Sample.processing
           Sample.chatless_update initial eq_refl).
Defined.

Lemma threads_app (a b : list event) :
  threads (a ++ b) = threads a ++ threads b.
Proof. unfold threads. apply flat_map_app. Qed.

Lemma chat_only_no_threads (evs : list event) :
  chat_only evs = true -> threads evs = [].
Proof.
  induction evs as [| e evs IH]; [reflexivity |]. simpl.
  destruct e as [[] | | |]; simpl; try discriminate; exact IH.
Qed.

Lemma create_result_ok (r : response) (order_id : pyval) :
  is_error_status (resp_status_code r) = false ->
  body_order_id r = Some order_id ->
  create_result (Responded r) = Ok order_id.
Proof.
  unfold body_order_id. intros Hs Hb. cbn [create_result]. rewrite Hs.
  destruct (resp_json r) as [[| | | | | d] |]; try discriminate.
  now rewrite Hb.
Qed.

(** A first request that fails ends [send_message] there. *)
Lemma send_first_fails (w : world) (parts : list pystr) (n : nat) :
  parts <> [] ->
  answers_json (telegram w n) = false ->
  sent_count w n parts = 1 /\ exists e, send_outcome w n parts = Raise e.
Proof.
  destruct parts as [| part parts]; [congruence |]. intros _ H.
  cbn [sent_count send_outcome]. rewrite H. split; [reflexivity |].
  unfold answers_json in H.
  destruct (telegram w n) as [r |]; [| now eexists].
  destruct (resp_json r); [discriminate | now eexists].
Qed.

Lemma new_events_with_event (st : state) (j k : nat) (e1 e2 : list event)
    (e : event) :
  new_events st
    (with_event (after_telegram (after_transkriptor st j e1) k e2) e) =
  e1 ++ e2 ++ [e].
Proof.
  unfold new_events, with_event, after_telegram, after_transkriptor.
  cbn [trace]. rewrite <- !app_assoc, skipn_app, Nat.sub_diag, skipn_all.
  reflexivity.
Qed.

Lemma started_text_nonempty (repr : pyval -> pystr) (order_id : pyval) :
  message_parts (started_text repr order_id) <> [].
Proof. apply message_parts_nonempty. discriminate. Qed.

Example webhook_null_order_id :
  effects (trace (snd (telegram_webhook Sample.cfg Sample.repr
                         (Sample.serving (Responded Cases.null_id_reply))
                         (Sample.text_update (lit "/transcribe https://x"))
                         initial))) =
  [create_request Sample.cfg (lit "https://x") (lit "en-US")
     (lit "Standard");
   sendMessage Sample.cfg Sample.chat PNone
     ([9989]%N ++ lit " Transcription started! Order ID: None" ++ [10]%N
      ++ lit "I'll notify you when it's ready.");
   ThreadStart PNone Sample.chat].
Proof. reflexivity. Qed.

(** The run of the handler on an accepted order whose acknowledgement
    Telegram answers. *)
Lemma accepted_order_run (cfg : config) (repr : pyval -> pystr)
    (w : world) (req : request) (chat_id : pyval) (text : pystr)
    (st : state) (r : response) (order_id : pyval) :
  incoming req = Some (chat_id, text) ->
  startswith text token = true ->
  existsb isspace text = true ->
  transkriptor w (tr_calls st) = Responded r ->
  is_error_status (resp_status_code r) = false ->
  body_order_id r = Some order_id ->
  let ack :=
    [9989]%N ++ lit " Transcription started! Order ID: "
    ++ format repr order_id ++ [10]%N
    ++ lit "I'll notify you when it's ready." in
  (forall i, i < length (message_parts ack) ->
     answers_json (telegram w (tg_calls st + i)) = true) ->
  let out := telegram_webhook cfg repr w req st in
  let evs := new_events st (snd out) in
  fst out = Ok (PDict [], 200%Z)
  /\ effects evs =
     create_request cfg (argument text) (lit "en-US") (lit "Standard")
     :: map (sendMessage cfg chat_id PNone) (message_parts ack)
     ++ [ThreadStart order_id chat_id]
  /\ threads evs = [(order_id, chat_id)]
  /\ sleeps evs = [].
Proof.
  intros Hin Hs Hex E Herr Hid ack Hall. cbv zeta.
  destruct (webhook_incoming cfg repr w req st Hin) as [Hrun Hfix].
  rewrite Hrun. clear Hrun.
  destruct (@split_command text Hs Hfix) as [Hyes _].
  destruct (Hyes Hex) as [Hsplit _].
  assert (Hc : create_result (transkriptor w (tr_calls st)) = Ok order_id)
    by (rewrite E; now apply create_result_ok).
  rewrite (command_accepted cfg repr w chat_id text st Hs Hsplit Hc).
  cbv zeta. change (started_text repr order_id) with ack.
  destruct (send_all_answered w (message_parts ack) (tg_calls st) Hall)
    as [Hk Ho].
  rewrite Ho, Hk, firstn_all. cbn [fst snd]. unfold submitted_state.
  rewrite new_events_with_event.
  set (posted := parts_trace cfg w chat_id PNone (message_parts ack)
                   (tg_calls st)).
  assert (Hchat : chat_only posted = true)
    by apply chat_only_parts_trace.
  split; [reflexivity |]. split; [| split].
  - rewrite !effects_app. unfold posted. rewrite effects_parts_trace.
    reflexivity.
  - rewrite !threads_app, (chat_only_no_threads posted Hchat). reflexivity.
  - rewrite !sleeps_app, (chat_only_no_sleep posted Hchat). reflexivity.
Qed.

(** X9.  When the creation call is answered with a status that is not
    4xx/5xx and a JSON object holding [order_id] (a value of any JSON
    type, taken as it is), and Telegram answers the acknowledgement, the
    handler does exactly this, in this order: the creation request for
    the argument, the acknowledgement [Transcription started! Order ID:
    <order_id> ...] through [send_message], and the start of one delivery
    task for that order id and the chat of the message; it then answers
    [({}, 200)] without waiting for the task. *)
Theorem accepted_order_flow (cfg : config) (repr : pyval -> pystr)
    (w : world) (req : request) (chat_id : pyval) (text : pystr)
    (st : state) (r : response) (order_id : pyval) :
  incoming req = Some (chat_id, text) ->
  startswith text token = true ->
  existsb isspace text = true ->
  transkriptor w (tr_calls st) = Responded r ->
  is_error_status (resp_status_code r) = false ->
  body_order_id r = Some order_id ->
  let ack :=
    [9989]%N ++ lit " Transcription started! Order ID: "
    ++ format repr order_id ++ [10]%N
    ++ lit "I'll notify you when it's ready." in
  (forall i, i < length (message_parts ack) ->
     answers_json (telegram w (tg_calls st + i)) = true) ->
  let out := telegram_webhook cfg repr w req st in
  let evs := new_events st (snd out) in
  fst out = Ok (PDict [], 200%Z)
  /\ effects evs =
     create_request cfg (argument text) (lit "en-US") (lit "Standard")
     :: map (sendMessage cfg chat_id PNone) (message_parts ack)
     ++ [ThreadStart order_id chat_id]
  /\ threads evs = [(order_id, chat_id)]
  /\ sleeps evs = [].
Proof.
  intros Hin Hs Hex E Herr Hid ack Hall.
  exact (accepted_order_run cfg repr w req st Hin Hs Hex E Herr Hid Hall).
Qed.

Lemma accepted_order_flow_witness :
  incoming (Sample.text_update (lit "/transcribe https://x")) =
    Some (Sample.chat, lit "/transcribe https://x")
  /\ body_order_id Sample.created_reply = Some (PStr (lit "abc123"))
  /\ threads
       (new_events initial
          (snd (telegram_webhook Sample.cfg Sample.repr
                  (Sample.serving (Responded Sample.created_reply))
                  (Sample.text_update (lit "/transcribe https://x"))
                  initial))) = [(PStr (lit "abc123"), Sample.chat)].
Proof.
  do 2 (split; [reflexivity |]).
  apply (accepted_order_flow Sample.cfg Sample.repr
           (Sample.serving (Responded Sample.created_reply))
           (Sample.text_update (lit "/transcribe https://x")) initial
           (chat_id := Sample.chat) (text := lit "/transcribe https://x")
           (r := Sample.created_reply) (order_id := PStr (lit "abc123"))
           eq_refl eq_refl eq_refl eq_refl eq_refl eq_refl).
  intros i _. reflexivity.
Defined.

(** X10.  If the order is accepted but the acknowledgement cannot be
    delivered (the first Telegram request gets no response, or one whose
    body is not JSON), the exception leaves the handler and the delivery
    task is never started: the order exists at the transcription service
    but nothing will poll it. *)
Theorem unacknowledged_order_not_polled (cfg : config)
    (repr : pyval -> pystr) (w : world) (req : request) (chat_id : pyval)
    (text : pystr) (st : state) (r : response) (order_id : pyval) :
  incoming req = Some (chat_id, text) ->
  startswith text token = true ->
  existsb isspace text = true ->
  transkriptor w (tr_calls st) = Responded r ->
  is_error_status (resp_status_code r) = false ->
  body_order_id r = Some order_id ->
  answers_json (telegram w (tg_calls st)) = false ->
  let ack :=
    [9989]%N ++ lit " Transcription started! Order ID: "
    ++ format repr order_id ++ [10]%N
    ++ lit "I'll notify you when it's ready." in
  let out := telegram_webhook cfg repr w req st in
  let evs := new_events st (snd out) in
  (exists e, fst out = Raise e)
  /\ effects evs =
     create_request cfg (argument text) (lit "en-US") (lit "Standard")
     :: map (sendMessage cfg chat_id PNone) (firstn 1 (message_parts ack))
  /\ threads evs = []
  /\ started evs = false.
Proof.
  intros Hin Hs Hex E Herr Hid Hdown. cbv zeta.
  destruct (webhook_incoming cfg repr w req st Hin) as [Hrun Hfix].
  rewrite Hrun. clear Hrun.
  destruct (@split_command text Hs Hfix) as [Hyes _].
  destruct (Hyes Hex) as [Hsplit _].
  assert (Hc : create_result (transkriptor w (tr_calls st)) = Ok order_id)
    by (rewrite E; now apply create_result_ok).
  rewrite (command_accepted cfg repr w chat_id text st Hs Hsplit Hc).
  cbv zeta.
  change (started_text repr order_id)
    with ([9989]%N ++ lit " Transcription started! Order ID: "
          ++ format repr order_id ++ [10]%N
          ++ lit "I'll notify you when it's ready.").
  set (ack := [9989]%N ++ lit " Transcription started! Order ID: "
              ++ format repr order_id ++ [10]%N
              ++ lit "I'll notify you when it's ready.").
  destruct (@send_first_fails w (message_parts ack) (tg_calls st))
    as [Hk [e Ho]].
  { apply message_parts_nonempty. discriminate. }
  { exact Hdown. }
  rewrite Ho, Hk. cbn [fst snd]. unfold submitted_state.
  rewrite new_events_both.
  set (posted := parts_trace cfg w chat_id PNone
                   (firstn 1 (message_parts ack)) (tg_calls st)).
  assert (Hchat : chat_only posted = true)
    by apply chat_only_parts_trace.
  split; [now exists e |]. split; [| split].
  - rewrite effects_app. unfold posted. rewrite effects_parts_trace.
    reflexivity.
  - rewrite threads_app, (chat_only_no_threads posted Hchat). reflexivity.
  - rewrite started_app, (chat_only_not_started posted Hchat). reflexivity.
Qed.

Lemma unacknowledged_order_not_polled_witness :
  incoming (Sample.text_update (lit "/transcribe https://x")) =
    Some (Sample.chat, lit "/transcribe https://x")
  /\ body_order_id Sample.created_reply = Some (PStr (lit "abc123"))
  /\ answers_json (telegram Cases.accepted_telegram_down (tg_calls initial))
     = false
  /\ started
       (new_events initial
          (snd (telegram_webhook Sample.cfg Sample.repr
                  Cases.accepted_telegram_down
                  (Sample.text_update (lit "/transcribe https://x"))
                  initial))) = false.
Proof.
  do 3 (split; [reflexivity |]).
  apply (unacknowledged_order_not_polled Sample.cfg Sample.repr
           Cases.accepted_telegram_down
           (Sample.text_update (lit "/transcribe https://x")) initial
           (chat_id := Sample.chat) (text := lit "/transcribe https://x")
           (r := Sample.created_reply) (order_id := PStr (lit "abc123"))
           eq_refl eq_refl eq_refl eq_refl eq_refl eq_refl eq_refl).
Defined.

(** X11.  When [create_transcription] raises anything other than an
    [HTTPError] (no response from the service, a body that is not JSON,
    a JSON body without [order_id]), the handler lets the exception
    through right after the creation request: the chat is told nothing,
    not even a failure message, and no task is started. *)
Theorem creation_error_not_reported (cfg : config) (repr : pyval -> pystr)
    (w : world) (req : request) (chat_id : pyval) (text : pystr)
    (st : state) (e : exn) :
  incoming req = Some (chat_id, text) ->
  startswith text token = true ->
  existsb isspace text = true ->
  fst (create_transcription cfg w (argument text) (lit "en-US")
         (lit "Standard") st) = Raise e ->
  (forall r, e <> HTTPError r) ->
  let out := telegram_webhook cfg repr w req st in
  let evs := new_events st (snd out) in
  fst out = Raise e
  /\ evs = [create_request cfg (argument text) (lit "en-US")
              (lit "Standard")]
  /\ tg_calls (snd out) = tg_calls st.
Proof.
  intros Hin Hs Hex Hcreate Hne. cbv zeta.
  destruct (webhook_incoming cfg repr w req st Hin) as [Hrun Hfix].
  rewrite Hrun. clear Hrun.
  destruct (@split_command text Hs Hfix) as [Hyes _].
  destruct (Hyes Hex) as [Hsplit _].
  rewrite create_transcription_run in Hcreate. cbn [fst] in Hcreate.
  rewrite (command_create_raises cfg repr w chat_id text st
             Hs Hsplit Hcreate Hne).
  cbn [fst snd]. unfold submitted_state.
  rewrite new_events_after_transkriptor. repeat split.
Qed.

Lemma creation_error_not_reported_witness :
  incoming (Sample.text_update (lit "/transcribe https://x")) =
    Some (Sample.chat, lit "/transcribe https://x")
  /\ fst (create_transcription Sample.cfg (Sample.serving NoResponse)
            (argument (lit "/transcribe https://x")) (lit "en-US")
            (lit "Standard") initial) = Raise RequestException
  /\ fst (telegram_webhook Sample.cfg Sample.repr
            (Sample.serving NoResponse)
            (Sample.text_update (lit "/transcribe https://x")) initial) =
     Raise RequestException
  /\ new_events initial
       (snd (telegram_webhook Sample.cfg Sample.repr
               (Sample.serving NoResponse)
               (Sample.text_update (lit "/transcribe https://x"))
               initial)) =
     [create_request Sample.cfg (argument (lit "/transcribe https://x"))
        (lit "en-US") (lit "Standard")]
  /\ tg_calls
       (snd (telegram_webhook Sample.cfg Sample.repr
               (Sample.serving NoResponse)
               (Sample.text_update (lit "/transcribe https://x"))
               initial)) = tg_calls initial.
Proof.
  do 2 (split; [reflexivity |]).
  apply (creation_error_not_reported Sample.cfg Sample.repr
           (Sample.serving NoResponse)
           (Sample.text_update (lit "/transcribe https://x")) initial
           (chat_id := Sample.chat) (text := lit "/transcribe https://x")
           (e := RequestException) eq_refl eq_refl eq_refl eq_refl).
  discriminate.
Defined.

Section Footprint.

Variable cfg : config.
Variable repr : pyval -> pystr.
Variable w : world.

(** A run made of an optional creation request, then chat events, then an
    optional task start (only on the way to a 200) stays within the
    handler's footprint. *)
Lemma footprint_shape (st st' : state) (res : result (pyval * Z))
    (pre chat_evs post : list event) :
  trace st' = trace st ++ pre ++ chat_evs ++ post ->
  tr_calls st' = tr_calls st + length pre ->
  chat_only chat_evs = true ->
  documents chat_evs = [] ->
  pre = []
  \/ (exists url,
        pre = [create_request cfg url (lit "en-US") (lit "Standard")]) ->
  post = []
  \/ ((exists order_id chat_id, post = [ThreadStart order_id chat_id])
      /\ res = Ok empty_200 /\ pre <> []) ->
  handler_footprint_of st (res, st').
Proof.
  intros Htrace Htr Hchat Hdoc Hpre Hpost.
  unfold handler_footprint_of. cbv zeta. cbn [fst snd].
  assert (Hev : new_events st st' = pre ++ chat_evs ++ post).
  { unfold new_events. rewrite Htrace, skipn_app, Nat.sub_diag, skipn_all.
    reflexivity. }
  rewrite Hev, Htr.
  rewrite !sleeps_app, !documents_app, !threads_app, !started_app,
    !submitted_app.
  rewrite (chat_only_no_sleep chat_evs Hchat), Hdoc,
    (chat_only_no_threads chat_evs Hchat),
    (chat_only_not_started chat_evs Hchat),
    (chat_only_not_submitted chat_evs Hchat).
  destruct Hpre as [-> | [url ->]];
    destruct Hpost as [-> | [[o [c ->]] [-> Hne]]];
    cbn; repeat split; try lia; try discriminate; try congruence.
  exists o, c,
    (create_request cfg url (lit "en-US") (lit "Standard") :: chat_evs).
  reflexivity.
Qed.

Lemma command_footprint (chat_id : pyval) (text : pystr) (st : state) :
  handler_footprint_of st
    (telegram_webhook_command cfg repr w chat_id text st).
Proof.
  destruct (startswith text token) eqn:Hs.
  2:{ rewrite (command_other_text cfg repr w chat_id text st Hs).
      apply footprint_shape
        with (pre := [])
             (chat_evs := sendMessage cfg chat_id PNone reminder_hint
                          :: failure_log (lit "sendMessage")
                               (telegram w (tg_calls st)))
             (post := []).
      - cbn [after_telegram trace app]. now rewrite app_nil_r.
      - cbn [after_telegram tr_calls length]. lia.
      - change (?a :: failure_log ?x ?y) with ([a] ++ failure_log x y).
        now rewrite chat_only_app, chat_only_failure_log.
      - change (?a :: failure_log ?x ?y) with ([a] ++ failure_log x y).
        now rewrite documents_app, documents_failure_log.
      - now left.
      - now left. }
  destruct (length (split_maxsplit1 text) =? 2) eqn:Hl.
  2:{ rewrite (command_bare cfg repr w chat_id text st Hs Hl).
      apply footprint_shape
        with (pre := [])
             (chat_evs := sendMessage cfg chat_id PNone usage_hint
                          :: failure_log (lit "sendMessage")
                               (telegram w (tg_calls st)))
             (post := []).
      - cbn [after_telegram trace app]. now rewrite app_nil_r.
      - cbn [after_telegram tr_calls length]. lia.
      - change (?a :: failure_log ?x ?y) with ([a] ++ failure_log x y).
        now rewrite chat_only_app, chat_only_failure_log.
      - change (?a :: failure_log ?x ?y) with ([a] ++ failure_log x y).
        now rewrite documents_app, documents_failure_log.
      - now left.
      - now left. }
  apply Nat.eqb_eq in Hl.
  destruct (split_maxsplit1 text) as [| word [| arg [| x rest]]] eqn:Hsplit;
    try discriminate.
  set (request := create_request cfg arg (lit "en-US") (lit "Standard")).
  assert (Hpre : [request] = []
                 \/ (exists url,
                       [request] =
                       [create_request cfg url (lit "en-US")
                          (lit "Standard")]))
    by (right; now exists arg).
  destruct (create_result (transkriptor w (tr_calls st)))
    as [order_id | e] eqn:Hc.
  - rewrite (command_accepted cfg repr w chat_id text st Hs Hsplit Hc).
    cbv zeta.
    set (parts := message_parts (started_text repr order_id)).
    set (k := sent_count w (tg_calls st) parts).
    destruct (send_outcome w (tg_calls st) parts) as [[] | e].
    + apply footprint_shape
        with (pre := [request])
             (chat_evs := parts_trace cfg w chat_id PNone (firstn k parts)
                            (tg_calls st))
             (post := [ThreadStart order_id chat_id]).
      * unfold with_event, submitted_state, after_telegram,
          after_transkriptor. cbn [trace]. now rewrite <- !app_assoc.
      * reflexivity.
      * apply chat_only_parts_trace.
      * apply documents_parts_trace.
      * exact Hpre.
      * right. split; [now exists order_id, chat_id |].
        split; [reflexivity | discriminate].
    + apply footprint_shape
        with (pre := [request])
             (chat_evs := parts_trace cfg w chat_id PNone (firstn k parts)
                            (tg_calls st))
             (post := []).
      * unfold submitted_state, after_telegram, after_transkriptor.
        cbn [trace]. now rewrite <- !app_assoc, app_nil_r.
      * reflexivity.
      * apply chat_only_parts_trace.
      * apply documents_parts_trace.
      * exact Hpre.
      * now left.
  - assert (D : (exists r, e = HTTPError r) \/ (forall r, e <> HTTPError r)).
    { destruct e; try (right; discriminate). left. now exists r. }
    destruct D as [[r ->] | Hne].
    + rewrite (command_refused cfg repr w chat_id text st Hs Hsplit Hc).
      cbv zeta.
      set (parts := message_parts (create_failed_text r)).
      set (k := sent_count w (tg_calls st) parts).
      apply footprint_shape
        with (pre := [request])
             (chat_evs := parts_trace cfg w chat_id PNone (firstn k parts)
                            (tg_calls st))
             (post := []).
      * unfold submitted_state, after_telegram, after_transkriptor.
        cbn [trace]. now rewrite <- !app_assoc, app_nil_r.
      * reflexivity.
      * apply chat_only_parts_trace.
      * apply documents_parts_trace.
      * exact Hpre.
      * now left.
    + rewrite (command_create_raises cfg repr w chat_id text st
                 Hs Hsplit Hc Hne).
      apply footprint_shape
        with (pre := [request]) (chat_evs := []) (post := []).
      * reflexivity.
      * reflexivity.
      * reflexivity.
      * reflexivity.
      * exact Hpre.
      * now left.
Qed.

End Footprint.

(** X13.  Whatever the request and whatever the services answer, the
    handler never sleeps and never polls or uploads: it makes at most one
    call to the transcription service (the creation request) and starts
    at most one delivery task; when it starts one, an order was created,
    starting the task is the last thing the handler does, and it answers
    [({}, 200)]. *)
Theorem handler_footprint (cfg : config) (repr : pyval -> pystr)
    (w : world) (req : request) (st : state) :
  let out := telegram_webhook cfg repr w req st in
  let evs := new_events st (snd out) in
  sleeps evs = []
  /\ documents evs = []
  /\ tr_calls (snd out) <= tr_calls st + 1
  /\ length (threads evs) <= 1
  /\ (started evs = true ->
      fst out = Ok (PDict [], 200%Z)
      /\ submitted evs = true
      /\ exists order_id chat_id before,
           evs = before ++ [ThreadStart order_id chat_id]).
Proof.
  change (handler_footprint_of st (telegram_webhook cfg repr w req st)).
  destruct (incoming_raw req) as [[chat_id raw] |] eqn:Hin.
  - rewrite (webhook_incoming_raw cfg repr w req st Hin).
    apply command_footprint.
  - destruct (webhook_not_incoming cfg repr w req st Hin) as [Hst _].
    destruct (telegram_webhook cfg repr w req st) as [res st'].
    cbn [snd] in Hst. subst st'.
    apply footprint_shape
      with (cfg := cfg) (pre := []) (chat_evs := []) (post := []).
    + cbn [app]. now rewrite app_nil_r.
    + cbn [length]. lia.
    + reflexivity.
    + reflexivity.
    + now left.
    + now left.
Qed.

Section Selection.

Variable cfg : config.
Variable repr : pyval -> pystr.
Variable w : world.

(** Lines 135-157 on the selected message. *)
Lemma webhook_selects (req : request) (u : list (pystr * pyval))
    (st : state) :
  str_eqb (method req) (lit "POST") = true ->
  body_json req = Some (PDict u) ->
  u <> [] ->
  telegram_webhook cfg repr w req st =
  (if negb (truthy (selected_message u)) then ret empty_200 else
   chat <- py_index (selected_message u) (lit "chat") ;;
   chat_id <- py_index chat (lit "id") ;;
   t <- py_get (selected_message u) (lit "text") (PStr []) ;;
   text <- py_strip t ;;
   telegram_webhook_command cfg repr w chat_id text) st.
Proof.
  intros Hm Hb Hne. unfold telegram_webhook. rewrite Hm.
  unfold get_json. rewrite Hb. unfold bind at 1. unfold ret at 1.
  destruct u as [| kv u']; [congruence |].
  set (U := kv :: u').
  change (truthy (PDict U)) with true. cbn [negb].
  unfold py_get at 1. fold (get_or_none (lit "message") U).
  unfold bind at 1. unfold ret at 1.
  unfold selected_message.
  destruct (truthy (get_or_none (lit "message") U)).
  - unfold bind at 1. unfold ret at 1. reflexivity.
  - unfold py_get at 1. fold (get_or_none (lit "edited_message") U).
    unfold bind at 1. unfold ret at 1. reflexivity.
Qed.

Lemma webhook_by_selection (u : list (pystr * pyval)) (st : state) :
  u <> [] ->
  telegram_webhook cfg repr w (update_request u) st =
  (if negb (truthy (selected_message u)) then ret empty_200 else
   chat <- py_index (selected_message u) (lit "chat") ;;
   chat_id <- py_index chat (lit "id") ;;
   t <- py_get (selected_message u) (lit "text") (PStr []) ;;
   text <- py_strip t ;;
   telegram_webhook_command cfg repr w chat_id text) st.
Proof.
  intros Hne. now apply webhook_selects.
Qed.

End Selection.

(** X14.  An edited message is handled exactly like a new one: an update
    that carries a value under [edited_message] behaves as the update
    that carries the same value under [message].  When an update holds a
    truthy [message], its [edited_message] is ignored. *)
Theorem edited_message_like_message (cfg : config) (repr : pyval -> pystr)
    (w : world) (update_id message edited : pyval) (st : state) :
  telegram_webhook cfg repr w
    (update_request [(lit "update_id", update_id);
                     (lit "edited_message", message)]) st =
  telegram_webhook cfg repr w
    (update_request [(lit "update_id", update_id);
                     (lit "message", message)]) st
  /\ (truthy message = true ->
      telegram_webhook cfg repr w
        (update_request [(lit "update_id", update_id);
                         (lit "message", message);
                         (lit "edited_message", edited)]) st =
      telegram_webhook cfg repr w
        (update_request [(lit "update_id", update_id);
                         (lit "message", message)]) st).
Proof.
  rewrite !webhook_by_selection by discriminate.
  change (selected_message [(lit "update_id", update_id);
                            (lit "edited_message", message)])
    with message.
  change (selected_message [(lit "update_id", update_id);
                            (lit "message", message)])
    with (if truthy message then message else PNone).
  change (selected_message [(lit "update_id", update_id);
                            (lit "message", message);
                            (lit "edited_message", edited)])
    with (if truthy message then message else edited).
  split.
  - destruct (truthy message) eqn:T; rewrite ?T; reflexivity.
  - intros T. now rewrite T.
Qed.

(* ---------------------------------------------------------------------- *)
(** ** Trimming *)

Lemma rstrip_prefix (y : pystr) :
  exists suf, y = rstrip y ++ suf /\ forallb isspace suf = true.
Proof.
  unfold rstrip. exists (rev (takewhile isspace (rev y))). split.
  - rewrite <- rev_app_distr, takewhile_dropwhile. now rewrite rev_involutive.
  - pose proof (forallb_takewhile isspace (rev y)) as F.
    rewrite forallb_forall in *. intros x Hx. apply F. now apply in_rev.
Qed.

Lemma lstrip_strip (s : pystr) : lstrip (strip s) = strip s.
Proof.
  unfold strip. set (y := lstrip s).
  destruct (rstrip_prefix y) as [suf [Hy Hsuf]].
  destruct (rstrip y) as [| c t] eqn:R; [reflexivity |].
  assert (Hc : isspace c = false).
  { destruct y as [| c0 y'] eqn:Y; [discriminate |].
    cbn in Hy. injection Hy as -> _.
    unfold y, lstrip in Y. apply dropwhile_head in Y. tauto. }
  unfold lstrip. cbn [dropwhile]. now rewrite Hc.
Qed.

Lemma strip_idempotent (s : pystr) : strip (strip s) = strip s.
Proof.
  unfold strip at 1. rewrite lstrip_strip. apply rstrip_strip.
Qed.

(** X15.  White space around the text of a message does not matter, nor
    does the difference between an absent and an empty text: two
    well-formed updates from the same chat whose texts are equal after
    trimming are handled identically, in particular an update with text
    [s] and one with text [s.strip()]. *)
Theorem surrounding_whitespace_ignored (cfg : config)
    (repr : pyval -> pystr) (w : world) (req1 req2 : request)
    (chat_id : pyval) (raw1 raw2 : option pystr) (st : state) :
  incoming_raw req1 = Some (chat_id, raw1) ->
  incoming_raw req2 = Some (chat_id, raw2) ->
  trimmed raw1 = trimmed raw2 ->
  telegram_webhook cfg repr w req1 st = telegram_webhook cfg repr w req2 st
  /\ (forall s, trimmed (Some (strip s)) = trimmed (Some s))
  /\ trimmed None = trimmed (Some []).
Proof.
  intros H1 H2 Ht. split; [| split].
  - rewrite (webhook_incoming_raw cfg repr w req1 st H1).
    rewrite (webhook_incoming_raw cfg repr w req2 st H2).
    now rewrite Ht.
  - intros s. unfold trimmed. apply strip_idempotent.
  - reflexivity.
Qed.

Lemma surrounding_whitespace_ignored_witness :
  incoming_raw (Sample.text_update (lit "  /transcribe https://x  ")) =
    Some (Sample.chat, Some (lit "  /transcribe https://x  "))
  /\ incoming_raw (Sample.text_update (lit "/transcribe https://x")) =
     Some (Sample.chat, Some (lit "/transcribe https://x"))
  /\ trimmed (Some (lit "  /transcribe https://x  ")) =
     trimmed (Some (lit "/transcribe https://x"))
  /\ telegram_webhook Sample.cfg Sample.repr
       (Sample.serving (Responded Sample.created_reply))
       (Sample.text_update (lit "  /transcribe https://x  ")) initial =
     telegram_webhook Sample.cfg Sample.repr
       (Sample.serving (Responded Sample.created_reply))
       (Sample.text_update (lit "/transcribe https://x")) initial.
Proof.
  do 3 (split; [reflexivity |]).
  apply (surrounding_whitespace_ignored Sample.cfg Sample.repr
           (Sample.serving (Responded Sample.created_reply))
           (Sample.text_update (lit "  /transcribe https://x  "))
           (Sample.text_update (lit "/transcribe https://x")) initial
           (chat_id := Sample.chat)
           (raw1 := Some (lit "  /transcribe https://x  "))
           (raw2 := Some (lit "/transcribe https://x"))
           eq_refl eq_refl eq_refl).
Defined.


